(** * pixelflare-api: the contact / quote notification handlers

    A shallow embedding of the serverless handlers of [api/notify.ts] and of
    their sibling variants, and the properties of the request pipeline
    (validation, classification, rendering, dispatch) stated over it.

    Conventions of the embedding.
    - JavaScript strings are byte strings ([string]); text outside ASCII is
      kept as its UTF-8 bytes.  The only characters the code inspects
      ([&], [<], [>], the two quotes and the line feed) are ASCII, and no
      UTF-8 multi-byte sequence contains an ASCII byte.
    - A request body is a JSON-like [value].  A number is kept as the
      decimal text [Number.prototype.toString] gives for it: the handlers
      only test a number for truthiness and convert it to text.
    - A handler is a computation in a small exception-and-trace monad: the
      trace records console output, the CAPTCHA call, file reads and the
      mail-transport call in program order.
    - The behaviour of the collaborators (process environment, mail relay,
      CAPTCHA service, file system, clock, [JSON.parse], the multipart
      parser) is read from a [world] record.
    - A thrown value is an object with its [message], or [null] or
      [undefined]; converting an object to text can throw, and so can
      reading [message] of a nullish error.
    - CORS headers and SMTP connection settings are static configuration
      and are left out of the model. *)

From Stdlib Require Import String Ascii List ZArith Bool Lia.
From Stdlib Require Import DecimalString.
Import ListNotations.
Open Scope string_scope.
Open Scope list_scope.

Set Warnings "-register-all".

(** ** Strings *)

Definition dq_char : ascii := "034"%char.
Definition sq_char : ascii := "039"%char.
Definition lf_char : ascii := "010"%char.

Definition dq : string := String dq_char EmptyString.
Definition sq : string := String sq_char EmptyString.
Definition nl : string := String lf_char EmptyString.

(** [s.replace(/[...]/g, f)] for a character class: every character is
    replaced by [f] of it (the identity outside the class). *)
Fixpoint replace_each (f : ascii -> string) (s : string) : string :=
  match s with
  | EmptyString => EmptyString
  | String c t => f c ++ replace_each f t
  end.

Fixpoint occurs (c : ascii) (s : string) : bool :=
  match s with
  | EmptyString => false
  | String d t => Ascii.eqb c d || occurs c t
  end.

(** [contains p s]: [p] is a substring of [s]. *)
Fixpoint contains (p s : string) : bool :=
  String.prefix p s ||
  match s with
  | EmptyString => false
  | String _ t => contains p t
  end.

Fixpoint join (sep : string) (l : list string) : string :=
  match l with
  | [] => EmptyString
  | [x] => x
  | x :: r => x ++ sep ++ join sep r
  end.

(** [s.startsWith(p)] *)
Definition startsWith (s p : string) : bool := String.prefix p s.

(** ** JSON-like values *)

Inductive value : Type :=
| VUndef
| VNull
| VBool (b : bool)
| VNum (decimal : string)
| VStr (s : string)
| VArr (l : list value)
| VObj (o : list (string * value)).

(** JavaScript truthiness.  The falsy numbers are the two zeros, which both
    print as "0", and [NaN]. *)
Definition truthy (v : value) : bool :=
  match v with
  | VUndef | VNull => false
  | VBool b => b
  | VNum d => negb ((d =? "0") || (d =? "NaN"))
  | VStr s => negb (s =? "")
  | VArr _ | VObj _ => true
  end.

(** [a || b] *)
Definition or_else (a b : value) : value := if truthy a then a else b.

(** [v === "lit"] *)
Definition is_str (v : value) (lit : string) : bool :=
  match v with
  | VStr s => s =? lit
  | _ => false
  end.

Definition isArray (v : value) : bool :=
  match v with VArr _ => true | _ => false end.

Fixpoint assoc (k : string) (o : list (string * value)) : value :=
  match o with
  | [] => VUndef
  | (k', v) :: r => if k' =? k then v else assoc k r
  end.

(** [o[k] = v] on an object: overwrite in place, or append. *)
Fixpoint assign (k : string) (v : value) (o : list (string * value))
  : list (string * value) :=
  match o with
  | [] => [(k, v)]
  | (k', v') :: r => if k' =? k then (k', v) :: r else (k', v') :: assign k v r
  end.

(** [v.k] on a receiver that is neither [null] nor [undefined].  None of the
    property names the handlers read exists on a string, number, boolean or
    array. *)
Definition prop (v : value) (k : string) : value :=
  match v with
  | VObj o => assoc k o
  | _ => VUndef
  end.

Definition string_of_Z (n : Z) : string :=
  NilZero.string_of_int (Z.to_int n).

(** A whole number of magnitude below 1e21, which prints in full.  It is
    used for [Date.now()], a count of milliseconds below 8.64e15, and for
    the size of an uploaded file. *)
Definition integer (n : Z) : value := VNum (string_of_Z n).

(** No entry of the field list carries the key. *)
Definition has_key (k : string) (o : list (string * value)) : bool :=
  existsb (fun kv => fst kv =? k) o.

(** Whether [String(v)] returns.  A parsed object never holds a function,
    so an object with an entry named [toString] of its own has no usable
    conversion method ([Object.prototype.valueOf] returns the object
    itself) and the conversion throws; every other object is converted by
    [Object.prototype.toString].  An array is converted by [join], which
    converts its elements. *)
Fixpoint converts (v : value) : bool :=
  match v with
  | VArr l => forallb converts l
  | VObj o => negb (has_key "toString" o)
  | _ => true
  end.

(** The text [String(v)] yields when it returns; a template literal applies
    the same conversion. *)
Fixpoint toString (v : value) : string :=
  match v with
  | VUndef => "undefined"
  | VNull => "null"
  | VBool true => "true"
  | VBool false => "false"
  | VNum d => d
  | VStr s => s
  | VArr l =>
      join ","
        ((fix elems (l : list value) : list string :=
            match l with
            | [] => []
            | x :: r =>
                match x with
                | VUndef | VNull => EmptyString
                | _ => toString x
                end :: elems r
            end) l)
  | VObj _ => "[object Object]"
  end.

(** ** Thrown values

    Anything can be thrown or be the reason of a rejection.  Only the
    [message] of a caught value is ever read: [mkError m] stands for an
    [Error], or any other value that is neither [null] nor [undefined],
    whose [message] property is [m]. *)

Inductive thrown : Type :=
| mkError (message : value)
| thrown_null
| thrown_undefined.

Inductive result (A : Type) : Type :=
| Ok (a : A)
| Throw (e : thrown).
Arguments Ok {A} a.
Arguments Throw {A} e.

Definition and_then {A B : Type} (r : result A) (f : A -> result B) : result B :=
  match r with
  | Ok a => f a
  | Throw e => Throw e
  end.

Definition TypeError (msg : string) : thrown := mkError (VStr msg).

(** [err?.message] *)
Definition err_message (err : thrown) : value :=
  match err with
  | mkError m => m
  | thrown_null | thrown_undefined => VUndef
  end.

(** [err.message], which throws on [null] and [undefined]. *)
Definition read_message (err : thrown) : result value :=
  match err with
  | mkError m => Ok m
  | thrown_null =>
      Throw (TypeError "Cannot read properties of null (reading 'message')")
  | thrown_undefined =>
      Throw (TypeError "Cannot read properties of undefined (reading 'message')")
  end.

Definition no_primitive : thrown :=
  TypeError "Cannot convert object to primitive value".

(** [String(v)], which is also the conversion a template literal applies. *)
Definition ToString (v : value) : result string :=
  if converts v then Ok (toString v) else Throw no_primitive.

(** ** The helpers [esc] and [nl2br] *)

Definition esc_char (c : ascii) : string :=
  if Ascii.eqb c "&" then "&amp;"
  else if Ascii.eqb c "<" then "&lt;"
  else if Ascii.eqb c ">" then "&gt;"
  else if Ascii.eqb c dq_char then "&quot;"
  else if Ascii.eqb c sq_char then "&#39;"
  else String c EmptyString.

Definition esc_str (s : string) : string := replace_each esc_char s.

(** The text [esc(s)] yields when it returns; the parameter defaults to the
    empty string when [undefined]. *)
Definition esc (s : value) : string :=
  esc_str (toString (match s with VUndef => VStr "" | _ => s end)).

(** [esc(s)]: [String(s)], then the replacement. *)
Definition esc_call (s : value) : result string :=
  and_then (ToString (match s with VUndef => VStr "" | _ => s end))
           (fun t => Ok (esc_str t)).

Definition br_char (c : ascii) : string :=
  if Ascii.eqb c lf_char then "<br>" else String c EmptyString.

(** [s.replace(/\n/g, "<br>")] *)
Definition nl2br_str (s : string) : string := replace_each br_char s.

(** The text [nl2br(s)] yields when it returns. *)
Definition nl2br (s : value) : string :=
  nl2br_str (toString (match s with VUndef => VStr "" | _ => s end)).

(** [nl2br(s)]: [String(s)], then the replacement. *)
Definition nl2br_call (s : value) : result string :=
  and_then (ToString (match s with VUndef => VStr "" | _ => s end))
           (fun t => Ok (nl2br_str t)).

(** ** Templates

    A template literal is a sequence of static chunks and interpolated
    expressions, evaluated from left to right.  [Lit] is the template's own
    text (markup, fixed labels and generated timestamps); [Hole] is the text
    an interpolation of request data contributes, exactly as it is embedded;
    [Fail] is an interpolation whose evaluation throws. *)

Inductive piece : Type :=
| Lit (s : string)
| Hole (s : string)
| Fail (e : thrown).

Definition template := list piece.

Definition piece_text (p : piece) : string :=
  match p with
  | Lit s => s
  | Hole s => s
  | Fail _ => EmptyString
  end.

Definition render (t : template) : string :=
  String.concat "" (map piece_text t).

Fixpoint holes (t : template) : list string :=
  match t with
  | [] => []
  | Lit _ :: r => holes r
  | Hole s :: r => s :: holes r
  | Fail _ :: r => holes r
  end.

(** What the first failing interpolation throws. *)
Fixpoint failure (t : template) : option thrown :=
  match t with
  | [] => None
  | Fail e :: _ => Some e
  | _ :: r => failure r
  end.

(** The evaluated template: its pieces, unless an interpolation throws. *)
Definition settle (t : template) : result template :=
  match failure t with
  | Some e => Throw e
  | None => Ok t
  end.

(** The string the template literal evaluates to. *)
Definition text_of (t : template) : result string :=
  and_then (settle t) (fun t' => Ok (render t')).

(** The piece an interpolated expression contributes. *)
Definition hole (r : result string) : piece :=
  match r with
  | Ok s => Hole s
  | Throw e => Fail e
  end.

(** [${v}] *)
Definition put (v : value) : piece := hole (ToString v).

(** [${esc(v)}] *)
Definition put_esc (v : value) : piece := hole (esc_call v).

(** [${nl2br(esc(v))}] *)
Definition put_br_esc (v : value) : piece :=
  hole (and_then (esc_call v) (fun t => nl2br_call (VStr t))).

Fixpoint spaces (n : nat) : string :=
  match n with
  | O => EmptyString
  | S k => String " " (spaces k)
  end.

(** A line of a multi-line template: line feed, indentation, text. *)
Definition ln (indent : nat) (s : string) : string := nl ++ spaces indent ++ s.

(** ** Exceptions, effects and the handler monad *)

Inductive level : Type := log | warn | error.

Inductive logged : Type :=
| LV (v : value)
| LE (e : thrown).

(** An entry of nodemailer's [attachments] array. *)
Record attachment : Type := mkAttachment {
  filename : value;
  content : string
}.

(** The message handed to [transporter.sendMail]. *)
Record mail : Type := mkMail {
  subject : string;
  html : string;
  attachments : list attachment
}.

Inductive event : Type :=
| Console (l : level) (args : list logged)
| Fetch (url : string) (body : string)
| ReadFile (path : string)
| SendMail (m : mail).

Definition trace := list event.

Definition M (A : Type) : Type := (result A * trace)%type.

Definition ret {A} (a : A) : M A := (Ok a, []).

Definition bind {A B} (m : M A) (f : A -> M B) : M B :=
  match m with
  | (Ok a, t) => let '(r, t') := f a in (r, t ++ t')
  | (Throw e, t) => (Throw e, t)
  end.

Definition emit (e : event) : M unit := (Ok tt, [e]).

Definition lift {A} (r : result A) : M A := (r, []).

(** [try { m } catch (err) { h err }] *)
Definition try_catch {A} (m : M A) (h : thrown -> M A) : M A :=
  match m with
  | (Ok a, t) => (Ok a, t)
  | (Throw e, t) => let '(r, t') := h e in (r, t ++ t')
  end.

Declare Scope handler_scope.
Delimit Scope handler_scope with handler.
Notation "x <- m ;; k" := (bind m (fun x => k))
  (at level 61, m at next level, right associativity) : handler_scope.
Notation "m ;; k" := (bind m (fun _ => k))
  (at level 61, right associativity) : handler_scope.
Open Scope handler_scope.

Definition console (l : level) (args : list logged) : M unit :=
  emit (Console l args).

(** ** Requests, responses and the collaborators *)

(** A file part as the multipart parser reports it; the client's file name
    and the media type are strings or [null]. *)
Record File : Type := mkFile {
  filepath : string;
  original_name : option string;
  media_type : option string;
  size : Z
}.

Definition string_or_null (o : option string) : value :=
  match o with
  | Some s => VStr s
  | None => VNull
  end.

(** [file.originalFilename] *)
Definition originalFilename (f : File) : value := string_or_null (original_name f).

(** [file.mimetype] *)
Definition mimetype (f : File) : value := string_or_null (media_type f).

(** [files.attachment]: absent, a single file, or an array of files. *)
Inductive file_entry : Type :=
| NoFile
| OneFile (f : File)
| Files (l : list File).

Record form : Type := mkForm {
  fields : list (string * value);
  files_attachment : file_entry
}.

Record request : Type := mkRequest {
  method : string;
  content_type : option string;  (* req.headers["content-type"] *)
  req_body : value;              (* req.body, from the platform's body parser *)
  raw : string;                  (* the body stream, decoded as UTF-8 *)
  parsed : result form           (* what formidable's form.parse(req) yields *)
}.

Inductive response : Type :=
| End (code : Z)                     (* res.status(code).end() *)
| Json (code : Z) (payload : value). (* res.status(code).json(payload) *)

Definition status (r : response) : Z :=
  match r with End c => c | Json c _ => c end.

Record world : Type := mkWorld {
  env : string -> option string;          (* process.env *)
  transport : mail -> result value;       (* sendMail: info.messageId, or a rejection *)
  siteverify : string -> result value;    (* the verification call and resp.json() *)
  existsSync : string -> bool;
  readFileSync : string -> result string;
  Date_now : Z;
  toLocaleString : value -> string;       (* new Date(v).toLocaleString() *)
  JSON_parse : string -> result value
}.

(** [await transporter.sendMail(m)] *)
Definition sendMail (w : world) (m : mail) : M value :=
  emit (SendMail m) ;; lift (transport w m).

Definition is_send (e : event) : bool :=
  match e with SendMail _ => true | _ => false end.

(** The mail transport is invoked somewhere in the trace. *)
Definition sends (t : trace) : bool := existsb is_send t.

Definition obj_error (msg : string) : value := VObj [("error", VStr msg)].

Definition obj_failure (msg : value) : value :=
  VObj [("success", VBool false); ("error", msg)].

Definition obj_success (messageId : value) : value :=
  VObj [("success", VBool true); ("messageId", messageId)].

Definition method_not_allowed : response :=
  Json 405 (obj_error "Method not allowed").

(** [v.k], which throws on [null] and [undefined]. *)
Definition get (v : value) (k : string) : result value :=
  match v with
  | VUndef =>
      Throw (TypeError ("Cannot read properties of undefined (reading '" ++ k ++ "')"))
  | VNull =>
      Throw (TypeError ("Cannot read properties of null (reading '" ++ k ++ "')"))
  | _ => Ok (prop v k)
  end.

(** [if (m === "OPTIONS") ...; if (m !== "POST") ...]: the method gate every
    handler opens with. *)
Definition on_post (req : request) (post : M response) : M response :=
  if method req =? "OPTIONS" then ret (End 200)
  else if negb (method req =? "POST") then ret method_not_allowed
  else post.

(** ** The CAPTCHA-checking JSON handler
    (first handler of [src/unnamed/part_000], lines 1-157) *)

Module Captcha.

Definition submitted_footer (submittedAt : value) : template :=
  if truthy submittedAt
  then [Lit ("<p style=" ++ dq ++ "color:#666" ++ dq ++ "><small>Submitted: ");
        put_esc submittedAt;
        Lit "</small></p>"]
  else [].

(** [`📩 New Contact — ${name}`] *)
Definition contact_subject (name : value) : template :=
  [Lit "📩 New Contact — "; put name].

Definition contact_html (body : value) : template :=
  let name := prop body "name" in
  let email := prop body "email" in
  let phone := prop body "phone" in
  let message := prop body "message" in
  let submittedAt := prop body "submittedAt" in
  [Lit (ln 8 "<h2 style=" ++ dq ++ "color:#14276d;margin:0 0 12px" ++ dq
          ++ ">New Contact Message</h2>"
        ++ ln 8 "<p><b>Name:</b> ");
   put_esc name;
   Lit ("</p>" ++ ln 8 "<p><b>Email:</b> ");
   put_esc email;
   Lit ("</p>" ++ ln 8 "<p><b>Phone:</b> ");
   put_esc (or_else phone (VStr "N/A"));
   Lit ("</p>" ++ ln 8 "<p><b>Message:</b><br>");
   put_br_esc message;
   Lit ("</p>" ++ ln 8 "")]
  ++ submitted_footer submittedAt
  ++ [Lit (ln 6 "")].

(** [`🧾 New Quote — ${category} / ${service} — ${fullName}`] *)
Definition quote_subject (category service fullName : value) : template :=
  [Lit "🧾 New Quote — "; put category; Lit " / "; put service;
   Lit " — "; put fullName].

(** [cond ? `<p><b>Label:</b> ${esc(v)}</p>` : ""] *)
Definition optional_line (label : string) (v : value) : template :=
  if truthy v
  then [Lit ("<p><b>" ++ label ++ ":</b> "); put_esc v; Lit "</p>"]
  else [].

(** [goals.map(esc)]: the elements in order, up to the first that throws. *)
Fixpoint map_esc (l : list value) : result (list string) :=
  match l with
  | [] => Ok []
  | x :: r =>
      and_then (esc_call x) (fun s =>
      and_then (map_esc r) (fun ss => Ok (s :: ss)))
  end.

(** [Array.isArray(goals) && goals.length ? `...${goals.map(esc).join(", ")}...` : ""] *)
Definition goals_line (goals : value) : template :=
  match goals with
  | VArr (g :: r) =>
      [Lit "<p><b>Goals:</b> ";
       hole (and_then (map_esc (g :: r)) (fun ss => Ok (join ", " ss)));
       Lit "</p>"]
  | _ => []
  end.

Definition references_line (references : value) : template :=
  if truthy references
  then [Lit "<p><b>References:</b><br>";
        put_br_esc references;
        Lit "</p>"]
  else [].

Definition quote_html (body : value) : template :=
  let fullName := prop body "fullName" in
  let email := prop body "email" in
  let phone := prop body "phone" in
  let company := prop body "company" in
  let category := prop body "category" in
  let service := prop body "service" in
  let budget := prop body "budget" in
  let timeline := prop body "timeline" in
  let brief := prop body "brief" in
  let goals := prop body "goals" in
  let references := prop body "references" in
  let submittedAt := prop body "submittedAt" in
  [Lit (ln 8 "<h2 style=" ++ dq ++ "color:#14276d;margin:0 0 12px" ++ dq
          ++ ">New Quote Request</h2>"
        ++ ln 8 "<p><b>Name:</b> ");
   put_esc fullName;
   Lit ("</p>" ++ ln 8 "<p><b>Email:</b> ");
   put_esc email;
   Lit ("</p>" ++ ln 8 "<p><b>Phone:</b> ");
   put_esc (or_else phone (VStr ""));
   Lit ("</p>" ++ ln 8 "")]
  ++ optional_line "Company" company
  ++ [Lit (ln 8 "<p><b>Category:</b> ");
      put_esc category;
      Lit " — <b>Service:</b> ";
      put_esc service;
      Lit ("</p>" ++ ln 8 "")]
  ++ optional_line "Budget" budget
  ++ [Lit (ln 8 "")]
  ++ optional_line "Timeline" timeline
  ++ [Lit (ln 8 "<p><b>Brief:</b><br>");
      put_br_esc (or_else brief (VStr ""));
      Lit ("</p>" ++ ln 8 "")]
  ++ goals_line goals
  ++ [Lit (ln 8 "")]
  ++ references_line references
  ++ [Lit (ln 8 "")]
  ++ submitted_footer submittedAt
  ++ [Lit (ln 6 "")].

(** The reCAPTCHA block: [Some r] when it returns the response [r] from
    inside the [try], [None] when control falls through to the mail code. *)
Definition verify (w : world) (body : value) : M (option response) :=
  match env w "RECAPTCHA_SECRET" with
  | Some secret =>
      if negb (secret =? "") then
        let token := prop body "recaptchaToken" in
        if negb (truthy token)
        then ret (Some (Json 400 (obj_error "Missing reCAPTCHA token")))
        else
          response <- lift (ToString token) ;;
          let form_body := ("secret=" ++ secret ++ "&response=" ++ response)%string in
          emit (Fetch "https://www.google.com/recaptcha/api/siteverify" form_body) ;;
          data <- lift (siteverify w form_body) ;;
          success <- lift (get data "success") ;;
          if negb (truthy success)
          then ret (Some (Json 400
                 (VObj [("error", VStr "reCAPTCHA failed"); ("details", data)])))
          else ret None
      else ret None
  | None => ret None
  end.

Definition captcha (w : world) (body : value) : M (option response) :=
  try_catch (verify w body)
    (fun e =>
       console error [LV (VStr "reCAPTCHA verify error:"); LE e] ;;
       ret (Some (Json 400 (obj_error "reCAPTCHA verification error")))).

(** The classifier and renderer: the message to send, or the response the
    branch returns early; the subject is evaluated before the body. *)
Definition compose (body : value) : result (mail + response) :=
  if is_str (prop body "kind") "contact" then
    if negb (truthy (prop body "name")) || negb (truthy (prop body "email"))
       || negb (truthy (prop body "message"))
    then Ok (inr (Json 400 (obj_error "Missing required fields")))
    else
      and_then (text_of (contact_subject (prop body "name"))) (fun subject =>
      and_then (text_of (contact_html body)) (fun html =>
      Ok (inl (mkMail subject html []))))
  else if is_str (prop body "kind") "quote" then
    and_then (text_of (quote_subject (prop body "category") (prop body "service")
                                     (prop body "fullName"))) (fun subject =>
    and_then (text_of (quote_html body)) (fun html =>
    Ok (inl (mkMail subject html []))))
  else Ok (inr (Json 400 (obj_error "Unknown kind"))).

Definition deliver (w : world) (body : value) : M response :=
  try_catch
    (composed <- lift (compose body) ;;
     match composed with
     | inr r => ret r
     | inl m =>
         messageId <- sendMail w m ;;
         ret (Json 200 (obj_success messageId))
     end)
    (fun err =>
       console error [LV (VStr "Email send failed:"); LE err] ;;
       ret (Json 500 (obj_failure (VStr "Failed to send email")))).

Definition handler (w : world) (req : request) : M response :=
  on_post req
    (let body := or_else (req_body req) (VObj []) in
     if negb (truthy (prop body "kind"))
     then ret (Json 400 (obj_error "Invalid payload: missing kind"))
     else
       checked <- captcha w body ;;
       match checked with
       | Some r => ret r
       | None => deliver w body
       end).

End Captcha.

(** ** Parts shared by the handlers without escaping *)

(** [arr.join(sep)]: [null] and [undefined] elements contribute nothing. *)
Definition elem_text (v : value) : string :=
  match v with
  | VUndef | VNull => EmptyString
  | _ => toString v
  end.

(** The text [arr.join(sep)] yields when it returns. *)
Definition array_join (sep : string) (l : list value) : string :=
  join sep (map elem_text l).

(** [arr.join(sep)]: the conversion of an element can throw. *)
Definition join_call (sep : string) (l : list value) : result string :=
  if forallb converts l then Ok (array_join sep l) else Throw no_primitive.

(** [v?.replace(/\n/g, "<br>")]: [undefined] on a nullish receiver, the
    replaced text on a string, and a [TypeError] on anything else, which has
    no [replace] method to call. *)
Definition replace_nl (what : string) (v : value) : result value :=
  match v with
  | VUndef | VNull => Ok VUndef
  | VStr s => Ok (VStr (nl2br_str s))
  | _ => Throw (TypeError (what ++ "?.replace is not a function"))
  end.

(** [body.kind === "quote" ? "Quote Request" : "Contact Message"] *)
Definition kind_label (body : value) : string :=
  if is_str (prop body "kind") "quote" then "Quote Request" else "Contact Message".

(** [body.kind === "quote" ? "New Quote Request" : "New Contact Message"] *)
Definition plain_subject (body : value) : string :=
  if is_str (prop body "kind") "quote"
  then "New Quote Request" else "New Contact Message".

(** [Array.isArray(v) ? v[0] : v] *)
Definition first (v : value) : value :=
  match v with
  | VArr l => hd VUndef l
  | _ => v
  end.

(** [for (const [k, v] of Object.entries(fields)) body[k] = first v] *)
Definition flatten (fields : list (string * value)) : value :=
  VObj (fold_left (fun b kv => assign (fst kv) (first (snd kv)) b) fields []).

(** [fs.readFileSync(path)] *)
Definition readFile (w : world) (path : string) : M string :=
  emit (ReadFile path) ;; lift (readFileSync w path).

Definition div_style : string :=
  "font-family: Arial, sans-serif; color: #333; line-height: 1.6;".

(** The head of the styled templates: heading, name, e-mail link, phone. *)
Definition detailed_head (i : nat) (body : value) : template :=
  [Lit (ln i "<div style=" ++ dq ++ div_style ++ dq ++ ">"
        ++ ln (i + 2) "<h2 style=" ++ dq ++ "color: #fe2681;" ++ dq ++ ">New ");
   Lit (kind_label body);
   Lit ("</h2>" ++ ln (i + 2) "<p><strong>Name:</strong> ");
   put (or_else (or_else (prop body "name") (prop body "fullName"))
                (VStr "N/A"));
   Lit ("</p>" ++ ln (i + 2) "<p><strong>Email:</strong> <a href=" ++ dq ++ "mailto:");
   put (prop body "email");
   Lit (dq ++ ">");
   put (prop body "email");
   Lit ("</a></p>" ++ ln (i + 2) "<p><strong>Phone:</strong> ");
   put (or_else (prop body "phone") (VStr "N/A"));
   Lit ("</p>" ++ nl ++ ln (i + 2) "")].

Definition na_line (i : nat) (label : string) (v : value) : template :=
  [Lit (ln i ("<p><strong>" ++ label ++ ":</strong> "));
   put (or_else v (VStr "N/A"));
   Lit "</p>"].

(** The text [Array.isArray(g) ? g.join(", ") : g || "N/A"] contributes when
    its evaluation returns. *)
Definition goals_text (goals : value) : string :=
  match goals with
  | VArr l => array_join ", " l
  | _ => toString (or_else goals (VStr "N/A"))
  end.

(** [${Array.isArray(g) ? g.join(", ") : g || "N/A"}] *)
Definition put_goals (goals : value) : piece :=
  match goals with
  | VArr l => hole (join_call ", " l)
  | _ => put (or_else goals (VStr "N/A"))
  end.

(** [${v?.replace(/\n/g, "<br>") || fallback}] *)
Definition put_replaced (what : string) (v : value) (fallback : string) : piece :=
  match replace_nl what v with
  | Throw e => Fail e
  | Ok replaced => put (or_else replaced (VStr fallback))
  end.

(** The kind-specific block of the styled templates. *)
Definition detailed_fields (i : nat) (body : value) : template :=
  if is_str (prop body "kind") "quote" then
    na_line (i + 4) "Company" (prop body "company")
    ++ na_line (i + 4) "Category" (prop body "category")
    ++ na_line (i + 4) "Service" (prop body "service")
    ++ na_line (i + 4) "Budget" (prop body "budget")
    ++ na_line (i + 4) "Timeline" (prop body "timeline")
    ++ [Lit (ln (i + 4) "<p><strong>Goals:</strong> ");
        put_goals (prop body "goals");
        Lit "</p>"]
    ++ na_line (i + 4) "Reference Links" (prop body "references")
    ++ [Lit (ln (i + 4) "<p><strong>Brief:</strong><br>");
        put_replaced "body.brief" (prop body "brief") "(No brief provided)";
        Lit ("</p>" ++ ln (i + 2) "")]
  else
    [Lit (ln (i + 4) "<p><strong>Message:</strong><br>");
     put_replaced "body.message" (prop body "message") "(No message provided)";
     Lit ("</p>" ++ ln (i + 2) "")].

(** [${new Date(v).toLocaleString()}]: the constructor converts an object
    or an array to a primitive first, which throws as [String] does. *)
Definition put_date (w : world) (v : value) : piece :=
  if converts v then Lit (toLocaleString w v) else Fail no_primitive.

(** The foot of the styled templates: rule, submission time, closing tag. *)
Definition detailed_foot (w : world) (i closing : nat) (date : value) : template :=
  [Lit (nl ++ ln (i + 2) "<hr style=" ++ dq ++ "margin-top: 20px;" ++ dq ++ ">"
        ++ ln (i + 2) "<p style=" ++ dq ++ "font-size: 0.9em; color: #777;" ++ dq
        ++ ">Submitted on ");
   put_date w date;
   Lit ("</p>" ++ ln i "</div>" ++ ln closing "")].

(** ** The JSON handlers among them *)

(** First handler of [src/api/notify.ts] (lines 1-54). *)
Module Notify.

Definition html (body : value) : template :=
  [Lit (ln 6 "<h2>New ");
   Lit (kind_label body);
   Lit ("</h2>" ++ ln 6 "<p><strong>Name:</strong> ");
   put (prop body "name");
   Lit ("</p>" ++ ln 6 "<p><strong>Email:</strong> ");
   put (prop body "email");
   Lit ("</p>" ++ ln 6 "<p><strong>Phone:</strong> ");
   put (or_else (prop body "phone") (VStr "N/A"));
   Lit ("</p>" ++ ln 6 "<p><strong>Message:</strong><br/>");
   put (or_else (prop body "message") (VStr "(No message provided)"));
   Lit ("</p>" ++ ln 4 "")].

Definition handler (w : world) (req : request) : M response :=
  on_post req
    (try_catch
       (let body := or_else (req_body req) (VObj []) in
        if negb (truthy (prop body "kind")) || negb (truthy (prop body "name"))
           || negb (truthy (prop body "email"))
        then ret (Json 400 (obj_failure (VStr "Invalid request body")))
        else
          t <- lift (settle (html body)) ;;
          messageId <- sendMail w (mkMail (plain_subject body) (render t) []) ;;
          console log [LV (VStr "✅ Email sent:"); LV messageId] ;;
          ret (Json 200 (obj_success messageId)))
       (fun err =>
          console error [LV (VStr "❌ Email sending error:"); LE err] ;;
          message <- lift (read_message err) ;;
          ret (Json 500 (obj_failure message)))).

End Notify.

(** Last handler of [src/unnamed/part_000] (lines 438-509). *)
Module Styled.

Definition html (w : world) (body : value) : result template :=
  settle (detailed_head 2 body ++ detailed_fields 2 body
          ++ detailed_foot w 2 0 (prop body "submittedAt")).

Definition handler (w : world) (req : request) : M response :=
  on_post req
    (try_catch
       (let body := or_else (req_body req) (VObj []) in
        if negb (truthy (prop body "kind")) || negb (truthy (prop body "name"))
           || negb (truthy (prop body "email"))
        then ret (Json 400 (obj_failure (VStr "Invalid request body")))
        else
          t <- lift (html w body) ;;
          messageId <- sendMail w (mkMail (plain_subject body) (render t) []) ;;
          console log [LV (VStr "✅ Email sent:"); LV messageId] ;;
          ret (Json 200 (obj_success messageId)))
       (fun err =>
          console error [LV (VStr "❌ Email sending error:"); LE err] ;;
          message <- lift (read_message err) ;;
          ret (Json 500 (obj_failure message)))).

End Styled.

(** ** The multipart handlers *)

(** [files.attachment?.[0]]: a lone file object has no element [0]. *)
Definition first_of_array (e : file_entry) : option File :=
  match e with
  | Files (f :: _) => Some f
  | _ => None
  end.

(** [Array.isArray(a) ? a[0] : a] on [files.attachment] *)
Definition first_or_self (e : file_entry) : option File :=
  match e with
  | NoFile => None
  | OneFile f => Some f
  | Files l => hd_error l
  end.

(** Second handler of [src/api/notify.ts] (lines 55-188). *)
Module NotifyForm.

Definition attach (w : world) (file : option File) : M (list attachment) :=
  match file with
  | Some f =>
      try_catch
        (fileData <- readFile w (filepath f) ;;
         ret [mkAttachment (originalFilename f) fileData])
        (fun fileErr =>
           console warn [LV (VStr "⚠️ File read failed:"); LE fileErr] ;;
           ret [])
  | None => ret []
  end.

Definition attachment_line (file : option File) : template :=
  match file with
  | Some f =>
      [Lit "<p><strong>Attachment:</strong> ";
       put (originalFilename f);
       Lit "</p>"]
  | None => []
  end.

Definition html (w : world) (body : value) (file : option File) : result template :=
  settle (detailed_head 4 body ++ detailed_fields 4 body
          ++ [Lit (nl ++ ln 6 "")]
          ++ attachment_line file
          ++ detailed_foot w 4 4
               (or_else (prop body "submittedAt") (integer (Date_now w)))).

Definition handler (w : world) (req : request) : M response :=
  on_post req
    (try_catch
       (f <- lift (parsed req) ;;
        let body := flatten (fields f) in
        let file := first_of_array (files_attachment f) in
        if negb (truthy (prop body "kind")) || negb (truthy (prop body "name"))
           || negb (truthy (prop body "email"))
        then ret (Json 400 (obj_failure (VStr "Invalid request body")))
        else
          atts <- attach w file ;;
          t <- lift (html w body file) ;;
          messageId <- sendMail w (mkMail (plain_subject body) (render t) atts) ;;
          console log [LV (VStr "✅ Email sent:"); LV messageId] ;;
          ret (Json 200 (obj_success messageId)))
       (fun err =>
          console error [LV (VStr "❌ Email sending error:"); LE err] ;;
          message <- lift (read_message err) ;;
          ret (Json 500 (obj_failure message)))).

End NotifyForm.

(** Third handler of [src/api/notify.ts] (lines 189-352). *)
Module NotifyOrigin.

Definition attach (w : world) (file : option File) : M (list attachment) :=
  match file with
  | Some f =>
      if negb (filepath f =? "") then
        try_catch
          (fileData <- readFile w (filepath f) ;;
           console log
             [LV (VStr "📎 Received attachment:");
              LV (VObj [("name", originalFilename f);
                        ("type", mimetype f);
                        ("size", integer (size f))])] ;;
           ret [mkAttachment (or_else (originalFilename f) (VStr "attachment"))
                             fileData])
          (fun fileErr =>
             console warn [LV (VStr "⚠️ File read failed:"); LE fileErr] ;;
             ret [])
      else ret []
  | None => ret []
  end.

Definition attachment_line (file : option File) : template :=
  match file with
  | Some f =>
      [Lit "<p><strong>Attachment:</strong> ";
       put (or_else (originalFilename f) (VStr "attachment"));
       Lit "</p>"]
  | None => []
  end.

Definition html (w : world) (body : value) (file : option File) : result template :=
  settle (detailed_head 6 body ++ detailed_fields 6 body
          ++ [Lit (nl ++ ln 8 "")]
          ++ attachment_line file
          ++ detailed_foot w 6 4
               (or_else (prop body "submittedAt") (integer (Date_now w)))).

Definition handler (w : world) (req : request) : M response :=
  on_post req
    (try_catch
       (f <- lift (parsed req) ;;
        let body := flatten (fields f) in
        let file := first_of_array (files_attachment f) in
        if negb (truthy (prop body "kind")) || negb (truthy (prop body "name"))
           || negb (truthy (prop body "email"))
        then ret (Json 400 (obj_failure (VStr "Invalid request body")))
        else
          atts <- attach w file ;;
          t <- lift (html w body file) ;;
          messageId <- sendMail w (mkMail (plain_subject body) (render t) atts) ;;
          console log [LV (VStr "✅ Email sent:"); LV messageId] ;;
          ret (Json 200 (obj_success messageId)))
       (fun err =>
          console error [LV (VStr "❌ Email sending error:"); LE err] ;;
          ret (Json 500
                 (obj_failure (or_else (err_message err)
                                       (VStr "Internal server error")))))).

End NotifyOrigin.

(** The head of the short templates: heading, name, e-mail, phone. *)
Definition short_head (i : nat) (body : value) : template :=
  [Lit (ln i "<div style=" ++ dq ++ div_style ++ dq ++ ">"
        ++ ln (i + 2) "<h2 style=" ++ dq ++ "color: #fe2681;" ++ dq ++ ">New ");
   Lit (kind_label body);
   Lit ("</h2>" ++ ln (i + 2) "<p><strong>Name:</strong> ");
   put (or_else (or_else (prop body "name") (prop body "fullName"))
                (VStr "N/A"));
   Lit ("</p>" ++ ln (i + 2) "<p><strong>Email:</strong> ");
   put (prop body "email");
   Lit ("</p>" ++ ln (i + 2) "<p><strong>Phone:</strong> ");
   put (or_else (prop body "phone") (VStr "N/A"));
   Lit ("</p>" ++ ln (i + 2) "")].

(** [file ? `<p><strong>Attachment:</strong> ${file.originalFilename}</p>` : ""]
    and the closing tag. *)
Definition short_foot (i : nat) (file : option File) : template :=
  match file with
  | Some f =>
      [Lit "<p><strong>Attachment:</strong> ";
       put (originalFilename f);
       Lit "</p>"]
  | None => []
  end
  ++ [Lit (ln i "</div>" ++ ln 4 "")].

(** Second handler of [src/unnamed/part_000] (lines 158-267). *)
Module Upload.

Definition attach (w : world) (file : option File) : M (list attachment) :=
  match file with
  | Some f =>
      if existsSync w (filepath f) then
        fileBuffer <- readFile w (filepath f) ;;
        console log [LV (VStr "📎 Attachment added:"); LV (originalFilename f)] ;;
        ret [mkAttachment (or_else (originalFilename f) (VStr "attachment"))
                          fileBuffer]
      else
        console log [LV (VStr "⚠️ No attachment found")] ;;
        ret []
  | None =>
      console log [LV (VStr "⚠️ No attachment found")] ;;
      ret []
  end.

Definition kind_fields (body : value) : template :=
  if is_str (prop body "kind") "quote" then
    na_line 8 "Service" (prop body "service")
    ++ na_line 8 "Budget" (prop body "budget")
    ++ [Lit (ln 8 "<p><strong>Brief:</strong><br>");
        put_replaced "body.brief" (prop body "brief") "(none)";
        Lit "</p>"]
  else
    [Lit "<p><strong>Message:</strong><br>";
     put (or_else (prop body "message") (VStr "(none)"));
     Lit "</p>"].

Definition html (body : value) (file : option File) : result template :=
  settle (short_head 4 body ++ kind_fields body ++ [Lit (ln 6 "")]
          ++ short_foot 4 file).

Definition handler (w : world) (req : request) : M response :=
  on_post req
    (try_catch
       (f <- lift (parsed req) ;;
        let body := flatten (fields f) in
        let file := first_or_self (files_attachment f) in
        if negb (truthy (prop body "kind")) || negb (truthy (prop body "email"))
        then ret (Json 400 (obj_failure (VStr "Missing required fields")))
        else
          atts <- attach w file ;;
          t <- lift (html body file) ;;
          messageId <- sendMail w (mkMail (plain_subject body) (render t) atts) ;;
          console log [LV (VStr "✅ Email sent:"); LV messageId] ;;
          ret (Json 200 (obj_success messageId)))
       (fun err =>
          console error [LV (VStr "❌ Email send error:"); LE err] ;;
          message <- lift (read_message err) ;;
          ret (Json 500 (obj_failure message)))).

End Upload.

(** Third handler of [src/unnamed/part_000] (lines 268-437): multipart or
    JSON, by content type. *)
Module Mixed.

(** [parseJsonBody]: an empty body reads as the empty object, and a body
    [JSON.parse] rejects is reported and read as the empty object. *)
Definition parseJsonBody (w : world) (req : request) : M value :=
  let text := if raw req =? "" then "{}" else raw req in
  try_catch
    (lift (JSON_parse w text))
    (fun e =>
       console warn [LV (VStr "⚠️ Failed to parse JSON body:"); LE e] ;;
       ret (VObj [])).

(** [req.headers["content-type"] || ""] *)
Definition getContentType (req : request) : string :=
  match content_type req with
  | Some s => s
  | None => EmptyString
  end.

(** The Body Normalizer: the field mapping and the optional file part. *)
Definition normalize (w : world) (req : request) : M (value * option File) :=
  let contentType := getContentType req in
  if startsWith contentType "multipart/form-data" then
    f <- lift (parsed req) ;;
    let body := flatten (fields f) in
    let file := first_or_self (files_attachment f) in
    console log [LV (VStr "📩 Parsed multipart body:"); LV body] ;;
    match file with
    | Some fl =>
        console log [LV (VStr "📎 Incoming file:");
                     LV (originalFilename fl); LV (mimetype fl)]
    | None => ret tt
    end ;;
    ret (body, file)
  else if startsWith contentType "application/json" then
    body <- parseJsonBody w req ;;
    console log [LV (VStr "📩 Parsed JSON body:"); LV body] ;;
    ret (body, None)
  else
    body <- parseJsonBody w req ;;
    console log [LV (VStr "📩 Fallback body:"); LV body] ;;
    ret (body, None).

Definition attach (w : world) (file : option File) : M (list attachment) :=
  match file with
  | Some f =>
      if negb (filepath f =? "") && existsSync w (filepath f) then
        fileBuffer <- readFile w (filepath f) ;;
        console log [LV (VStr "✅ Attachment added:"); LV (originalFilename f)] ;;
        ret [mkAttachment (or_else (originalFilename f) (VStr "attachment"))
                          fileBuffer]
      else
        console log [LV (VStr "ℹ️ No attachment on this request")] ;;
        ret []
  | None =>
      console log [LV (VStr "ℹ️ No attachment on this request")] ;;
      ret []
  end.

Definition kind_fields (body : value) : template :=
  if is_str (prop body "kind") "quote" then
    na_line 10 "Service" (prop body "service")
    ++ na_line 10 "Budget" (prop body "budget")
    ++ [Lit (ln 10 "<p><strong>Brief:</strong><br>");
        put_replaced "body.brief" (prop body "brief") "(none)";
        Lit ("</p>" ++ ln 8 "")]
  else
    [Lit (ln 10 "<p><strong>Message:</strong><br>");
     put_replaced "body.message" (prop body "message") "(none)";
     Lit ("</p>" ++ ln 8 "")].

Definition html (body : value) (file : option File) : result template :=
  settle (short_head 6 body ++ kind_fields body ++ [Lit (ln 8 "")]
          ++ short_foot 6 file).

Definition handler (w : world) (req : request) : M response :=
  on_post req
    (try_catch
       (bf <- normalize w req ;;
        let body := fst bf in
        let file := snd bf in
        kind <- lift (get body "kind") ;;
        if negb (truthy kind) || negb (truthy (prop body "email"))
        then ret (Json 400 (obj_failure (VStr "Missing required fields")))
        else
          atts <- attach w file ;;
          t <- lift (html body file) ;;
          messageId <- sendMail w (mkMail (plain_subject body) (render t) atts) ;;
          console log [LV (VStr "✅ Email sent:"); LV messageId] ;;
          ret (Json 200 (obj_success messageId)))
       (fun err =>
          console error [LV (VStr "❌ Email send error:"); LE err] ;;
          ret (Json 500
                 (obj_failure (or_else (err_message err)
                                       (VStr "Internal server error")))))).

End Mixed.

(** ** Vocabulary *)

(** The mails handed to the transport, in order. *)
Fixpoint sent (t : trace) : list mail :=
  match t with
  | [] => []
  | SendMail m :: r => m :: sent r
  | _ :: r => sent r
  end.

(** The handler answers [400] with [payload] and never calls the transport. *)
Definition rejected_with (payload : value) (m : M response) : Prop :=
  exists tr, m = (Ok (Json 400 payload), tr) /\ sends tr = false.

(** The handler answers [400] and never calls the transport. *)
Definition rejected (m : M response) : Prop :=
  exists payload, rejected_with payload m.

Definition nullish (v : value) : bool :=
  match v with VUndef | VNull => true | _ => false end.


(** The characters [esc] rewrites. *)
Definition is_meta (c : ascii) : bool :=
  Ascii.eqb c "&" || Ascii.eqb c "<" || Ascii.eqb c ">"
  || Ascii.eqb c dq_char || Ascii.eqb c sq_char.

(** What may follow an ampersand in escaped text. *)
Definition entity_start (s : string) : bool :=
  String.prefix "amp;" s || String.prefix "lt;" s || String.prefix "gt;" s
  || String.prefix "quot;" s || String.prefix "#39;" s.

(** No HTML metacharacter occurs unescaped: there is no [<], [>] or quote, and
    every [&] opens one of the five entities. *)
Fixpoint escaped (s : string) : bool :=
  match s with
  | EmptyString => true
  | String c t =>
      (if Ascii.eqb c "&" then entity_start t else negb (is_meta c))
      && escaped t
  end.

(** A value as the escaping renderer embeds it: escaped text, or escaped text
    whose line feeds were then replaced by line breaks. *)
Definition safe_hole (s : string) : Prop :=
  exists t : string, escaped t = true /\ (s = t \/ s = nl2br_str t).


(** Formidable reports a field as a string or as an array of strings. *)
Definition form_value (v : value) : bool :=
  match v with
  | VStr _ => true
  | VArr l => forallb (fun x => match x with VStr _ => true | _ => false end) l
  | _ => false
  end.


(** The tail every handler shares: send, log, answer; [report] is the text
    the handler's [catch] block reads from the error for the caller. *)
Definition dispatch (w : world) (m : mail) (label : string)
           (report : thrown -> result value) : M response :=
  match transport w m with
  | Ok messageId =>
      (Ok (Json 200 (obj_success messageId)),
       [SendMail m; Console log [LV (VStr "✅ Email sent:"); LV messageId]])
  | Throw err =>
      (and_then (report err) (fun text => Ok (Json 500 (obj_failure text))),
       [SendMail m; Console error [LV (VStr label); LE err]])
  end.

(** [err?.message || "Internal server error"] *)
Definition message_or_default (err : thrown) : result value :=
  Ok (or_else (err_message err) (VStr "Internal server error")).


(** ** A reader for JSON text

    A stand-in for [JSON.parse] in the sample worlds below.  It reads the
    documents whose numbers are integers of at most fifteen digits and
    whose strings use the single-character escapes; anything else is a
    syntax error.  The theorems are stated for an arbitrary [JSON_parse] and
    do not depend on it. *)

Module Json.

Definition is_ws (c : ascii) : bool :=
  Ascii.eqb c " " || Ascii.eqb c "009" || Ascii.eqb c "010" || Ascii.eqb c "013".

Fixpoint skip_ws (s : string) : string :=
  match s with
  | String c t => if is_ws c then skip_ws t else s
  | EmptyString => s
  end.

Fixpoint drop (n : nat) (s : string) : string :=
  match n, s with
  | S k, String _ t => drop k t
  | _, _ => s
  end.

Definition digit (c : ascii) : option Z :=
  let n := nat_of_ascii c in
  if (48 <=? n)%nat && (n <=? 57)%nat then Some (Z.of_nat (n - 48)) else None.

Fixpoint read_digits (acc : Z) (s : string) : Z * string :=
  match s with
  | String c t =>
      match digit c with
      | Some d => read_digits (10 * acc + d) t
      | None => (acc, s)
      end
  | EmptyString => (acc, s)
  end.

Definition integral (rest : string) : bool :=
  match rest with
  | String c _ => negb (Ascii.eqb c "." || Ascii.eqb c "e" || Ascii.eqb c "E")
  | EmptyString => true
  end.

Definition read_number (s : string) : option (value * string) :=
  let '(sign, body) :=
    match s with
    | String c t => if Ascii.eqb c "-" then ((-1)%Z, t) else (1%Z, s)
    | EmptyString => (1%Z, s)
    end in
  match body with
  | String c _ =>
      match digit c with
      | Some _ =>
          let '(n, rest) := read_digits 0 body in
          let digits := (String.length body - String.length rest)%nat in
          if integral rest
             && (digits =? String.length (string_of_Z n))%nat
             && (digits <=? 15)%nat
          then Some (integer (sign * n), rest) else None
      | None => None
      end
  | EmptyString => None
  end.

Definition unescape (c : ascii) : option ascii :=
  if Ascii.eqb c dq_char then Some dq_char
  else if Ascii.eqb c "\" then Some "\"%char
  else if Ascii.eqb c "/" then Some "/"%char
  else if Ascii.eqb c "b" then Some "008"%char
  else if Ascii.eqb c "f" then Some "012"%char
  else if Ascii.eqb c "n" then Some "010"%char
  else if Ascii.eqb c "r" then Some "013"%char
  else if Ascii.eqb c "t" then Some "009"%char
  else None.

Definition cons_char (c : ascii) (r : option (string * string))
  : option (string * string) :=
  match r with
  | Some (x, rest) => Some (String c x, rest)
  | None => None
  end.

(** The characters of a string literal, after its opening quote. *)
Fixpoint read_string (s : string) : option (string * string) :=
  match s with
  | EmptyString => None
  | String c t =>
      if Ascii.eqb c dq_char then Some (EmptyString, t)
      else if Ascii.eqb c "\" then
        match t with
        | String e t' =>
            match unescape e with
            | Some ch => cons_char ch (read_string t')
            | None => None
            end
        | EmptyString => None
        end
      else if (nat_of_ascii c <? 32)%nat then None
      else cons_char c (read_string t)
  end.

Definition starts (c : ascii) (s : string) : option string :=
  match s with
  | String d t => if Ascii.eqb c d then Some t else None
  | EmptyString => None
  end.

Fixpoint read_value (fuel : nat) (s : string) {struct fuel}
  : option (value * string) :=
  match fuel with
  | O => None
  | S n =>
      let s := skip_ws s in
      match starts "{" s, starts "[" s, starts dq_char s with
      | Some t, _, _ =>
          match starts "}" (skip_ws t) with
          | Some t' => Some (VObj [], t')
          | None => read_members n [] t
          end
      | _, Some t, _ =>
          match starts "]" (skip_ws t) with
          | Some t' => Some (VArr [], t')
          | None => read_elems n [] t
          end
      | _, _, Some t =>
          match read_string t with
          | Some (x, r) => Some (VStr x, r)
          | None => None
          end
      | None, None, None =>
          if String.prefix "true" s then Some (VBool true, drop 4 s)
          else if String.prefix "false" s then Some (VBool false, drop 5 s)
          else if String.prefix "null" s then Some (VNull, drop 4 s)
          else read_number s
      end
  end
with read_elems (fuel : nat) (acc : list value) (s : string) {struct fuel}
  : option (value * string) :=
  match fuel with
  | O => None
  | S n =>
      match read_value n s with
      | Some (v, r) =>
          match starts "," (skip_ws r), starts "]" (skip_ws r) with
          | Some r', _ => read_elems n (acc ++ [v]) r'
          | _, Some r' => Some (VArr (acc ++ [v]), r')
          | None, None => None
          end
      | None => None
      end
  end
with read_members (fuel : nat) (acc : list (string * value)) (s : string)
       {struct fuel} : option (value * string) :=
  match fuel with
  | O => None
  | S n =>
      match starts dq_char (skip_ws s) with
      | Some t =>
          match read_string t with
          | Some (k, r) =>
              match starts ":" (skip_ws r) with
              | Some r1 =>
                  match read_value n r1 with
                  | Some (v, r2) =>
                      match starts "," (skip_ws r2), starts "}" (skip_ws r2) with
                      | Some r3, _ => read_members n (assign k v acc) r3
                      | _, Some r3 => Some (VObj (assign k v acc), r3)
                      | None, None => None
                      end
                  | None => None
                  end
              | None => None
              end
          | None => None
          end
      | None => None
      end
  end.

Definition SyntaxError : thrown := mkError (VStr "Unexpected token in JSON").

Definition parse (s : string) : result value :=
  match read_value (2 * String.length s + 2) s with
  | Some (v, rest) =>
      match skip_ws rest with
      | EmptyString => Ok v
      | _ => Throw SyntaxError
      end
  | None => Throw SyntaxError
  end.

(** [JSON.stringify] of a string-to-string record, for writing samples. *)
Definition pair_text (kv : string * string) : string :=
  dq ++ fst kv ++ dq ++ ":" ++ dq ++ snd kv ++ dq.

Definition record_text (l : list (string * string)) : string :=
  "{" ++ join "," (map pair_text l) ++ "}".

End Json.

(** ** Sample worlds and requests *)

Module Sample.

(** No CAPTCHA secret; the relay accepts every message. *)
Definition relay_up : world :=
  {| env := fun _ => None;
     transport := fun _ => Ok (VStr "<20240101.1@relay>");
     siteverify := fun _ => Ok (VObj [("success", VBool true)]);
     existsSync := fun _ => true;
     readFileSync := fun _ => Ok "PDFDATA";
     Date_now := 0;
     toLocaleString := fun _ => "1/1/1970, 12:00:00 AM";
     JSON_parse := Json.parse |}.

Definition login_refused : thrown :=
  mkError (VStr "Invalid login: 535-5.7.8 Username and Password not accepted").

Definition connection_refused : thrown :=
  mkError (VStr "connect ECONNREFUSED 10.0.0.5:465").

Definition with_transport (t : mail -> result value) (w : world) : world :=
  {| env := env w;
     transport := t;
     siteverify := siteverify w;
     existsSync := existsSync w;
     readFileSync := readFileSync w;
     Date_now := Date_now w;
     toLocaleString := toLocaleString w;
     JSON_parse := JSON_parse w |}.

(** The relay refuses the login. *)
Definition relay_down : world :=
  with_transport (fun _ => Throw login_refused) relay_up.

(** The relay cannot be reached. *)
Definition relay_unreachable : world :=
  with_transport (fun _ => Throw connection_refused) relay_up.

(** A CAPTCHA secret is configured. *)
Definition guarded : world :=
  {| env := fun k => if k =? "RECAPTCHA_SECRET" then Some "s3cret" else None;
     transport := transport relay_up;
     siteverify := siteverify relay_up;
     existsSync := existsSync relay_up;
     readFileSync := readFileSync relay_up;
     Date_now := Date_now relay_up;
     toLocaleString := toLocaleString relay_up;
     JSON_parse := JSON_parse relay_up |}.

(** A JSON [POST] whose body the platform has already parsed. *)
Definition post_json (body : value) : request :=
  {| method := "POST";
     content_type := Some "application/json";
     req_body := body;
     raw := EmptyString;
     parsed := Throw (mkError (VStr "no multipart boundary")) |}.

(** A JSON [POST] the handler reads from the stream itself. *)
Definition post_raw (text : string) : request :=
  {| method := "POST";
     content_type := Some "application/json";
     req_body := VUndef;
     raw := text;
     parsed := Throw (mkError (VStr "no multipart boundary")) |}.

(** A multipart [POST] with the fields and file parts formidable reports. *)
Definition post_form (fs : list (string * value)) (files : file_entry) : request :=
  {| method := "POST";
     content_type := Some "multipart/form-data; boundary=----x";
     req_body := VUndef;
     raw := EmptyString;
     parsed := Ok (mkForm fs files) |}.

Definition str_fields (l : list (string * string)) : list (string * value) :=
  map (fun kv => (fst kv, VStr (snd kv))) l.

(** Form fields as formidable reports them: every value is an array. *)
Definition form_fields (l : list (string * list string)) : list (string * value) :=
  map (fun kv => (fst kv, VArr (map VStr (snd kv)))) l.

(** Scenario 1 of the specification. *)
Definition jane : value :=
  VObj (str_fields [("kind", "contact"); ("name", "Jane Doe");
                    ("email", "jane@x.com");
                    ("message", ("Hello" ++ nl ++ "World")%string)]).

(** Scenario 2 of the specification. *)
Definition acme : value :=
  VObj (str_fields [("kind", "quote"); ("fullName", "Acme Co");
                    ("email", "a@acme.com"); ("category", "Web");
                    ("service", "Design"); ("brief", "<b>test</b>")]).

(** A contact message carrying markup. *)
Definition mallory : value :=
VObj (str_fields [("kind", "contact");
                  ("name", "<script>alert(1)</script>");
                  ("email", "m@x.com");
                  ("message", "<img src=x onerror=alert(1)>")]).

(** A kind that is neither of the two known ones. *)
Definition newsletter : value :=
VObj (str_fields [("kind", "newsletter"); ("name", "Jane Doe");
                  ("email", "jane@x.com"); ("message", "Hi")]).

(** A quote whose category holds an ampersand. *)
Definition research : value :=
VObj (str_fields [("kind", "quote"); ("fullName", "Acme Co");
                  ("email", "a@acme.com"); ("category", "R&D");
                  ("service", "Design"); ("brief", "Plan")]).

(** A multipart quote with two values for [goals]. *)
Definition two_goals : list (string * value) :=
form_fields [("kind", ["quote"]); ("name", ["Acme Co"]);
             ("email", ["a@acme.com"]); ("goals", ["SEO"; "Branding"])].

End Sample.

(** ** Sender and recipients of the CAPTCHA-checking handler
    ([src/unnamed/part_000], lines 96-101 and 142-147) *)

Module Envelope.

(** [process.env[k] || fallback] *)
Definition env_or (w : world) (k fallback : string) : string :=
  match env w k with
  | Some s => if s =? "" then fallback else s
  | None => fallback
  end.

(** [s.split(",")]: the pieces between the separators, at least one. *)
Fixpoint split (sep : ascii) (s : string) : list string :=
  match s with
  | EmptyString => [EmptyString]
  | String c t =>
      if Ascii.eqb c sep then EmptyString :: split sep t
      else match split sep t with
           | l :: r => String c l :: r
           | [] => [String c EmptyString]
           end
  end.

(** White space and line terminators of one byte: tab, line feed, vertical
    tab, form feed, carriage return, space. *)
Definition ws1 (a : ascii) : bool :=
  Ascii.eqb a "009" || Ascii.eqb a "010" || Ascii.eqb a "011"
  || Ascii.eqb a "012" || Ascii.eqb a "013" || Ascii.eqb a " ".

(** Of two bytes: U+00A0. *)
Definition ws2 (a b : ascii) : bool :=
  Ascii.eqb a "194" && Ascii.eqb b "160".

(** Of three bytes: U+1680, U+2000 to U+200A, U+2028, U+2029, U+202F,
    U+205F, U+3000 and U+FEFF. *)
Definition ws3 (a b c : ascii) : bool :=
  (Ascii.eqb a "225" && Ascii.eqb b "154" && Ascii.eqb c "128")
  || (Ascii.eqb a "226" && Ascii.eqb b "128"
      && ((128 <=? nat_of_ascii c)%nat && (nat_of_ascii c <=? 138)%nat
          || Ascii.eqb c "168" || Ascii.eqb c "169" || Ascii.eqb c "175"))
  || (Ascii.eqb a "226" && Ascii.eqb b "129" && Ascii.eqb c "159")
  || (Ascii.eqb a "227" && Ascii.eqb b "128" && Ascii.eqb c "128")
  || (Ascii.eqb a "239" && Ascii.eqb b "187" && Ascii.eqb c "191").

(** Drop the white space a string starts with.  With [back] the bytes of
    each character are met last byte first, as in a reversed string. *)
Fixpoint strip (back : bool) (s : string) : string :=
  match s with
  | EmptyString => EmptyString
  | String a t =>
      if ws1 a then strip back t
      else
        match t with
        | EmptyString => s
        | String b u =>
            if (if back then ws2 b a else ws2 a b) then strip back u
            else
              match u with
              | EmptyString => s
              | String c v =>
                  if (if back then ws3 c b a else ws3 a b c) then strip back v
                  else s
              end
        end
  end.

Fixpoint rev_append (s acc : string) : string :=
  match s with
  | EmptyString => acc
  | String c t => rev_append t (String c acc)
  end.

Definition reverse (s : string) : string := rev_append s EmptyString.

(** [s.trim()] *)
Definition trim (s : string) : string :=
  reverse (strip true (reverse (strip false s))).

(** [.filter(Boolean)] on strings *)
Definition nonempty (s : string) : bool := negb (s =? "").


Definition cc (w : world) : list string :=
  filter nonempty
    (map trim
       (split "," (env_or w "MAIL_CC" "info@pixelflare.in,services@pixelflare.in"))).

Definition fromAddress (w : world) : string :=
  env_or w "MAIL_FROM" (env_or w "SMTP_USER" "no-reply@localhost").

(** [`"PixelFlare" <${fromAddress}>`] *)
Definition from (w : world) : string :=
  dq ++ "PixelFlare" ++ dq ++ " <" ++ fromAddress w ++ ">".

End Envelope.

(** ** More vocabulary *)

(** The seven handlers. *)
Definition handlers : list (world -> request -> M response) :=
  [Captcha.handler; Notify.handler; Styled.handler; NotifyForm.handler;
   NotifyOrigin.handler; Upload.handler; Mixed.handler].

(** The handlers that read a parsed JSON body and never attach a file. *)
Definition json_handlers : list (world -> request -> M response) :=
  [Captcha.handler; Notify.handler; Styled.handler].

(** What a [catch] block tells the caller about the error [e]: a fixed
    text, the error's own message where it can be read, or that message
    with a default. *)
Definition fixed_text (e : thrown) (text : value) : Prop :=
  text = VStr "Failed to send email".

Definition own_message (e : thrown) (text : value) : Prop :=
  read_message e = Ok text.

Definition message_with_default (e : thrown) (text : value) : Prop :=
  text = or_else (err_message e) (VStr "Internal server error").

Definition tells (e : thrown) (text : value) : Prop :=
  fixed_text e text \/ own_message e text \/ message_with_default e text.

(** The request failed on the error [e]: logging it with [console.error]
    was the last thing the handler did, and then it either answered 500 with
    a text [T] makes from the error, or it threw on reading the [message]
    of an error that is [null] or [undefined]. *)
Definition failed_on (T : thrown -> value -> Prop) (e : thrown)
           (r : result response) (tr : trace) : Prop :=
  (exists (label : string) (before : trace),
      tr = before ++ [Console error [LV (VStr label); LE e]])
  /\ ((exists text, r = Ok (Json 500 (obj_failure text)) /\ T e text)
      \/ (exists e', read_message e = Throw e' /\ r = Throw e')).

(** Every way a request can end: without a transport call (preflight, 405,
    400, or a failure before the send), with one accepted message, or with
    one refused message and a failure on the transport's error.  [P] is what
    is known of the message, [T] of the text of a 500 answer. *)
Definition outcomes (T : thrown -> value -> Prop) (P : mail -> Prop)
           (w : world) (m : M response) : Prop :=
  exists (r : result response) (tr : trace),
    m = (r, tr)
    /\ ((sent tr = []
         /\ (r = Ok (End 200)
             \/ (exists p, r = Ok (Json 405 p))
             \/ (exists p, r = Ok (Json 400 p))
             \/ (exists e, failed_on T e r tr)))
        \/ (exists (m1 : mail) (id : value),
              sent tr = [m1] /\ transport w m1 = Ok id
              /\ r = Ok (Json 200 (obj_success id)) /\ P m1)
        \/ (exists (m1 : mail) (e : thrown),
              sent tr = [m1] /\ transport w m1 = Throw e
              /\ failed_on T e r tr /\ P m1)).

Definition accountable (P : mail -> Prop) (w : world) (m : M response) : Prop :=
  outcomes tells P w m.

(** The handlers whose [catch] block reads [err.message] unguarded. *)
Definition unguarded_handlers : list (world -> request -> M response) :=
  [Notify.handler; Styled.handler; NotifyForm.handler; Upload.handler].

Definition one_attachment (m : mail) : Prop :=
  (length (attachments m) <= 1)%nat.

Definition no_attachment (m : mail) : Prop := attachments m = [].

(** The text holds one of the characters [esc] rewrites. *)
Fixpoint has_meta (s : string) : bool :=
  match s with
  | EmptyString => false
  | String c t => is_meta c || has_meta t
  end.

Definition is_fetch (e : event) : bool :=
  match e with Fetch _ _ => true | _ => false end.

(** A value with a [replace] method, or none to call it on. *)
Definition text_or_missing (v : value) : bool :=
  match v with
  | VUndef | VNull | VStr _ => true
  | _ => false
  end.

(** The field whose [replace] method the styled templates call. *)
Definition broken_field (body : value) : string :=
  if is_str (prop body "kind") "quote" then "brief" else "message".

(** A [catch] block that reads from the error at most its [message]. *)
Definition reads_message (report : thrown -> result value) : Prop :=
  forall err e' : thrown,
    report err = Throw e' -> exists e : thrown, read_message e = Throw e'.

(** The handler hands the transport a message with these attachments, and
    then ends with a response, unless it throws on reading the [message] of
    an error that is [null] or [undefined]. *)
Definition delivers_with (atts : list attachment) (m : M response) : Prop :=
  exists (r : result response) (before after : trace) (subj body : string),
    m = (r, before ++ SendMail (mkMail subj body atts) :: after)
    /\ forall e' : thrown,
         r = Throw e' -> exists e : thrown, read_message e = Throw e'.



(** ** More sample worlds and requests *)

Module Scenario.




(** [MAIL_CC] is set, with stray blanks and an empty entry. *)
Definition copies : world :=
  {| env := fun k => if k =? "MAIL_CC" then Some " a@x.com , ,b@y.org," else None;
     transport := transport Sample.relay_up;
     siteverify := siteverify Sample.relay_up;
     existsSync := existsSync Sample.relay_up;
     readFileSync := readFileSync Sample.relay_up;
     Date_now := Date_now Sample.relay_up;
     toLocaleString := toLocaleString Sample.relay_up;
     JSON_parse := JSON_parse Sample.relay_up |}.

(** The relay rejects without a reason: the promise is rejected with
    [undefined]. *)
Definition silent_failure : world :=
  Sample.with_transport (fun _ => Throw thrown_undefined) Sample.relay_up.

Definition report : File :=
  mkFile "/tmp/upload_1" (Some "x.pdf") (Some "application/pdf") 7.



End Scenario.

(** ** Reading escaped text back

    [decode] reads each of the five entities as the character it stands
    for and leaves every other character as it is.  [skip] counts the
    characters of an entity that are still to be passed over. *)



(** ** Bodies *)

(** Every field of the body can be converted to text: none is an object
    with a [toString] entry of its own, or an array that holds one. *)
Definition fields_convert (body : value) : bool :=
  match body with
  | VObj o => forallb (fun kv => converts (snd kv)) o
  | _ => true
  end.

(** The body is an object whose fields are strings (or [null]). *)
Definition text_fields (body : value) : bool :=
  match body with
  | VObj o => forallb (fun kv => text_or_missing (snd kv)) o
  | _ => false
  end.


(** * Properties *)

(** ** The helpers on examples *)

Example esc_script :
  esc (VStr "<b>test</b>") = "&lt;b&gt;test&lt;/b&gt;".
Proof. reflexivity. Qed.

Example esc_amp_quotes :
  esc (VStr ("R&D " ++ dq ++ "x" ++ dq ++ " it" ++ sq ++ "s"))
  = "R&amp;D &quot;x&quot; it&#39;s".
Proof. reflexivity. Qed.

Example nl2br_hello :
  nl2br (VStr (esc (VStr ("Hello" ++ nl ++ "World")))) = "Hello<br>World".
Proof. reflexivity. Qed.

Example toString_arr :
  toString (VArr [VStr "a"; VNull; VNum "12"; VArr [VStr "b"; VStr "c"]]) = "a,,12,b,c".
Proof. reflexivity. Qed.


Example parse_record :
  Json.parse (Json.record_text [("kind", "contact"); ("email", "jane@x.com")])
  = Ok (VObj [("kind", VStr "contact"); ("email", VStr "jane@x.com")]).
Proof. vm_compute. reflexivity. Qed.

Example parse_nested :
  Json.parse ("{ " ++ dq ++ "goals" ++ dq ++ " : [ " ++ dq ++ "SEO" ++ dq
              ++ ", 12, true, null ], " ++ dq ++ "n" ++ dq ++ ": -7 }")
  = Ok (VObj [("goals", VArr [VStr "SEO"; VNum "12"; VBool true; VNull]);
              ("n", VNum "-7")]).
Proof. vm_compute. reflexivity. Qed.

Example parse_empty_object : Json.parse "{}" = Ok (VObj []).
Proof. reflexivity. Qed.

Example parse_truncated : Json.parse "{kind:" = Throw Json.SyntaxError.
Proof. reflexivity. Qed.

Example parse_empty_text : Json.parse "" = Throw Json.SyntaxError.
Proof. reflexivity. Qed.

Example parse_null : Json.parse "null" = Ok VNull.
Proof. reflexivity. Qed.

(** Scenario 1: the subject names the sender, the line feed becomes a break. *)
Example scenario_contact :
  exists m : mail,
    sent (snd (Captcha.handler Sample.relay_up (Sample.post_json Sample.jane)))
    = [m]
    /\ contains "Jane Doe" (subject m) = true
    /\ contains "Hello<br>World" (html m) = true
    /\ attachments m = [].
Proof.
  eexists. split; [vm_compute; reflexivity|].
  repeat split; vm_compute; reflexivity.
Qed.

(** Scenario 2: the brief is embedded escaped. *)
Example scenario_quote :
  exists m : mail,
    sent (snd (Captcha.handler Sample.relay_up (Sample.post_json Sample.acme)))
    = [m]
    /\ subject m = "🧾 New Quote — Web / Design — Acme Co"
    /\ contains "&lt;b&gt;test&lt;/b&gt;" (html m) = true
    /\ contains "<b>test</b>" (html m) = false.
Proof.
  eexists. split; [vm_compute; reflexivity|].
  repeat split; vm_compute; reflexivity.
Qed.

(** Scenario 5: the uploaded file is attached under its own name. *)
Example scenario_attachment :
  exists m : mail,
    sent (snd (Mixed.handler Sample.relay_up
                 (Sample.post_form
                    (Sample.form_fields [("kind", ["contact"]);
                                         ("email", ["jane@x.com"])])
                    (Files [mkFile "/tmp/upload_1" (Some "x.pdf")
                                   (Some "application/pdf") 7]))))
    = [m]
    /\ attachments m = [mkAttachment (VStr "x.pdf") "PDFDATA"].
Proof.
  eexists. split; vm_compute; reflexivity.
Qed.

(** ** Recipients *)

Example trim_blanks : Envelope.trim "  a@x.com	 " = "a@x.com".
Proof. reflexivity. Qed.

Example trim_keeps_inner : Envelope.trim " info @ x " = "info @ x".
Proof. reflexivity. Qed.

Example split_commas : Envelope.split "," "a,,b," = ["a"; ""; "b"; ""].
Proof. reflexivity. Qed.

Example cc_default :
  Envelope.cc Sample.relay_up = ["info@pixelflare.in"; "services@pixelflare.in"].
Proof. reflexivity. Qed.

Example cc_is_cleaned : Envelope.cc Scenario.copies = ["a@x.com"; "b@y.org"].
Proof. reflexivity. Qed.
(** ** Basic facts *)

Lemma on_post_POST (req : request) (m : M response) :
  method req = "POST" -> on_post req m = m.
Proof.
  intros H. unfold on_post. rewrite H. reflexivity.
Qed.

Lemma prop_or_empty (b : value) (k : string) :
  prop (or_else b (VObj [])) k = prop b k.
Proof.
  unfold or_else. destruct (truthy b) eqn:E; [reflexivity|].
  destruct b; simpl in *; try reflexivity; discriminate.
Qed.

Lemma assoc_assign (k k' : string) (v : value) (o : list (string * value)) :
  assoc k (assign k' v o) = if k' =? k then v else assoc k o.
Proof.
  induction o as [|[k0 v0] o IH]; simpl.
  - reflexivity.
  - destruct (k0 =? k') eqn:E0; simpl.
    + apply String.eqb_eq in E0. subst k0.
      destruct (k' =? k); reflexivity.
    + destruct (k0 =? k) eqn:E1.
      * apply String.eqb_eq in E1. subst k0.
        rewrite String.eqb_sym in E0. rewrite E0. reflexivity.
      * exact IH.
Qed.

Lemma fold_assign_absent (k : string) (fs acc : list (string * value)) :
  has_key k fs = false ->
  assoc k (fold_left (fun b kv => assign (fst kv) (first (snd kv)) b) fs acc)
  = assoc k acc.
Proof.
  revert acc. induction fs as [|[k0 v0] fs IH]; intros acc H; simpl in *.
  - reflexivity.
  - apply orb_false_iff in H. destruct H as [H0 H1].
    rewrite IH by exact H1. rewrite assoc_assign. simpl. rewrite H0. reflexivity.
Qed.

(** A field the form does not carry is [undefined] in the flattened body. *)
Lemma flatten_absent (k : string) (fs : list (string * value)) :
  has_key k fs = false -> prop (flatten fs) k = VUndef.
Proof.
  intros H. unfold flatten. simpl. rewrite fold_assign_absent by exact H.
  reflexivity.
Qed.

Lemma get_not_nullish (v : value) (k : string) :
  nullish v = false -> get v k = Ok (prop v k).
Proof.
  destruct v; simpl; intros H; try reflexivity; discriminate.
Qed.

Lemma sends_app (a b : trace) : sends (a ++ b) = sends a || sends b.
Proof. unfold sends. apply existsb_app. Qed.

(** ** The required-field checks

    Each check is a truthiness test, so it cannot tell an absent field from an
    empty one. *)

Section RequiredFields.

Variable w : world.
Variable req : request.
Hypothesis post : method req = "POST".

Let invalid_body : M response :=
  (Ok (Json 400 (obj_failure (VStr "Invalid request body"))), []).

Let missing_fields : M response :=
  (Ok (Json 400 (obj_failure (VStr "Missing required fields"))), []).

Lemma Notify_requires :
  truthy (prop (req_body req) "kind") = false
  \/ truthy (prop (req_body req) "name") = false
  \/ truthy (prop (req_body req) "email") = false ->
  Notify.handler w req = invalid_body.
Proof.
  intros H. unfold Notify.handler. rewrite on_post_POST by exact post.
  cbv zeta. rewrite !prop_or_empty.
  destruct H as [H|[H|H]]; rewrite H; simpl;
    rewrite ?orb_true_r; reflexivity.
Qed.

Lemma Styled_requires :
  truthy (prop (req_body req) "kind") = false
  \/ truthy (prop (req_body req) "name") = false
  \/ truthy (prop (req_body req) "email") = false ->
  Styled.handler w req = invalid_body.
Proof.
  intros H. unfold Styled.handler. rewrite on_post_POST by exact post.
  cbv zeta. rewrite !prop_or_empty.
  destruct H as [H|[H|H]]; rewrite H; simpl;
    rewrite ?orb_true_r; reflexivity.
Qed.

Lemma NotifyForm_requires (f : form) :
  parsed req = Ok f ->
  truthy (prop (flatten (fields f)) "kind") = false
  \/ truthy (prop (flatten (fields f)) "name") = false
  \/ truthy (prop (flatten (fields f)) "email") = false ->
  NotifyForm.handler w req = invalid_body.
Proof.
  intros Hp H. unfold NotifyForm.handler. rewrite on_post_POST by exact post.
  rewrite Hp. unfold lift, bind.
  destruct H as [H|[H|H]]; rewrite H; simpl;
    rewrite ?orb_true_r; reflexivity.
Qed.

Lemma NotifyOrigin_requires (f : form) :
  parsed req = Ok f ->
  truthy (prop (flatten (fields f)) "kind") = false
  \/ truthy (prop (flatten (fields f)) "name") = false
  \/ truthy (prop (flatten (fields f)) "email") = false ->
  NotifyOrigin.handler w req = invalid_body.
Proof.
  intros Hp H. unfold NotifyOrigin.handler. rewrite on_post_POST by exact post.
  rewrite Hp. unfold lift, bind.
  destruct H as [H|[H|H]]; rewrite H; simpl;
    rewrite ?orb_true_r; reflexivity.
Qed.

Lemma Upload_requires (f : form) :
  parsed req = Ok f ->
  truthy (prop (flatten (fields f)) "kind") = false
  \/ truthy (prop (flatten (fields f)) "email") = false ->
  Upload.handler w req = missing_fields.
Proof.
  intros Hp H. unfold Upload.handler. rewrite on_post_POST by exact post.
  rewrite Hp. unfold lift, bind.
  destruct H as [H|H]; rewrite H; simpl;
    rewrite ?orb_true_r; reflexivity.
Qed.

(** The mixed handler reads [body.kind] from whatever the normalizer
    produced; the check is reached when that is not [null]. *)
Lemma Mixed_requires (body : value) (file : option File) (tr : trace) :
  Mixed.normalize w req = (Ok (body, file), tr) ->
  nullish body = false ->
  truthy (prop body "kind") = false \/ truthy (prop body "email") = false ->
  Mixed.handler w req
  = (Ok (Json 400 (obj_failure (VStr "Missing required fields"))), tr).
Proof.
  intros Hn Hb H. unfold Mixed.handler. rewrite on_post_POST by exact post.
  rewrite Hn. unfold bind at 1. cbv zeta. simpl fst. simpl snd.
  rewrite (get_not_nullish body "kind" Hb). unfold lift, bind.
  destruct H as [H|H]; rewrite H; rewrite ?orb_true_r; simpl;
    rewrite app_nil_r; reflexivity.
Qed.

Lemma Captcha_requires_kind :
  truthy (prop (req_body req) "kind") = false ->
  Captcha.handler w req
  = (Ok (Json 400 (obj_error "Invalid payload: missing kind")), []).
Proof.
  intros H. unfold Captcha.handler. rewrite on_post_POST by exact post.
  cbv zeta. rewrite prop_or_empty, H. reflexivity.
Qed.

End RequiredFields.

(** The CAPTCHA block always completes, never calls the transport, and any
    response it returns is a [400]. *)
Lemma captcha_outcome (w : world) (body : value) :
  exists (x : option response) (tr : trace),
    Captcha.captcha w body = (Ok x, tr)
    /\ sends tr = false
    /\ forall r, x = Some r -> exists payload, r = Json 400 payload.
Proof.
  unfold Captcha.captcha, Captcha.verify.
  destruct (env w "RECAPTCHA_SECRET") as [secret|].
  2:{ exists None, []. repeat split. intros r H; discriminate. }
  destruct (secret =? "").
  { exists None, []. repeat split. intros r H; discriminate. }
  simpl negb. cbv iota.
  destruct (truthy (prop body "recaptchaToken")).
  2:{ eexists _, _. simpl. repeat split. intros r H. injection H as <-. eauto. }
  simpl negb. cbv iota. unfold emit, lift, bind, try_catch, console, ret.
  destruct (ToString (prop body "recaptchaToken")) as [response|e].
  2:{ eexists _, _. simpl. repeat split. intros r H. injection H as <-. eauto. }
  destruct (siteverify w _) as [data|e].
  2:{ eexists _, _. simpl. repeat split. intros r H. injection H as <-. eauto. }
  destruct data; simpl;
    try (eexists _, _; repeat split; intros r H; injection H as <-; eauto; fail);
    match goal with
    | |- context [truthy ?v] =>
        destruct (truthy v); simpl;
        eexists _, _; repeat split; intros r H;
        try discriminate; injection H as <-; eauto
    end.
Qed.

Lemma normalize_no_send (w : world) (req : request) (r : result (value * option File))
      (tr : trace) :
  Mixed.normalize w req = (r, tr) -> sends tr = false.
Proof.
  unfold Mixed.normalize, Mixed.parseJsonBody. cbv zeta.
  destruct (startsWith _ "multipart/form-data").
  - destruct (parsed req) as [f|e]; simpl.
    + destruct (first_or_self (files_attachment f)); simpl;
        intros H; injection H as _ <-; reflexivity.
    + intros H; injection H as _ <-; reflexivity.
  - destruct (startsWith _ "application/json");
      destruct (JSON_parse w _); simpl;
      intros H; injection H as _ <-; reflexivity.
Qed.

Lemma rejected_with_nil (payload : value) (m : M response) :
  m = (Ok (Json 400 payload), []) -> rejected_with payload m.
Proof. intros ->. exists []. split; reflexivity. Qed.

(** A response the classifier returns early is the handler's response. *)
Lemma deliver_early (w : world) (body : value) (r : response) :
  Captcha.compose body = Ok (inr r) -> Captcha.deliver w body = (Ok r, []).
Proof. intros H. unfold Captcha.deliver. rewrite H. reflexivity. Qed.

(** Once [kind] is present, a [400] from the classifier ends the request
    with a [400] and without a transport call, CAPTCHA or not. *)
Lemma Captcha_rejects (w : world) (req : request) (payload : value) :
  method req = "POST" ->
  truthy (prop (req_body req) "kind") = true ->
  Captcha.compose (or_else (req_body req) (VObj [])) = Ok (inr (Json 400 payload)) ->
  rejected (Captcha.handler w req).
Proof.
  intros Hm Hk Hc. unfold Captcha.handler. rewrite on_post_POST by exact Hm.
  cbv zeta. rewrite prop_or_empty, Hk. simpl negb. cbv iota.
  destruct (captcha_outcome w (or_else (req_body req) (VObj [])))
    as (x & tr & Hx & Hs & H400).
  rewrite Hx. unfold bind. destruct x as [r|].
  - destruct (H400 r eq_refl) as [p ->]. exists p, (tr ++ []).
    split; [reflexivity|]. rewrite sends_app, Hs. reflexivity.
  - rewrite (deliver_early w _ _ Hc). exists payload, (tr ++ []).
    split; [reflexivity|]. rewrite sends_app, Hs. reflexivity.
Qed.

(** [parseJsonBody] never raises, whatever [JSON.parse] does. *)
Lemma parseJsonBody_total (w : world) (req : request) :
  exists (v : value) (tr : trace), Mixed.parseJsonBody w req = (Ok v, tr).
Proof.
  unfold Mixed.parseJsonBody. cbv zeta.
  destruct (JSON_parse w _); eexists _, _; reflexivity.
Qed.

(** A [null] document is valid JSON; the mixed handler then fails on reading
    [body.kind] and answers 500 instead of 400. *)
Example Mixed_null_body :
  Mixed.handler Sample.relay_up (Sample.post_raw "null")
  = (Ok (Json 500 (obj_failure
           (VStr "Cannot read properties of null (reading 'kind')"))),
     [Console log [LV (VStr "📩 Parsed JSON body:"); LV VNull];
      Console error
        [LV (VStr "❌ Email send error:");
         LE (TypeError "Cannot read properties of null (reading 'kind')")]]).
Proof. vm_compute. reflexivity. Qed.

(** ** Escaping and line breaks *)

Lemma append_assoc (a b c : string) :
  ((a ++ b) ++ c)%string = (a ++ b ++ c)%string.
Proof. induction a as [|x a IH]; simpl; [reflexivity|]. rewrite IH. reflexivity. Qed.

Lemma append_nil_r (a : string) : (a ++ "")%string = a.
Proof. induction a as [|x a IH]; simpl; [reflexivity|]. rewrite IH. reflexivity. Qed.

Lemma replace_each_app (f : ascii -> string) (a b : string) :
  replace_each f (a ++ b) = (replace_each f a ++ replace_each f b)%string.
Proof.
  induction a as [|c a IH]; simpl.
  - reflexivity.
  - rewrite IH. rewrite append_assoc. reflexivity.
Qed.

Lemma prefix_nil (s : string) : String.prefix "" s = true.
Proof. destruct s; reflexivity. Qed.

Lemma prefix_app (p a b : string) :
  String.prefix p a = true -> String.prefix p (a ++ b)%string = true.
Proof.
  revert a. induction p as [|c p IH]; intros a H.
  - destruct (a ++ b)%string; reflexivity.
  - destruct a as [|d a]; simpl in *; [discriminate|].
    destruct (Ascii.ascii_dec c d); [auto|discriminate].
Qed.

Lemma entity_start_app (a b : string) :
  entity_start a = true -> entity_start (a ++ b)%string = true.
Proof.
  unfold entity_start. intros H.
  repeat (apply orb_true_iff in H; destruct H as [H|H]);
    rewrite (prefix_app _ _ b H); rewrite ?orb_true_r; reflexivity.
Qed.

Lemma escaped_app (a b : string) :
  escaped a = true -> escaped b = true -> escaped (a ++ b)%string = true.
Proof.
  intros Ha Hb. induction a as [|c a IH]; simpl in *.
  - exact Hb.
  - apply andb_true_iff in Ha. destruct Ha as [Hc Ha].
    rewrite (IH Ha), andb_true_r.
    destruct (Ascii.eqb c "&"); [apply entity_start_app|]; exact Hc.
Qed.

Lemma esc_char_escaped (c : ascii) (r : string) :
  escaped r = true -> escaped (esc_char c ++ r)%string = true.
Proof.
  intros Hr. unfold esc_char.
  assert (entity : forall e : string,
             entity_start (e ++ r)%string = true ->
             escaped e = true -> escaped (("&" ++ e) ++ r)%string = true).
  { intros e He Hesc. simpl. rewrite He. simpl. apply escaped_app; assumption. }
  destruct (Ascii.eqb c "&") eqn:E1;
    [apply (entity "amp;"); unfold entity_start; simpl;
     rewrite ?prefix_nil; reflexivity|].
  destruct (Ascii.eqb c "<") eqn:E2;
    [apply (entity "lt;"); unfold entity_start; simpl;
     rewrite ?prefix_nil; reflexivity|].
  destruct (Ascii.eqb c ">") eqn:E3;
    [apply (entity "gt;"); unfold entity_start; simpl;
     rewrite ?prefix_nil; reflexivity|].
  destruct (Ascii.eqb c dq_char) eqn:E4;
    [apply (entity "quot;"); unfold entity_start; simpl;
     rewrite ?prefix_nil; reflexivity|].
  destruct (Ascii.eqb c sq_char) eqn:E5;
    [apply (entity "#39;"); unfold entity_start; simpl;
     rewrite ?prefix_nil; reflexivity|].
  simpl. unfold is_meta. rewrite E1, E2, E3, E4, E5. exact Hr.
Qed.

(** The output of [esc] holds no unescaped metacharacter. *)
Lemma esc_str_escaped (s : string) : escaped (esc_str s) = true.
Proof.
  unfold esc_str. induction s as [|c s IH]; simpl.
  - reflexivity.
  - apply esc_char_escaped. exact IH.
Qed.

Lemma esc_escaped (v : value) : escaped (esc v) = true.
Proof. apply esc_str_escaped. Qed.

Lemma escaped_join (l : list string) :
  Forall (fun s => escaped s = true) l -> escaped (join ", " l) = true.
Proof.
  induction 1 as [|x r Hx Hr IH]; [reflexivity|].
  destruct r as [|y r]; [exact Hx|].
  change (escaped (x ++ ", " ++ join ", " (y :: r))%string = true).
  apply escaped_app; [exact Hx|]. apply escaped_app; [reflexivity|exact IH].
Qed.






Lemma nl2br_str_app (a b : string) :
  nl2br_str (a ++ b) = (nl2br_str a ++ nl2br_str b)%string.
Proof. apply replace_each_app. Qed.


Lemma holes_app (a b : template) : holes (a ++ b) = holes a ++ holes b.
Proof.
  induction a as [|[l|h|e] a IH]; simpl; rewrite ?IH; reflexivity.
Qed.




(** ** Conversions and the evaluation of templates *)

Lemma failure_app (a b : template) :
  failure (a ++ b) = match failure a with Some e => Some e | None => failure b end.
Proof.
  induction a as [|[l|h|e] a IH]; simpl; try exact IH; reflexivity.
Qed.

Lemma settle_ok (t t' : template) :
  settle t = Ok t' <-> failure t = None /\ t' = t.
Proof.
  unfold settle. destruct (failure t); split.
  - discriminate.
  - intros [H _]. discriminate.
  - intros H. injection H as <-. auto.
  - intros [_ ->]. reflexivity.
Qed.

Lemma settle_throw (t : template) (e : thrown) :
  settle t = Throw e <-> failure t = Some e.
Proof.
  unfold settle. destruct (failure t); split; intros H;
    try discriminate; congruence.
Qed.

Lemma text_of_ok (t : template) :
  failure t = None -> text_of t = Ok (render t).
Proof. intros H. unfold text_of, settle. rewrite H. reflexivity. Qed.

Lemma text_of_inv (t : template) (s : string) :
  text_of t = Ok s -> failure t = None /\ s = render t.
Proof.
  unfold text_of, settle. destruct (failure t); simpl; [discriminate|].
  intros H. injection H as <-. auto.
Qed.

Lemma ToString_ok (v : value) (s : string) :
  ToString v = Ok s -> converts v = true /\ s = toString v.
Proof.
  unfold ToString. destruct (converts v); [|discriminate].
  intros H. injection H as <-. auto.
Qed.

Lemma converts_default (v : value) :
  converts (match v with VUndef => VStr "" | _ => v end) = converts v.
Proof. destruct v; reflexivity. Qed.

(** [esc(v)] returns exactly when [String(v)] does, and then with [esc v]. *)
Lemma esc_call_spec (v : value) :
  esc_call v = if converts v then Ok (esc v) else Throw no_primitive.
Proof.
  unfold esc_call, ToString, esc. rewrite converts_default.
  destruct (converts v); reflexivity.
Qed.

Lemma put_spec (v : value) :
  put v = if converts v then Hole (toString v) else Fail no_primitive.
Proof. unfold put, ToString. destruct (converts v); reflexivity. Qed.

Lemma put_esc_spec (v : value) :
  put_esc v = if converts v then Hole (esc v) else Fail no_primitive.
Proof. unfold put_esc. rewrite esc_call_spec. destruct (converts v); reflexivity. Qed.

Lemma put_br_esc_spec (v : value) :
  put_br_esc v
  = if converts v then Hole (nl2br (VStr (esc v))) else Fail no_primitive.
Proof.
  unfold put_br_esc. rewrite esc_call_spec. destruct (converts v); reflexivity.
Qed.

Lemma map_esc_spec (l : list value) :
  Captcha.map_esc l = if forallb converts l then Ok (map esc l) else Throw no_primitive.
Proof.
  induction l as [|x l IH]; [reflexivity|].
  simpl. rewrite esc_call_spec, IH.
  destruct (converts x); [|reflexivity].
  destruct (forallb converts l); reflexivity.
Qed.

Lemma put_converts (v : value) : converts v = true -> put v = Hole (toString v).
Proof. intros H. rewrite put_spec, H. reflexivity. Qed.

Lemma converts_or_else (a b : value) :
  converts a = true -> converts b = true -> converts (or_else a b) = true.
Proof. intros Ha Hb. unfold or_else. destruct (truthy a); assumption. Qed.

Lemma text_converts (v : value) : text_or_missing v = true -> converts v = true.
Proof. destruct v; simpl; try discriminate; reflexivity. Qed.

Lemma converts_file_name (f : File) : text_or_missing (originalFilename f) = true.
Proof. unfold originalFilename. destruct (original_name f); reflexivity. Qed.

(** ** What the escaping handler embeds *)

Lemma safe_esc (v : value) : safe_hole (esc v).
Proof. exists (esc v). split; [apply esc_escaped|left; reflexivity]. Qed.

Lemma safe_nl2br_esc (v : value) : safe_hole (nl2br (VStr (esc v))).
Proof. exists (esc v). split; [apply esc_escaped|right; reflexivity]. Qed.

Lemma safe_goals (l : list value) : safe_hole (join ", " (map esc l)).
Proof.
  exists (join ", " (map esc l)). split; [|left; reflexivity].
  apply escaped_join. apply Forall_forall. intros s H.
  apply in_map_iff in H. destruct H as (v & <- & _). apply esc_escaped.
Qed.

Lemma safe_put_esc (v : value) (t : template) :
  Forall safe_hole (holes t) -> Forall safe_hole (holes (put_esc v :: t)).
Proof.
  intros H. rewrite put_esc_spec. destruct (converts v); simpl; [|exact H].
  apply Forall_cons; [apply safe_esc|exact H].
Qed.

Lemma safe_put_br_esc (v : value) (t : template) :
  Forall safe_hole (holes t) -> Forall safe_hole (holes (put_br_esc v :: t)).
Proof.
  intros H. rewrite put_br_esc_spec. destruct (converts v); simpl; [|exact H].
  apply Forall_cons; [apply safe_nl2br_esc|exact H].
Qed.

Lemma safe_lit (s : string) (t : template) :
  Forall safe_hole (holes t) -> Forall safe_hole (holes (Lit s :: t)).
Proof. intros H. exact H. Qed.

Ltac safe_holes :=
  repeat rewrite holes_app;
  repeat (apply Forall_app; split);
  repeat first [apply safe_lit | apply safe_put_esc | apply safe_put_br_esc];
  try apply Forall_nil.

Lemma submitted_footer_safe (v : value) :
  Forall safe_hole (holes (Captcha.submitted_footer v)).
Proof. unfold Captcha.submitted_footer. destruct (truthy v); safe_holes. Qed.

Lemma optional_line_safe (label : string) (v : value) :
  Forall safe_hole (holes (Captcha.optional_line label v)).
Proof. unfold Captcha.optional_line. destruct (truthy v); safe_holes. Qed.

Lemma goals_line_safe (v : value) :
  Forall safe_hole (holes (Captcha.goals_line v)).
Proof.
  unfold Captcha.goals_line.
  destruct v as [| | | | |[|g r]|]; try apply Forall_nil.
  rewrite map_esc_spec. destruct (forallb converts (g :: r)); simpl.
  - apply Forall_cons; [apply (safe_goals (g :: r))|apply Forall_nil].
  - apply Forall_nil.
Qed.

Lemma references_line_safe (v : value) :
  Forall safe_hole (holes (Captcha.references_line v)).
Proof. unfold Captcha.references_line. destruct (truthy v); safe_holes. Qed.

(** Every value the escaping handler embeds in a contact body is escaped. *)
Lemma Captcha_contact_escaped (body : value) :
  Forall safe_hole (holes (Captcha.contact_html body)).
Proof.
  unfold Captcha.contact_html. cbv zeta. safe_holes.
  apply submitted_footer_safe.
Qed.

(** Every value the escaping handler embeds in a quote body is escaped. *)
Lemma Captcha_quote_escaped (body : value) :
  Forall safe_hole (holes (Captcha.quote_html body)).
Proof.
  unfold Captcha.quote_html. cbv zeta. safe_holes;
    first [apply optional_line_safe | apply goals_line_safe
          | apply references_line_safe | apply submitted_footer_safe].
Qed.






(** ** The accepting paths *)

Lemma truthy_prop_or (b : value) (k : string) :
  truthy (prop b k) = true -> or_else b (VObj []) = b.
Proof.
  unfold or_else. destruct b; simpl; try discriminate. reflexivity.
Qed.

Lemma bind_ok {A B : Type} (a : A) (t : trace) (f : A -> M B) :
  bind (Ok a, t) f = (fst (f a), t ++ snd (f a)).
Proof. unfold bind. destruct (f a). reflexivity. Qed.

Lemma bind_lift_ok {A B : Type} (a : A) (f : A -> M B) :
  bind (lift (Ok a)) f = f a.
Proof. unfold lift. rewrite bind_ok. destruct (f a). reflexivity. Qed.

(** What the first notify handler does once its three fields are present
    and its template is evaluated. *)
Lemma Notify_accepts (w : world) (req : request) (t : template) :
  method req = "POST" ->
  truthy (prop (req_body req) "kind") = true ->
  truthy (prop (req_body req) "name") = true ->
  truthy (prop (req_body req) "email") = true ->
  settle (Notify.html (req_body req)) = Ok t ->
  Notify.handler w req
  = dispatch w (mkMail (plain_subject (req_body req)) (render t) [])
      "❌ Email sending error:" read_message.
Proof.
  intros Hm Hk Hn He Ht. unfold Notify.handler, dispatch.
  rewrite on_post_POST by exact Hm. cbv zeta.
  rewrite (truthy_prop_or _ _ Hk), Hk, Hn, He. simpl negb. simpl orb. cbv iota.
  rewrite Ht, bind_lift_ok.
  unfold sendMail, bind, emit, lift, try_catch, console, ret.
  destruct (transport w _) as [id|err]; [reflexivity|].
  destruct (read_message err); reflexivity.
Qed.


Lemma NotifyForm_accepts (w : world) (req : request) (f : form)
      (atts : list attachment) (ta : trace) (t : template) :
  method req = "POST" ->
  parsed req = Ok f ->
  let body := flatten (fields f) in
  let file := first_of_array (files_attachment f) in
  truthy (prop body "kind") = true ->
  truthy (prop body "name") = true ->
  truthy (prop body "email") = true ->
  NotifyForm.attach w file = (Ok atts, ta) ->
  NotifyForm.html w body file = Ok t ->
  NotifyForm.handler w req
  = (fst (dispatch w (mkMail (plain_subject body) (render t) atts)
            "❌ Email sending error:" read_message),
     ta ++ snd (dispatch w (mkMail (plain_subject body) (render t) atts)
                  "❌ Email sending error:" read_message)).
Proof.
  intros Hm Hp body file Hk Hn He Ha Ht. unfold NotifyForm.handler, dispatch.
  rewrite on_post_POST by exact Hm.
  rewrite Hp, bind_lift_ok. cbv zeta. fold body. fold file.
  rewrite Hk, Hn, He. simpl negb. simpl orb. cbv iota.
  rewrite Ha, bind_ok, Ht, bind_lift_ok.
  unfold sendMail, bind, emit, lift, try_catch, console, ret.
  destruct (transport w _) as [id|err]; simpl;
    [rewrite ?app_nil_r, <- ?app_assoc; reflexivity|].
  destruct (read_message err); simpl;
    rewrite ?app_nil_r, <- ?app_assoc; reflexivity.
Qed.

Lemma NotifyOrigin_accepts (w : world) (req : request) (f : form)
      (atts : list attachment) (ta : trace) (t : template) :
  method req = "POST" ->
  parsed req = Ok f ->
  let body := flatten (fields f) in
  let file := first_of_array (files_attachment f) in
  truthy (prop body "kind") = true ->
  truthy (prop body "name") = true ->
  truthy (prop body "email") = true ->
  NotifyOrigin.attach w file = (Ok atts, ta) ->
  NotifyOrigin.html w body file = Ok t ->
  NotifyOrigin.handler w req
  = (fst (dispatch w (mkMail (plain_subject body) (render t) atts)
            "❌ Email sending error:" message_or_default),
     ta ++ snd (dispatch w (mkMail (plain_subject body) (render t) atts)
                  "❌ Email sending error:" message_or_default)).
Proof.
  intros Hm Hp body file Hk Hn He Ha Ht.
  unfold NotifyOrigin.handler, dispatch, message_or_default.
  rewrite on_post_POST by exact Hm.
  rewrite Hp, bind_lift_ok. cbv zeta. fold body. fold file.
  rewrite Hk, Hn, He. simpl negb. simpl orb. cbv iota.
  rewrite Ha, bind_ok, Ht, bind_lift_ok.
  unfold sendMail, bind, emit, lift, try_catch, console, ret.
  destruct (transport w _); simpl; rewrite ?app_nil_r, <- ?app_assoc; reflexivity.
Qed.

Lemma Upload_accepts (w : world) (req : request) (f : form)
      (atts : list attachment) (ta : trace) (t : template) :
  method req = "POST" ->
  parsed req = Ok f ->
  let body := flatten (fields f) in
  let file := first_or_self (files_attachment f) in
  truthy (prop body "kind") = true ->
  truthy (prop body "email") = true ->
  Upload.attach w file = (Ok atts, ta) ->
  Upload.html body file = Ok t ->
  Upload.handler w req
  = (fst (dispatch w (mkMail (plain_subject body) (render t) atts)
            "❌ Email send error:" read_message),
     ta ++ snd (dispatch w (mkMail (plain_subject body) (render t) atts)
                  "❌ Email send error:" read_message)).
Proof.
  intros Hm Hp body file Hk He Ha Ht. unfold Upload.handler, dispatch.
  rewrite on_post_POST by exact Hm.
  rewrite Hp, bind_lift_ok. cbv zeta. fold body. fold file.
  rewrite Hk, He. simpl negb. simpl orb. cbv iota.
  rewrite Ha, bind_ok, Ht, bind_lift_ok.
  unfold sendMail, bind, emit, lift, try_catch, console, ret.
  destruct (transport w _) as [id|err]; simpl;
    [rewrite ?app_nil_r, <- ?app_assoc; reflexivity|].
  destruct (read_message err); simpl;
    rewrite ?app_nil_r, <- ?app_assoc; reflexivity.
Qed.

Lemma Mixed_accepts (w : world) (req : request) (body : value)
      (file : option File) (tn : trace)
      (atts : list attachment) (ta : trace) (t : template) :
  method req = "POST" ->
  Mixed.normalize w req = (Ok (body, file), tn) ->
  truthy (prop body "kind") = true ->
  truthy (prop body "email") = true ->
  Mixed.attach w file = (Ok atts, ta) ->
  Mixed.html body file = Ok t ->
  Mixed.handler w req
  = (fst (dispatch w (mkMail (plain_subject body) (render t) atts)
            "❌ Email send error:" message_or_default),
     tn ++ ta ++ snd (dispatch w (mkMail (plain_subject body) (render t) atts)
                        "❌ Email send error:" message_or_default)).
Proof.
  intros Hm Hnorm Hk He Ha Ht. unfold Mixed.handler, dispatch, message_or_default.
  rewrite on_post_POST by exact Hm.
  rewrite Hnorm, bind_ok. cbv beta zeta.
  change (fst (body, file)) with body. change (snd (body, file)) with file.
  assert (G : get body "kind" = Ok (prop body "kind")).
  { apply get_not_nullish. destruct body; simpl in *; try reflexivity; discriminate. }
  rewrite G, bind_lift_ok, Hk, He. simpl negb. simpl orb. cbv iota.
  rewrite Ha, bind_ok, Ht, bind_lift_ok.
  unfold sendMail, bind, emit, lift, try_catch, console, ret.
  destruct (transport w _); simpl; rewrite ?app_nil_r, <- ?app_assoc; reflexivity.
Qed.

(** What the escaping handler does with a composed message. *)
Lemma Captcha_delivers (w : world) (body : value) (m : mail) :
  Captcha.compose body = Ok (inl m) ->
  Captcha.deliver w body
  = match transport w m with
    | Ok messageId => (Ok (Json 200 (obj_success messageId)), [SendMail m])
    | Throw err =>
        (Ok (Json 500 (obj_failure (VStr "Failed to send email"))),
         [SendMail m; Console error [LV (VStr "Email send failed:"); LE err]])
    end.
Proof.
  intros Hc. unfold Captcha.deliver. rewrite Hc.
  unfold sendMail, bind, emit, lift, try_catch, console, ret.
  destruct (transport w m); reflexivity.
Qed.

(** A conversion that throws while the message is composed ends the request
    with the fixed 500 answer, before any transport call. *)
Lemma Captcha_compose_fails (w : world) (body : value) (e : thrown) :
  Captcha.compose body = Throw e ->
  Captcha.deliver w body
  = (Ok (Json 500 (obj_failure (VStr "Failed to send email"))),
     [Console error [LV (VStr "Email send failed:"); LE e]]).
Proof. intros Hc. unfold Captcha.deliver. rewrite Hc. reflexivity. Qed.

Lemma read_message_ok (e : thrown) (text : value) :
  read_message e = Ok text -> text = err_message e.
Proof. destruct e; simpl; intros H; try discriminate. congruence. Qed.

(** Reading [message] throws on [null] and [undefined] only. *)
Lemma read_message_throw (e e' : thrown) :
  read_message e = Throw e' -> e = thrown_null \/ e = thrown_undefined.
Proof. destruct e; simpl; intros H; try discriminate; auto. Qed.

(** The only responses the classifier returns early are 400s. *)
Lemma compose_early (body : value) (r : response) :
  Captcha.compose body = Ok (inr r) -> exists payload, r = Json 400 payload.
Proof.
  unfold Captcha.compose.
  destruct (is_str (prop body "kind") "contact").
  - destruct (negb _ || negb _ || negb _).
    + intros H. injection H as <-. eauto.
    + destruct (text_of (Captcha.contact_subject _)); simpl; [|discriminate].
      destruct (text_of (Captcha.contact_html _)); simpl; discriminate.
  - destruct (is_str (prop body "kind") "quote").
    + destruct (text_of (Captcha.quote_subject _ _ _)); simpl; [|discriminate].
      destruct (text_of (Captcha.quote_html _)); simpl; discriminate.
    + intros H. injection H as <-. eauto.
Qed.

(** ** Flattening of multipart fields *)
Lemma fold_assign_lookup (k : string) (fs acc : list (string * value)) :
  NoDup (map fst fs) -> has_key k fs = true ->
  assoc k (fold_left (fun b kv => assign (fst kv) (first (snd kv)) b) fs acc)
  = first (assoc k fs).
Proof.
  revert acc. induction fs as [|[k0 v0] fs IH]; intros acc ND H; simpl in *.
  - discriminate.
  - inversion ND as [|? ? Hnotin ND']; subst.
    destruct (k0 =? k) eqn:E.
    + apply String.eqb_eq in E. subst k0.
      rewrite fold_assign_absent.
      * rewrite assoc_assign, String.eqb_refl. reflexivity.
      * unfold has_key. apply not_true_is_false. intros C.
        apply existsb_exists in C. destruct C as ([k1 v1] & Hin & Hk).
        simpl in Hk. apply String.eqb_eq in Hk. subst k1.
        apply Hnotin. apply in_map_iff. exists (k, v1). auto.
    + simpl in H. apply IH; assumption.
Qed.

(** Every field of the flattened body is the first value of the form field:
    [first] keeps a lone value and takes element [0] of an array. *)
Lemma flatten_first (k : string) (fs : list (string * value)) :
  NoDup (map fst fs) -> prop (flatten fs) k = first (assoc k fs).
Proof.
  intros ND. destruct (has_key k fs) eqn:H.
  - unfold flatten. simpl. apply fold_assign_lookup; assumption.
  - rewrite (flatten_absent _ _ H).
    assert (A : assoc k fs = VUndef).
    { clear ND. induction fs as [|[k0 v0] fs IH]; simpl in *; [reflexivity|].
      apply orb_false_iff in H. destruct H as [H0 H1]. rewrite H0. auto. }
    rewrite A. reflexivity.
Qed.

Lemma first_not_array (v : value) : form_value v = true -> isArray (first v) = false.
Proof.
  destruct v as [| | | | |l|]; simpl; try discriminate; [reflexivity|].
  destruct l as [|x l]; [reflexivity|]. simpl.
  destruct x; simpl; try discriminate. reflexivity.
Qed.

Lemma fold_assign_no_array (k : string) (fs acc : list (string * value)) :
  forallb (fun kv => form_value (snd kv)) fs = true ->
  isArray (assoc k acc) = false ->
  isArray (assoc k
             (fold_left (fun b kv => assign (fst kv) (first (snd kv)) b) fs acc))
  = false.
Proof.
  revert acc. induction fs as [|[k0 v0] fs IH]; intros acc H A; simpl in *.
  - exact A.
  - apply andb_true_iff in H. destruct H as [H0 H1].
    apply IH; [exact H1|]. rewrite assoc_assign.
    destruct (k0 =? k); [apply first_not_array; exact H0|exact A].
Qed.

(** After flattening, no field of a multipart body is an array, so the
    renderer's [Array.isArray(body.goals)] branch is never taken. *)
Lemma flatten_never_array (k : string) (fs : list (string * value)) :
  forallb (fun kv => form_value (snd kv)) fs = true ->
  isArray (prop (flatten fs) k) = false.
Proof.
  intros H. unfold flatten. simpl. apply fold_assign_no_array; [exact H|reflexivity].
Qed.

(** ** Substrings *)

Lemma prefix_refl (p : string) : String.prefix p p = true.
Proof.
  induction p as [|c p IH]; [reflexivity|]. simpl.
  destruct (Ascii.ascii_dec c c); [exact IH|contradiction].
Qed.

Lemma contains_here (p s : string) : String.prefix p s = true -> contains p s = true.
Proof. intros H. destruct s; cbn [contains]; rewrite H; reflexivity. Qed.

Lemma contains_middle (p a b : string) : contains p (a ++ p ++ b)%string = true.
Proof.
  induction a as [|c a IH].
  - change (contains p (p ++ b)%string = true).
    apply contains_here. apply prefix_app. apply prefix_refl.
  - change (contains p (String c (a ++ p ++ b)%string) = true).
    cbn [contains]. rewrite IH. apply orb_true_r.
Qed.

Lemma contains_end (p a : string) : contains p (a ++ p)%string = true.
Proof.
  pose proof (contains_middle p a "") as H.
  rewrite append_nil_r in H. exact H.
Qed.


(** ** Heading and subject *)

(** Reading the upload is guarded by its own [try]: building the attachment
    list of the notify handlers never fails. *)
Lemma NotifyForm_attach_total (w : world) (file : option File) :
  exists atts ta, NotifyForm.attach w file = (Ok atts, ta).
Proof.
  unfold NotifyForm.attach, readFile. destruct file as [f|].
  - unfold emit, lift, bind, try_catch, console, ret.
    destruct (readFileSync w (filepath f)); eexists _, _; reflexivity.
  - eexists _, _; reflexivity.
Qed.

Lemma NotifyOrigin_attach_total (w : world) (file : option File) :
  exists atts ta, NotifyOrigin.attach w file = (Ok atts, ta).
Proof.
  unfold NotifyOrigin.attach, readFile. destruct file as [f|].
  - destruct (filepath f =? ""); simpl negb; cbv iota.
    + eexists _, _; reflexivity.
    + unfold emit, lift, bind, try_catch, console, ret.
      destruct (readFileSync w (filepath f)); eexists _, _; reflexivity.
  - eexists _, _; reflexivity.
Qed.


Lemma read_message_reads : reads_message read_message.
Proof. intros err e' H. exists err. exact H. Qed.

Lemma message_or_default_reads : reads_message message_or_default.
Proof. intros err e' H. discriminate. Qed.

Lemma dispatch_ends (w : world) (m : mail) (label : string)
      (report : thrown -> result value) :
  reads_message report ->
  exists (r : result response) (after : trace),
    dispatch w m label report = (r, SendMail m :: after)
    /\ forall e' : thrown,
         r = Throw e' -> exists e : thrown, read_message e = Throw e'.
Proof.
  intros R. unfold dispatch. destruct (transport w m) as [id|err].
  - eexists _, _. split; [reflexivity|]. intros e' H. discriminate.
  - eexists _, _. split; [reflexivity|]. intros e' H.
    destruct (report err) as [text|e0] eqn:E; [discriminate|].
    simpl in H. injection H as <-. exact (R err e0 E).
Qed.

Lemma Ok_inj {A : Type} (a b : A) : Ok a = Ok b -> a = b.
Proof. intros H. congruence. Qed.









(** ** Templates that evaluate *)

Lemma failure_lit (s : string) (t : template) :
  failure (Lit s :: t) = failure t.
Proof. reflexivity. Qed.

Lemma failure_put (v : value) (t : template) :
  converts v = true -> failure (put v :: t) = failure t.
Proof. intros H. rewrite put_spec, H. reflexivity. Qed.

Lemma failure_put_esc (v : value) (t : template) :
  converts v = true -> failure (put_esc v :: t) = failure t.
Proof. intros H. rewrite put_esc_spec, H. reflexivity. Qed.

Lemma failure_put_br_esc (v : value) (t : template) :
  converts v = true -> failure (put_br_esc v :: t) = failure t.
Proof. intros H. rewrite put_br_esc_spec, H. reflexivity. Qed.

Lemma failure_put_date (w : world) (v : value) (t : template) :
  converts v = true -> failure (put_date w v :: t) = failure t.
Proof. intros H. unfold put_date. rewrite H. reflexivity. Qed.

Lemma failure_put_replaced (what fallback : string) (v : value) (t : template) :
  text_or_missing v = true ->
  failure (put_replaced what v fallback :: t) = failure t.
Proof.
  intros H. unfold put_replaced.
  destruct v; simpl in *; try discriminate; try reflexivity.
  apply failure_put. apply converts_or_else; reflexivity.
Qed.

Lemma failure_put_goals (v : value) (t : template) :
  converts v = true -> failure (put_goals v :: t) = failure t.
Proof.
  intros H. unfold put_goals.
  destruct v; try (apply failure_put; apply converts_or_else; [exact H|reflexivity]).
  unfold join_call. simpl in H. rewrite H. reflexivity.
Qed.

Lemma fields_convert_prop (body : value) (k : string) :
  fields_convert body = true -> converts (prop body k) = true.
Proof.
  destruct body as [| | | | | |o]; try reflexivity. simpl.
  induction o as [|[k0 v0] o IH]; simpl; [reflexivity|].
  intros H. apply andb_true_iff in H. destruct H as [H0 H1].
  destruct (k0 =? k); [exact H0|exact (IH H1)].
Qed.


(** Proves that the template in the goal has no failing piece, given [conv]
    for the conversions. *)
Ltac no_failure conv :=
  repeat first
    [ rewrite failure_app
    | rewrite failure_put by conv
    | rewrite failure_put_esc by conv
    | rewrite failure_put_br_esc by conv
    | rewrite failure_put_date by conv
    | rewrite failure_put_goals by conv
    | rewrite failure_lit ];
  try reflexivity.

Ltac conv_by H :=
  repeat (apply converts_or_else);
  first [ reflexivity | apply H | apply text_converts; apply H ].

Lemma submitted_footer_evaluates (v : value) :
  converts v = true -> failure (Captcha.submitted_footer v) = None.
Proof.
  intros H. unfold Captcha.submitted_footer. destruct (truthy v); [|reflexivity].
  no_failure ltac:(exact H).
Qed.

Lemma optional_line_evaluates (label : string) (v : value) :
  converts v = true -> failure (Captcha.optional_line label v) = None.
Proof.
  intros H. unfold Captcha.optional_line. destruct (truthy v); [|reflexivity].
  no_failure ltac:(exact H).
Qed.

Lemma references_line_evaluates (v : value) :
  converts v = true -> failure (Captcha.references_line v) = None.
Proof.
  intros H. unfold Captcha.references_line. destruct (truthy v); [|reflexivity].
  no_failure ltac:(exact H).
Qed.

Lemma goals_line_evaluates (v : value) :
  converts v = true -> failure (Captcha.goals_line v) = None.
Proof.
  intros H. unfold Captcha.goals_line.
  destruct v as [| | | | |[|g r]|]; try reflexivity.
  rewrite map_esc_spec. change (forallb converts (g :: r)) with (converts (VArr (g :: r))).
  rewrite H. reflexivity.
Qed.

(** With convertible fields both bodies of the escaping handler evaluate. *)
Lemma contact_html_evaluates (body : value) :
  (forall k, converts (prop body k) = true) ->
  failure (Captcha.contact_html body) = None.
Proof.
  intros H. unfold Captcha.contact_html. cbv zeta.
  no_failure ltac:(conv_by H).
  rewrite submitted_footer_evaluates by apply H. reflexivity.
Qed.

Lemma quote_html_evaluates (body : value) :
  (forall k, converts (prop body k) = true) ->
  failure (Captcha.quote_html body) = None.
Proof.
  intros H. unfold Captcha.quote_html. cbv zeta.
  repeat first
    [ rewrite failure_app
    | rewrite optional_line_evaluates by apply H
    | rewrite goals_line_evaluates by apply H
    | rewrite references_line_evaluates by apply H
    | rewrite submitted_footer_evaluates by apply H
    | rewrite failure_put_esc by conv_by H
    | rewrite failure_put_br_esc by conv_by H
    | rewrite failure_lit ];
  reflexivity.
Qed.

(** The subject templates: their text, and when they evaluate. *)
Lemma contact_subject_text (name : value) :
  text_of (Captcha.contact_subject name)
  = if converts name
    then Ok ("📩 New Contact — " ++ toString name)%string
    else Throw no_primitive.
Proof.
  unfold Captcha.contact_subject, text_of, settle. rewrite put_spec.
  destruct (converts name); reflexivity.
Qed.

Lemma quote_subject_text (category service fullName : value) :
  text_of (Captcha.quote_subject category service fullName)
  = if converts category && converts service && converts fullName
    then Ok ("🧾 New Quote — " ++ toString category ++ " / " ++ toString service
               ++ " — " ++ toString fullName)%string
    else Throw no_primitive.
Proof.
  unfold Captcha.quote_subject, text_of, settle. rewrite !put_spec.
  destruct (converts category), (converts service), (converts fullName);
    reflexivity.
Qed.

Lemma detailed_head_evaluates (i : nat) (body : value) :
  (forall k, converts (prop body k) = true) ->
  failure (detailed_head i body) = None.
Proof. intros H. unfold detailed_head. no_failure ltac:(conv_by H). Qed.

Lemma short_head_evaluates (i : nat) (body : value) :
  (forall k, converts (prop body k) = true) ->
  failure (short_head i body) = None.
Proof. intros H. unfold short_head. no_failure ltac:(conv_by H). Qed.

Lemma na_line_evaluates (i : nat) (label : string) (v : value) :
  converts v = true -> failure (na_line i label v) = None.
Proof. intros H. unfold na_line. no_failure ltac:(conv_by H). Qed.

(** The field whose [replace] method the templates call decides whether the
    kind-specific block evaluates, once the other fields convert. *)
Lemma detailed_fields_evaluates (i : nat) (body : value) :
  (forall k, converts (prop body k) = true) ->
  text_or_missing (prop body (broken_field body)) = true ->
  failure (detailed_fields i body) = None.
Proof.
  intros H T. unfold detailed_fields, broken_field in *.
  destruct (is_str (prop body "kind") "quote").
  - repeat first
      [ rewrite failure_app
      | rewrite na_line_evaluates by apply H
      | rewrite failure_put_goals by apply H
      | rewrite failure_put_replaced by exact T
      | rewrite failure_lit ].
    reflexivity.
  - rewrite failure_lit, failure_put_replaced by exact T. reflexivity.
Qed.

Lemma detailed_foot_evaluates (w : world) (i c : nat) (v : value) :
  converts v = true -> failure (detailed_foot w i c v) = None.
Proof. intros H. unfold detailed_foot. no_failure ltac:(exact H). Qed.

Lemma file_name_converts (f : File) : converts (originalFilename f) = true.
Proof. apply text_converts. apply converts_file_name. Qed.

Lemma short_foot_evaluates (i : nat) (file : option File) :
  failure (short_foot i file) = None.
Proof.
  unfold short_foot. destruct file as [f|]; [|reflexivity].
  no_failure ltac:(apply file_name_converts).
Qed.

Lemma integer_converts (n : Z) : converts (integer n) = true.
Proof. reflexivity. Qed.

Section BodiesThatRender.

Variable w : world.
Variable body : value.
Variable file : option File.
Hypothesis fields_ok : forall k, converts (prop body k) = true.


Lemma Upload_kind_fields_evaluates :
  text_or_missing (prop body "brief") = true ->
  failure (Upload.kind_fields body) = None.
Proof.
  intros T. unfold Upload.kind_fields.
  destruct (is_str (prop body "kind") "quote").
  - repeat first
      [ rewrite failure_app
      | rewrite na_line_evaluates by apply fields_ok
      | rewrite failure_put_replaced by exact T
      | rewrite failure_lit ].
    reflexivity.
  - no_failure ltac:(conv_by fields_ok).
Qed.

Lemma Mixed_kind_fields_evaluates :
  text_or_missing (prop body (broken_field body)) = true ->
  failure (Mixed.kind_fields body) = None.
Proof.
  intros T. unfold Mixed.kind_fields, broken_field in *.
  destruct (is_str (prop body "kind") "quote").
  - repeat first
      [ rewrite failure_app
      | rewrite na_line_evaluates by apply fields_ok
      | rewrite failure_put_replaced by exact T
      | rewrite failure_lit ].
    reflexivity.
  - rewrite failure_lit, failure_put_replaced by exact T. reflexivity.
Qed.

Lemma Styled_html_evaluates :
  text_or_missing (prop body (broken_field body)) = true ->
  Styled.html w body
  = Ok (detailed_head 2 body ++ detailed_fields 2 body
        ++ detailed_foot w 2 0 (prop body "submittedAt")).
Proof.
  intros T. unfold Styled.html. apply settle_ok. split; [|reflexivity].
  rewrite !failure_app, detailed_head_evaluates, detailed_fields_evaluates,
    detailed_foot_evaluates; auto.
Qed.

Lemma NotifyForm_html_evaluates :
  text_or_missing (prop body (broken_field body)) = true ->
  exists t, NotifyForm.html w body file = Ok t.
Proof.
  intros T. unfold NotifyForm.html. eexists. apply settle_ok. split; [|reflexivity].
  rewrite !failure_app, detailed_head_evaluates, detailed_fields_evaluates,
    detailed_foot_evaluates; auto.
  - rewrite failure_lit. unfold NotifyForm.attachment_line.
    destruct file as [f|]; [|reflexivity].
    rewrite failure_lit, failure_put by apply file_name_converts. reflexivity.
  - apply converts_or_else; [apply fields_ok|apply integer_converts].
Qed.

Lemma NotifyOrigin_html_evaluates :
  text_or_missing (prop body (broken_field body)) = true ->
  exists t, NotifyOrigin.html w body file = Ok t.
Proof.
  intros T. unfold NotifyOrigin.html. eexists. apply settle_ok. split; [|reflexivity].
  rewrite !failure_app, detailed_head_evaluates, detailed_fields_evaluates,
    detailed_foot_evaluates; auto.
  - rewrite failure_lit. unfold NotifyOrigin.attachment_line.
    destruct file as [f|]; [|reflexivity].
    rewrite failure_lit, failure_put; [reflexivity|].
    apply converts_or_else; [apply file_name_converts|reflexivity].
  - apply converts_or_else; [apply fields_ok|apply integer_converts].
Qed.

Lemma Upload_html_evaluates :
  text_or_missing (prop body "brief") = true ->
  exists t, Upload.html body file = Ok t.
Proof.
  intros T. unfold Upload.html. eexists. apply settle_ok. split; [|reflexivity].
  rewrite !failure_app, short_head_evaluates, Upload_kind_fields_evaluates,
    short_foot_evaluates; auto.
Qed.

Lemma Mixed_html_evaluates :
  text_or_missing (prop body (broken_field body)) = true ->
  exists t, Mixed.html body file = Ok t.
Proof.
  intros T. unfold Mixed.html. eexists. apply settle_ok. split; [|reflexivity].
  rewrite !failure_app, short_head_evaluates, Mixed_kind_fields_evaluates,
    short_foot_evaluates; auto.
Qed.

End BodiesThatRender.

(** ** Classification by kind *)






(** ** Every way a request can end *)

Lemma sent_app (a b : trace) : sent (a ++ b) = sent a ++ sent b.
Proof.
  induction a as [|e a IH]; [reflexivity|].
  destruct e; simpl; rewrite IH; reflexivity.
Qed.


Ltac crunch :=
  repeat (cbv beta iota zeta;
          match goal with
          | |- context [match ?x with _ => _ end] =>
              lazymatch x with
              | context [match _ with _ => _ end] => fail
              | _ => destruct x eqn:?
              end
          end).

Ltac open_monad :=
  unfold console, sendMail, readFile; unfold bind, emit, lift, try_catch, ret.

(** The last event of a trace that is written out. *)
Ltac last_event :=
  simpl;
  first [ exact (eq_refl : _ = [] ++ [_])
        | exact (eq_refl : _ = [_] ++ [_])
        | exact (eq_refl : _ = [_; _] ++ [_])
        | exact (eq_refl : _ = [_; _; _] ++ [_])
        | exact (eq_refl : _ = [_; _; _; _] ++ [_])
        | exact (eq_refl : _ = [_; _; _; _; _] ++ [_])
        | exact (eq_refl : _ = [_; _; _; _; _; _] ++ [_]) ].

Ltac failed :=
  split;
  [ eexists _, _; last_event
  | first [ left; eexists; split; [reflexivity|];
            hnf; first [reflexivity|assumption]
          | right; eexists; split; [eassumption || reflexivity|reflexivity] ] ].

Ltac known tac :=
  first [ reflexivity | eassumption | tac ].

(** [tac] proves what is known of the message. *)
Ltac close_case tac :=
  eexists _, _; split; [reflexivity|];
  first
    [ left; split; [reflexivity|];
      first [ left; reflexivity
            | right; left; eexists; reflexivity
            | right; right; left; eexists; reflexivity
            | right; right; right; eexists; failed ]
    | right; left; eexists _, _;
      split; [reflexivity|split; [eassumption|split; [reflexivity|tac]]]
    | right; right; eexists _, _;
      split; [reflexivity|split; [eassumption|split; [failed|tac]]] ].

Lemma Captcha_outcomes (w : world) (req : request) :
  outcomes fixed_text
    (fun m => Captcha.compose (or_else (req_body req) (VObj [])) = Ok (inl m))
    w (Captcha.handler w req).
Proof.
  unfold outcomes, Captcha.handler, Captcha.captcha, Captcha.verify,
    Captcha.deliver, on_post. open_monad.
  crunch;
    try match goal with
        | H : Captcha.compose _ = Ok (inr _) |- _ =>
            destruct (compose_early _ _ H) as [? ->]
        end;
    close_case ltac:(reflexivity).
Qed.

Lemma Notify_outcomes (w : world) (req : request) :
  outcomes own_message
    (fun m => exists t,
         settle (Notify.html (or_else (req_body req) (VObj []))) = Ok t
         /\ m = mkMail (plain_subject (or_else (req_body req) (VObj [])))
                       (render t) [])
    w (Notify.handler w req).
Proof.
  unfold outcomes, Notify.handler, on_post. open_monad.
  crunch; close_case ltac:(eexists; split; [known idtac|reflexivity]).
Qed.

Lemma Styled_outcomes (w : world) (req : request) :
  outcomes own_message
    (fun m => exists t,
         Styled.html w (or_else (req_body req) (VObj [])) = Ok t
         /\ m = mkMail (plain_subject (or_else (req_body req) (VObj [])))
                       (render t) [])
    w (Styled.handler w req).
Proof.
  unfold outcomes, Styled.handler, on_post. open_monad.
  crunch; close_case ltac:(eexists; split; [known idtac|reflexivity]).
Qed.

Ltac form_mail :=
  eexists _, _, _; split; [known idtac|];
  split;
  [ known ltac:(match goal with
                | H : first_of_array _ = _ |- _ => rewrite H; eassumption
                | H : first_or_self _ = _ |- _ => rewrite H; eassumption
                end)
  | split; [reflexivity|simpl; lia] ].

Lemma NotifyForm_outcomes (w : world) (req : request) :
  outcomes own_message
    (fun m => exists f t atts,
         parsed req = Ok f
         /\ NotifyForm.html w (flatten (fields f))
              (first_of_array (files_attachment f)) = Ok t
         /\ m = mkMail (plain_subject (flatten (fields f))) (render t) atts
         /\ (length atts <= 1)%nat)
    w (NotifyForm.handler w req).
Proof.
  unfold outcomes, NotifyForm.handler, NotifyForm.attach, on_post. open_monad.
  crunch; close_case ltac:(form_mail).
Qed.

Lemma NotifyOrigin_outcomes (w : world) (req : request) :
  outcomes message_with_default
    (fun m => exists f t atts,
         parsed req = Ok f
         /\ NotifyOrigin.html w (flatten (fields f))
              (first_of_array (files_attachment f)) = Ok t
         /\ m = mkMail (plain_subject (flatten (fields f))) (render t) atts
         /\ (length atts <= 1)%nat)
    w (NotifyOrigin.handler w req).
Proof.
  unfold outcomes, NotifyOrigin.handler, NotifyOrigin.attach, on_post. open_monad.
  crunch; close_case ltac:(form_mail).
Qed.

Lemma Upload_outcomes (w : world) (req : request) :
  outcomes own_message
    (fun m => exists f t atts,
         parsed req = Ok f
         /\ Upload.html (flatten (fields f))
              (first_or_self (files_attachment f)) = Ok t
         /\ m = mkMail (plain_subject (flatten (fields f))) (render t) atts
         /\ (length atts <= 1)%nat)
    w (Upload.handler w req).
Proof.
  unfold outcomes, Upload.handler, Upload.attach, on_post. open_monad.
  crunch; close_case ltac:(form_mail).
Qed.

Ltac crunch_pairs :=
  repeat (cbv beta iota zeta; cbn [fst snd];
          match goal with
          | |- context [match ?x with _ => _ end] =>
              lazymatch x with
              | context [match _ with _ => _ end] => fail
              | _ => destruct x eqn:?
              end
          end).

Ltac mixed_mail :=
  eexists _, _, _, _, _; split; [reflexivity|];
  split; [eassumption|];
  split; [reflexivity|];
  split; [simpl; lia|first [reflexivity|discriminate]].

Lemma Mixed_outcomes (w : world) (req : request) :
  outcomes message_with_default
    (fun m => exists body file tn t atts,
         Mixed.normalize w req = (Ok (body, file), tn)
         /\ Mixed.html body file = Ok t
         /\ m = mkMail (plain_subject body) (render t) atts
         /\ (length atts <= 1)%nat
         /\ (file = None -> atts = []))
    w (Mixed.handler w req).
Proof.
  unfold outcomes, Mixed.handler, Mixed.normalize, Mixed.parseJsonBody,
    Mixed.attach, on_post. open_monad.
  crunch_pairs; close_case ltac:(mixed_mail).
Qed.

Lemma failed_on_weaken (T U : thrown -> value -> Prop) (e : thrown)
      (r : result response) (tr : trace) :
  (forall e text, T e text -> U e text) -> failed_on T e r tr -> failed_on U e r tr.
Proof.
  intros TU (L & [(text & R & H)|H]); (split; [exact L|]).
  - left. exists text. auto.
  - right. exact H.
Qed.

Lemma outcomes_weaken (T U : thrown -> value -> Prop) (P Q : mail -> Prop)
      (w : world) (m : M response) :
  (forall e text, T e text -> U e text) ->
  (forall x, P x -> Q x) -> outcomes T P w m -> outcomes U Q w m.
Proof.
  intros TU PQ (r & tr & E & [[S H]|[H|H]]); exists r, tr; (split; [exact E|]).
  - left. split; [exact S|].
    destruct H as [H|[H|[H|[e H]]]]; auto.
    right. right. right. exists e. exact (failed_on_weaken T U _ _ _ TU H).
  - right. left. destruct H as (m1 & id & H1 & H2 & H3 & H4).
    exists m1, id. auto.
  - right. right. destruct H as (m1 & e & H1 & H2 & H3 & H4).
    exists m1, e. split; [exact H1|]. split; [exact H2|].
    split; [exact (failed_on_weaken T U _ _ _ TU H3)|auto].
Qed.

Lemma accountable_weaken (P Q : mail -> Prop) (w : world) (m : M response) :
  (forall x, P x -> Q x) -> accountable P w m -> accountable Q w m.
Proof. intros PQ. apply outcomes_weaken; auto. Qed.

Lemma fixed_tells (e : thrown) (text : value) : fixed_text e text -> tells e text.
Proof. unfold tells. auto. Qed.

Lemma own_tells (e : thrown) (text : value) : own_message e text -> tells e text.
Proof. unfold tells. auto. Qed.

Lemma default_tells (e : thrown) (text : value) :
  message_with_default e text -> tells e text.
Proof. unfold tells. auto. Qed.

Lemma no_attachment_one (m : mail) : no_attachment m -> one_attachment m.
Proof. unfold no_attachment, one_attachment. intros ->. simpl. lia. Qed.

(** What the escaping handler composes: subject, body, no attachment. *)
Lemma compose_mail (body : value) (m : mail) :
  Captcha.compose body = Ok (inl m) ->
  (is_str (prop body "kind") "contact" = true
   /\ truthy (prop body "name") = true /\ truthy (prop body "email") = true
   /\ truthy (prop body "message") = true
   /\ text_of (Captcha.contact_subject (prop body "name")) = Ok (subject m)
   /\ text_of (Captcha.contact_html body) = Ok (html m)
   /\ attachments m = [])
  \/ (is_str (prop body "kind") "contact" = false
      /\ is_str (prop body "kind") "quote" = true
      /\ text_of (Captcha.quote_subject (prop body "category")
                    (prop body "service") (prop body "fullName"))
         = Ok (subject m)
      /\ text_of (Captcha.quote_html body) = Ok (html m)
      /\ attachments m = []).
Proof.
  unfold Captcha.compose.
  destruct (is_str (prop body "kind") "contact").
  - destruct (truthy (prop body "name")); simpl; [|discriminate].
    destruct (truthy (prop body "email")); simpl; [|discriminate].
    destruct (truthy (prop body "message")); simpl; [|discriminate].
    destruct (text_of (Captcha.contact_subject _)); simpl; [|discriminate].
    destruct (text_of (Captcha.contact_html _)); simpl; [|discriminate].
    intros H. injection H as <-. left. repeat split; reflexivity.
  - destruct (is_str (prop body "kind") "quote"); [|discriminate].
    destruct (text_of (Captcha.quote_subject _ _ _)); simpl; [|discriminate].
    destruct (text_of (Captcha.quote_html _)); simpl; [|discriminate].
    intros H. injection H as <-. right. repeat split; reflexivity.
Qed.

Lemma compose_no_attachment (body : value) (m : mail) :
  Captcha.compose body = Ok (inl m) -> no_attachment m.
Proof.
  intros H. destruct (compose_mail body m H) as [H1|H1];
    unfold no_attachment; intuition.
Qed.

Lemma Captcha_accountable (w : world) (req : request) :
  accountable no_attachment w (Captcha.handler w req).
Proof.
  eapply outcomes_weaken; [exact fixed_tells| |apply Captcha_outcomes].
  intros m. apply compose_no_attachment.
Qed.

Lemma Notify_accountable (w : world) (req : request) :
  accountable no_attachment w (Notify.handler w req).
Proof.
  eapply outcomes_weaken; [exact own_tells| |apply Notify_outcomes].
  intros m (t & _ & ->). reflexivity.
Qed.

Lemma Styled_accountable (w : world) (req : request) :
  accountable no_attachment w (Styled.handler w req).
Proof.
  eapply outcomes_weaken; [exact own_tells| |apply Styled_outcomes].
  intros m (t & _ & ->). reflexivity.
Qed.

Lemma NotifyForm_accountable (w : world) (req : request) :
  accountable one_attachment w (NotifyForm.handler w req).
Proof.
  eapply outcomes_weaken; [exact own_tells| |apply NotifyForm_outcomes].
  intros m (f & t & atts & _ & _ & -> & L). exact L.
Qed.

Lemma NotifyOrigin_accountable (w : world) (req : request) :
  accountable one_attachment w (NotifyOrigin.handler w req).
Proof.
  eapply outcomes_weaken; [exact default_tells| |apply NotifyOrigin_outcomes].
  intros m (f & t & atts & _ & _ & -> & L). exact L.
Qed.

Lemma Upload_accountable (w : world) (req : request) :
  accountable one_attachment w (Upload.handler w req).
Proof.
  eapply outcomes_weaken; [exact own_tells| |apply Upload_outcomes].
  intros m (f & t & atts & _ & _ & -> & L). exact L.
Qed.

Lemma Mixed_accountable (w : world) (req : request) :
  accountable one_attachment w (Mixed.handler w req).
Proof.
  eapply outcomes_weaken; [exact default_tells| |apply Mixed_outcomes].
  intros m (body & file & tn & t & atts & _ & _ & -> & L & _). exact L.
Qed.

Lemma all_accountable (w : world) (req : request) :
  Forall (fun h => accountable one_attachment w (h w req)) handlers.
Proof.
  unfold handlers. repeat apply Forall_cons; try apply Forall_nil.
  - apply (accountable_weaken no_attachment); [exact no_attachment_one|].
    apply Captcha_accountable.
  - apply (accountable_weaken no_attachment); [exact no_attachment_one|].
    apply Notify_accountable.
  - apply (accountable_weaken no_attachment); [exact no_attachment_one|].
    apply Styled_accountable.
  - apply NotifyForm_accountable.
  - apply NotifyOrigin_accountable.
  - apply Upload_accountable.
  - apply Mixed_accountable.
Qed.

Lemma json_accountable (w : world) (req : request) :
  Forall (fun h => accountable no_attachment w (h w req)) json_handlers.
Proof.
  unfold json_handlers. repeat apply Forall_cons; try apply Forall_nil.
  - apply Captcha_accountable.
  - apply Notify_accountable.
  - apply Styled_accountable.
Qed.

Lemma accountable_of (w : world) (req : request) (h : world -> request -> M response) :
  In h handlers -> accountable one_attachment w (h w req).
Proof.
  intros H. exact (proj1 (Forall_forall _ _) (all_accountable w req) h H).
Qed.

(** The mails a handler sent, from what is known of its one message. *)
Lemma outcomes_sent (T : thrown -> value -> Prop) (P : mail -> Prop)
      (w : world) (m : M response) (x : mail) :
  outcomes T P w m -> In x (sent (snd m)) -> P x.
Proof.
  intros (r & tr & -> & C) I. simpl in I.
  destruct C as [[N _]|[(m1 & id & S & _ & _ & Px)|(m1 & e & S & _ & _ & Px)]];
    rewrite ?N, ?S in I; simpl in I; try contradiction;
    destruct I as [<-|[]]; exact Px.
Qed.

(** ** What the handlers without a kind guard send *)

Section SentByKind.

Variable w : world.
Variable req : request.
Variable m : mail.







End SentByKind.

(** ** An unknown kind in the handlers without a kind guard *)



Section UnknownKind.

Variable w : world.
Variable req : request.
Hypothesis post : method req = "POST".




Variable f : form.
Hypothesis form_parsed : parsed req = Ok f.
Hypothesis no_upload : files_attachment f = NoFile.
Hypothesis form_fields :
  forallb (fun kv => form_value (snd kv)) (fields f) = true.
Hypothesis has_kind : truthy (prop (flatten (fields f)) "kind") = true.
Hypothesis not_quote : is_str (prop (flatten (fields f)) "kind") "quote" = false.
Hypothesis has_email : truthy (prop (flatten (fields f)) "email") = true.






End UnknownKind.

(** ** An unknown kind in the escaping handler *)


(** The escaping handler once its CAPTCHA block lets the request through. *)
Lemma Captcha_passes (w : world) (req : request) (tc : trace) :
  method req = "POST" ->
  truthy (prop (req_body req) "kind") = true ->
  Captcha.captcha w (req_body req) = (Ok None, tc) ->
  Captcha.handler w req
  = (fst (Captcha.deliver w (req_body req)),
     tc ++ snd (Captcha.deliver w (req_body req))).
Proof.
  intros Hm Hk Hc. unfold Captcha.handler. rewrite on_post_POST by exact Hm.
  cbv zeta. rewrite (truthy_prop_or _ _ Hk), Hk. simpl negb. cbv iota.
  rewrite Hc, bind_ok. reflexivity.
Qed.

(** ** Validation *)

(** C2 — a request body without the [kind] field is answered with status 400
    and an invalid-payload error, and the mail transport is never invoked,
    whatever other fields the body carries.  The JSON handlers read the
    field from [req.body], the multipart handlers from the parsed form, and
    the mixed handler from the body its normalizer produced. *)
Theorem missing_kind_rejected (w : world) (req : request) :
  method req = "POST" ->
  (prop (req_body req) "kind" = VUndef ->
     rejected_with (obj_error "Invalid payload: missing kind") (Captcha.handler w req)
     /\ rejected_with (obj_failure (VStr "Invalid request body")) (Notify.handler w req)
     /\ rejected_with (obj_failure (VStr "Invalid request body")) (Styled.handler w req))
  /\ (forall f : form,
        parsed req = Ok f -> has_key "kind" (fields f) = false ->
        rejected_with (obj_failure (VStr "Invalid request body")) (NotifyForm.handler w req)
        /\ rejected_with (obj_failure (VStr "Invalid request body")) (NotifyOrigin.handler w req)
        /\ rejected_with (obj_failure (VStr "Missing required fields")) (Upload.handler w req))
  /\ (forall (body : value) (file : option File) (tr : trace),
        Mixed.normalize w req = (Ok (body, file), tr) ->
        nullish body = false -> prop body "kind" = VUndef ->
        rejected_with (obj_failure (VStr "Missing required fields")) (Mixed.handler w req)).
Proof.
  intros Hm. split; [|split].
  - intros Hk.
    assert (F : truthy (prop (req_body req) "kind") = false) by (rewrite Hk; reflexivity).
    repeat split; apply rejected_with_nil.
    + apply Captcha_requires_kind; assumption.
    + apply Notify_requires; auto.
    + apply Styled_requires; auto.
  - intros f Hp Hk.
    assert (F : truthy (prop (flatten (fields f)) "kind") = false)
      by (rewrite (flatten_absent _ _ Hk); reflexivity).
    repeat split; apply rejected_with_nil.
    + apply NotifyForm_requires with (f := f); auto.
    + apply NotifyOrigin_requires with (f := f); auto.
    + apply Upload_requires with (f := f); auto.
  - intros body file tr Hn Hb Hk. exists tr. split.
    + apply Mixed_requires with (body := body) (file := file); auto.
      left. rewrite Hk. reflexivity.
    + exact (normalize_no_send _ _ _ _ Hn).
Qed.

Lemma missing_kind_rejected_witness :
  rejected_with (obj_error "Invalid payload: missing kind")
    (Captcha.handler Sample.relay_up
       (Sample.post_json (VObj (Sample.str_fields
          [("name", "Jane Doe"); ("email", "jane@x.com"); ("message", "Hi")]))))
  /\ rejected_with (obj_failure (VStr "Invalid request body"))
       (NotifyForm.handler Sample.relay_up
          (Sample.post_form (Sample.form_fields
             [("name", ["Jane Doe"]); ("email", ["jane@x.com"])]) NoFile))
  /\ rejected_with (obj_failure (VStr "Missing required fields"))
       (Mixed.handler Sample.relay_up
          (Sample.post_raw (Json.record_text [("email", "jane@x.com")]))).
Proof.
  split; [|split].
  - destruct (missing_kind_rejected Sample.relay_up
                (Sample.post_json (VObj (Sample.str_fields
                   [("name", "Jane Doe"); ("email", "jane@x.com"); ("message", "Hi")])))
                eq_refl) as (HJ & _ & _).
    apply (proj1 (HJ eq_refl)).
  - destruct (missing_kind_rejected Sample.relay_up
                (Sample.post_form (Sample.form_fields
                   [("name", ["Jane Doe"]); ("email", ["jane@x.com"])]) NoFile)
                eq_refl) as (_ & HF & _).
    apply (proj1 (HF _ eq_refl eq_refl)).
  - destruct (missing_kind_rejected Sample.relay_up
                (Sample.post_raw (Json.record_text [("email", "jane@x.com")]))
                eq_refl) as (_ & _ & HM).
    eapply HM; reflexivity.
Defined.

(** C9 — with a reCAPTCHA secret configured, a request whose body carries no
    [recaptchaToken] is answered with status 400; the trace is empty, so
    neither the verification service nor the mail transport was called. *)
Theorem captcha_token_required (w : world) (req : request) (secret : string) :
  method req = "POST" ->
  env w "RECAPTCHA_SECRET" = Some secret ->
  secret <> "" ->
  prop (req_body req) "recaptchaToken" = VUndef ->
  exists payload : value,
    Captcha.handler w req = (Ok (Json 400 payload), [])
    /\ (truthy (prop (req_body req) "kind") = true ->
        payload = obj_error "Missing reCAPTCHA token").
Proof.
  intros Hm He Hs Ht.
  destruct (truthy (prop (req_body req) "kind")) eqn:Hk.
  - exists (obj_error "Missing reCAPTCHA token"). split; [|reflexivity].
    unfold Captcha.handler. rewrite on_post_POST by exact Hm.
    cbv zeta. rewrite prop_or_empty, Hk. simpl negb. cbv iota.
    unfold Captcha.captcha, Captcha.verify. rewrite He.
    apply String.eqb_neq in Hs. rewrite Hs. simpl negb. cbv iota.
    rewrite prop_or_empty, Ht. reflexivity.
  - exists (obj_error "Invalid payload: missing kind").
    split; [|discriminate].
    apply Captcha_requires_kind; assumption.
Qed.

Lemma captcha_token_required_witness :
  exists payload : value,
    Captcha.handler Sample.guarded (Sample.post_json Sample.jane)
    = (Ok (Json 400 payload), [])
    /\ (truthy (prop Sample.jane "kind") = true ->
        payload = obj_error "Missing reCAPTCHA token").
Proof.
  apply (captcha_token_required Sample.guarded (Sample.post_json Sample.jane)
           "s3cret").
  - reflexivity.
  - reflexivity.
  - apply String.eqb_neq. reflexivity.
  - reflexivity.
Defined.

(** C10 — the required-field check cannot tell an empty string from an
    absent field: whether [kind], [email] or (where it is required) [name]
    is the empty string or is missing, the handler gives the same 400
    response and never invokes the mail transport.  [v] stands for either
    reading of the field. *)
Theorem empty_field_rejected_as_missing (w : world) (req : request) (v : value) :
  method req = "POST" ->
  v = VStr "" \/ v = VUndef ->
  (forall k : string,
      In k ["kind"; "name"; "email"] -> prop (req_body req) k = v ->
      rejected_with (obj_failure (VStr "Invalid request body")) (Notify.handler w req)
      /\ rejected_with (obj_failure (VStr "Invalid request body")) (Styled.handler w req))
  /\ (forall (f : form) (k : string),
        parsed req = Ok f -> prop (flatten (fields f)) k = v ->
        (In k ["kind"; "name"; "email"] ->
         rejected_with (obj_failure (VStr "Invalid request body"))
           (NotifyForm.handler w req)
         /\ rejected_with (obj_failure (VStr "Invalid request body"))
              (NotifyOrigin.handler w req))
        /\ (In k ["kind"; "email"] ->
            rejected_with (obj_failure (VStr "Missing required fields"))
              (Upload.handler w req)))
  /\ (forall (body : value) (file : option File) (tr : trace) (k : string),
        Mixed.normalize w req = (Ok (body, file), tr) -> nullish body = false ->
        In k ["kind"; "email"] -> prop body k = v ->
        rejected_with (obj_failure (VStr "Missing required fields"))
          (Mixed.handler w req))
  /\ (prop (req_body req) "kind" = v ->
      rejected_with (obj_error "Invalid payload: missing kind") (Captcha.handler w req))
  /\ (forall k : string,
        In k ["name"; "email"; "message"] ->
        prop (req_body req) "kind" = VStr "contact" -> prop (req_body req) k = v ->
        rejected (Captcha.handler w req)).
Proof.
  intros Hm Hv.
  assert (F : truthy v = false) by (destruct Hv as [->| ->]; reflexivity).
  clear Hv. split; [|split; [|split; [|split]]].
  - intros k Hk E. rewrite <- E in F. simpl in Hk.
    split; apply rejected_with_nil;
      [apply Notify_requires|apply Styled_requires]; trivial;
      intuition (subst; auto).
  - intros f k Hp E. rewrite <- E in F. split; intros Hk; simpl in Hk.
    + split; apply rejected_with_nil;
        [apply NotifyForm_requires with (f := f)
        |apply NotifyOrigin_requires with (f := f)]; trivial;
        intuition (subst; auto).
    + apply rejected_with_nil. apply Upload_requires with (f := f); trivial.
      intuition (subst; auto).
  - intros body file tr k Hn Hb Hk E. exists tr. split.
    + apply Mixed_requires with (body := body) (file := file); trivial.
      rewrite <- E in F. simpl in Hk. intuition (subst; auto).
    + exact (normalize_no_send _ _ _ _ Hn).
  - intros E. apply rejected_with_nil. apply Captcha_requires_kind; trivial.
    rewrite E. exact F.
  - intros k Hk Hc E.
    apply Captcha_rejects with (payload := obj_error "Missing required fields");
      trivial.
    + rewrite Hc. reflexivity.
    + unfold Captcha.compose. rewrite !prop_or_empty, Hc. simpl is_str. cbv iota.
      rewrite <- E in F. simpl in Hk.
      destruct Hk as [<-|[<-|[<-|[]]]]; rewrite F; simpl;
        rewrite ?orb_true_r; reflexivity.
Qed.

Lemma empty_field_rejected_as_missing_witness :
  rejected_with (obj_failure (VStr "Invalid request body"))
    (Notify.handler Sample.relay_up
       (Sample.post_json (VObj (Sample.str_fields
          [("kind", "contact"); ("name", "Jane Doe"); ("email", "")]))))
  /\ rejected_with (obj_failure (VStr "Missing required fields"))
       (Upload.handler Sample.relay_up
          (Sample.post_form (Sample.form_fields
             [("kind", [""]); ("email", ["jane@x.com"])]) NoFile))
  /\ rejected_with (obj_failure (VStr "Missing required fields"))
       (Mixed.handler Sample.relay_up
          (Sample.post_raw (Json.record_text [("kind", "contact"); ("email", "")])))
  /\ rejected
       (Captcha.handler Sample.guarded
          (Sample.post_json (VObj (Sample.str_fields
             [("kind", "contact"); ("name", ""); ("email", "jane@x.com");
              ("message", "Hi"); ("recaptchaToken", "tok")])))).
Proof.
  split; [|split; [|split]].
  - destruct (empty_field_rejected_as_missing Sample.relay_up
                (Sample.post_json (VObj (Sample.str_fields
                   [("kind", "contact"); ("name", "Jane Doe"); ("email", "")])))
                (VStr "") eq_refl (or_introl eq_refl)) as (H & _).
    apply (proj1 (H "email" (or_intror (or_intror (or_introl eq_refl))) eq_refl)).
  - destruct (empty_field_rejected_as_missing Sample.relay_up
                (Sample.post_form (Sample.form_fields
                   [("kind", [""]); ("email", ["jane@x.com"])]) NoFile)
                (VStr "") eq_refl (or_introl eq_refl)) as (_ & H & _).
    apply (proj2 (H _ "kind" eq_refl eq_refl) (or_introl eq_refl)).
  - destruct (empty_field_rejected_as_missing Sample.relay_up
                (Sample.post_raw
                   (Json.record_text [("kind", "contact"); ("email", "")]))
                (VStr "") eq_refl (or_introl eq_refl)) as (_ & _ & H & _).
    eapply (H _ _ _ "email");
      [reflexivity | reflexivity | right; left; reflexivity | reflexivity].
  - destruct (empty_field_rejected_as_missing Sample.guarded
                (Sample.post_json (VObj (Sample.str_fields
                   [("kind", "contact"); ("name", ""); ("email", "jane@x.com");
                    ("message", "Hi"); ("recaptchaToken", "tok")])))
                (VStr "") eq_refl (or_introl eq_refl)) as (_ & _ & _ & _ & H).
    apply (H "name" (or_introl eq_refl) eq_refl eq_refl).
Defined.

(** ** Body normalization *)

(** C6 — on the JSON paths of the mixed handler (content type
    [application/json], or anything that is not multipart), a body that
    [JSON.parse] rejects does not raise: [parseJsonBody] yields the empty
    object, and the validator answers it like any body without fields, with
    400 "Missing required fields" and no transport call. *)
Theorem malformed_json_degrades (w : world) (req : request) (e : thrown) :
  method req = "POST" ->
  startsWith (Mixed.getContentType req) "multipart/form-data" = false ->
  JSON_parse w "{}" = Ok (VObj []) ->
  JSON_parse w (raw req) = Throw e ->
  (exists tr, Mixed.parseJsonBody w req = (Ok (VObj []), tr))
  /\ (exists tr, Mixed.normalize w req = (Ok (VObj [], None), tr))
  /\ rejected_with (obj_failure (VStr "Missing required fields"))
       (Mixed.handler w req).
Proof.
  intros Hm Hc Hobj He.
  assert (P : exists tr, Mixed.parseJsonBody w req = (Ok (VObj []), tr)).
  { unfold Mixed.parseJsonBody. cbv zeta.
    destruct (raw req =? "").
    - rewrite Hobj. eexists. reflexivity.
    - rewrite He. eexists. reflexivity. }
  destruct P as [tp Hp].
  assert (N : exists tr, Mixed.normalize w req = (Ok (VObj [], None), tr)).
  { unfold Mixed.normalize. cbv zeta. rewrite Hc.
    destruct (startsWith _ "application/json"); rewrite Hp;
      eexists; reflexivity. }
  destruct N as [tn Hn].
  split; [eauto|]. split; [eauto|].
  exists tn. split.
  - apply Mixed_requires with (body := VObj []) (file := None); auto.
  - exact (normalize_no_send _ _ _ _ Hn).
Qed.

Lemma malformed_json_degrades_witness :
  (exists tr, Mixed.parseJsonBody Sample.relay_up (Sample.post_raw "{kind:")
              = (Ok (VObj []), tr))
  /\ (exists tr, Mixed.normalize Sample.relay_up (Sample.post_raw "{kind:")
                 = (Ok (VObj [], None), tr))
  /\ rejected_with (obj_failure (VStr "Missing required fields"))
       (Mixed.handler Sample.relay_up (Sample.post_raw "{kind:")).
Proof.
  apply (malformed_json_degrades Sample.relay_up (Sample.post_raw "{kind:")
           Json.SyntaxError);
    reflexivity.
Defined.

(** ** Rendering *)



(** C1 — every user-supplied value is to be HTML-escaped before it is
    embedded in the body.  The escaping handler does so (see
    [Captcha_contact_escaped] and [Captcha_quote_escaped]); the first notify
    handler does not: a name made of markup reaches the transport as it was
    typed, where the escaping handler sends it as entities. *)
Theorem Notify_embeds_markup_unescaped :
  (exists m : mail,
     sent (snd (Notify.handler Sample.relay_up (Sample.post_json Sample.mallory)))
     = [m]
     /\ html m = render (Notify.html Sample.mallory)
     /\ In (Hole "<script>alert(1)</script>") (Notify.html Sample.mallory)
     /\ escaped "<script>alert(1)</script>" = false
     /\ contains "<p><strong>Name:</strong> <script>alert(1)</script></p>" (html m)
        = true)
  /\ (exists m : mail,
        sent (snd (Captcha.handler Sample.relay_up (Sample.post_json Sample.mallory)))
        = [m]
        /\ contains "<script>" (html m) = false
        /\ contains "<p><b>Name:</b> &lt;script&gt;alert(1)&lt;/script&gt;</p>" (html m)
           = true).
Proof.
  split.
  - eexists. split; [vm_compute; reflexivity|].
    split; [vm_compute; reflexivity|].
    split; [simpl; tauto|].
    split; vm_compute; reflexivity.
  - eexists. split; [vm_compute; reflexivity|].
    split; vm_compute; reflexivity.
Qed.

(** C4 — the multipart normalizer is to keep [goals] as a list.  It takes
    element [0] of every array, [goals] included: of two goals only the first
    is left in the body, and only it is rendered, although the renderer
    would join a list with commas. *)
Theorem multipart_goals_collapse :
  prop (flatten Sample.two_goals) "goals" = VStr "SEO"
  /\ (exists m : mail,
        sent (snd (NotifyForm.handler Sample.relay_up
                     (Sample.post_form Sample.two_goals NoFile))) = [m]
        /\ contains "<p><strong>Goals:</strong> SEO</p>" (html m) = true
        /\ contains "Branding" (html m) = false)
  /\ goals_text (VArr [VStr "SEO"; VStr "Branding"]) = "SEO, Branding".
Proof.
  split; [reflexivity|]. split; [|reflexivity].
  eexists. split; [vm_compute; reflexivity|].
  split; vm_compute; reflexivity.
Qed.

(** ** Classification *)




(** ** Subject line *)

(** C7, as stated, fails on the escaping handler: the category "R&D" appears
    in the subject as typed, and its escaped form does not. *)
Lemma quote_subject_not_escaped :
  exists m : mail,
    sent (snd (Captcha.handler Sample.relay_up (Sample.post_json Sample.research)))
    = [m]
    /\ subject m = "🧾 New Quote — R&D / Design — Acme Co"
    /\ esc (VStr "R&D") = "R&amp;D"
    /\ contains (esc (VStr "R&D")) (subject m) = false.
Proof.
  eexists. split; [vm_compute; reflexivity|].
  repeat split; vm_compute; reflexivity.
Qed.

(** C7, amended — for a quote, every message the escaping handler hands to
    the transport has as subject the fixed prefix followed by the category,
    the service and the sender name, each converted to text as [String]
    does and not HTML-escaped, so the subject contains all three.  Such a
    message is sent whenever the CAPTCHA block lets the quote through and
    every field of the body can be converted to text; if one of the three
    cannot, the handler logs the [TypeError], answers 500 and sends
    nothing.  The subject expression shared by the other handlers is the
    fixed text "New Quote Request". *)
Theorem quote_subject_line (w : world) (req : request) :
  method req = "POST" ->
  prop (req_body req) "kind" = VStr "quote" ->
  let body := req_body req in
  let category := toString (prop body "category") in
  let service := toString (prop body "service") in
  let fullName := toString (prop body "fullName") in
  let line := ("🧾 New Quote — " ++ category ++ " / " ++ service
                 ++ " — " ++ fullName)%string in
  (forall m : mail,
      In m (sent (snd (Captcha.handler w req))) ->
      subject m = line /\ html m = render (Captcha.quote_html body))
  /\ (forall tc : trace,
        Captcha.captcha w body = (Ok None, tc) ->
        fields_convert body = true ->
        exists (r : response) (tr : trace),
          Captcha.handler w req
          = (Ok r, tc ++ SendMail (mkMail line (render (Captcha.quote_html body)) [])
                      :: tr))
  /\ (forall tc : trace,
        Captcha.captcha w body = (Ok None, tc) ->
        converts (prop body "category") = false
        \/ converts (prop body "service") = false
        \/ converts (prop body "fullName") = false ->
        Captcha.handler w req
        = (Ok (Json 500 (obj_failure (VStr "Failed to send email"))),
           tc ++ [Console error [LV (VStr "Email send failed:"); LE no_primitive]]))
  /\ contains category line = true
  /\ contains service line = true
  /\ contains fullName line = true
  /\ plain_subject body = "New Quote Request".
Proof.
  intros Hm Hk body category service fullName line.
  assert (T : truthy (prop (req_body req) "kind") = true) by (rewrite Hk; reflexivity).
  assert (B : or_else (req_body req) (VObj []) = req_body req)
    by exact (truthy_prop_or _ _ T).
  split; [|split; [|split; [|split; [|split; [|split]]]]].
  - intros m I.
    pose proof (outcomes_sent _ _ _ _ _ (Captcha_outcomes w req) I) as C.
    cbv beta in C. rewrite B in C.
    destruct (compose_mail _ _ C) as [(Hc & _)|(_ & _ & Hs & Hh & _)].
    + rewrite Hk in Hc. discriminate.
    + rewrite quote_subject_text in Hs.
      destruct (converts _ && converts _ && converts _); [|discriminate].
      apply Ok_inj in Hs. apply text_of_inv in Hh.
      split; [symmetry; exact Hs|exact (proj2 Hh)].
  - intros tc Hc Hf.
    assert (C : forall k, converts (prop body k) = true)
      by (intros k; apply fields_convert_prop; exact Hf).
    rewrite (Captcha_passes w req tc Hm T Hc).
    rewrite (Captcha_delivers w (req_body req)
               (mkMail line (render (Captcha.quote_html body)) [])).
    + destruct (transport w _); eexists _, _; reflexivity.
    + unfold Captcha.compose. rewrite Hk. simpl is_str. cbv iota.
      rewrite quote_subject_text. fold body. rewrite !C. simpl.
      rewrite (text_of_ok _ (quote_html_evaluates body C)). reflexivity.
  - intros tc Hc Hn.
    rewrite (Captcha_passes w req tc Hm T Hc).
    rewrite (Captcha_compose_fails w (req_body req) no_primitive); [reflexivity|].
    unfold Captcha.compose. rewrite Hk. simpl is_str. cbv iota.
    rewrite quote_subject_text. fold body.
    destruct Hn as [Hn|[Hn|Hn]]; rewrite Hn; rewrite ?andb_false_r; reflexivity.
  - apply (contains_middle category "🧾 New Quote — ").
  - unfold line.
    rewrite <- (append_assoc "🧾 New Quote — " category).
    rewrite <- (append_assoc _ " / ").
    apply contains_middle.
  - unfold line.
    rewrite <- (append_assoc "🧾 New Quote — " category).
    rewrite <- (append_assoc _ " / ").
    rewrite <- (append_assoc _ service).
    rewrite <- (append_assoc _ " — ").
    apply contains_end.
  - unfold plain_subject. fold body in Hk. rewrite Hk. reflexivity.
Qed.

Lemma quote_subject_line_witness :
  (exists (r : response) (tr : trace),
     Captcha.handler Sample.relay_up (Sample.post_json Sample.acme)
     = (Ok r, [] ++ SendMail (mkMail "🧾 New Quote — Web / Design — Acme Co"
                                (render (Captcha.quote_html Sample.acme)) [])
                 :: tr))
  /\ contains "Web" "🧾 New Quote — Web / Design — Acme Co" = true
  /\ contains "Design" "🧾 New Quote — Web / Design — Acme Co" = true
  /\ contains "Acme Co" "🧾 New Quote — Web / Design — Acme Co" = true
  /\ plain_subject Sample.acme = "New Quote Request".
Proof.
  destruct (quote_subject_line Sample.relay_up (Sample.post_json Sample.acme)
              eq_refl eq_refl) as (_ & S & _ & C).
  split; [exact (S [] eq_refl eq_refl)|exact C].
Defined.

(** ** Dispatch *)

(** C8 — a transport failure is to be answered with an opaque message.  The
    escaping handler answers "Failed to send email" whatever the error; the
    first notify handler answers with the error's own message, which differs
    from failure to failure. *)
Theorem Notify_discloses_transport_error :
  Notify.handler Sample.relay_down (Sample.post_json Sample.jane)
  = (Ok (Json 500 (obj_failure
           (VStr "Invalid login: 535-5.7.8 Username and Password not accepted"))),
     [SendMail (mkMail "New Contact Message"
                       (render (Notify.html Sample.jane)) []);
      Console error [LV (VStr "❌ Email sending error:");
                     LE Sample.login_refused]])
  /\ fst (Notify.handler Sample.relay_unreachable (Sample.post_json Sample.jane))
     = Ok (Json 500 (obj_failure (VStr "connect ECONNREFUSED 10.0.0.5:465")))
  /\ fst (Captcha.handler Sample.relay_down (Sample.post_json Sample.jane))
     = Ok (Json 500 (obj_failure (VStr "Failed to send email"))).
Proof. repeat split; vm_compute; reflexivity. Qed.


(** * Further properties *)

(** ** Responses and deliveries *)

Lemma failed_on_throw (T : thrown -> value -> Prop) (e e' : thrown)
      (r : result response) (tr : trace) :
  failed_on T e r tr -> r = Throw e' ->
  (e = thrown_null \/ e = thrown_undefined)
  /\ read_message e = Throw e'
  /\ exists (label : string) (before : trace),
       tr = before ++ [Console error [LV (VStr label); LE e]].
Proof.
  intros (L & [(text & -> & _)|(e0 & R & ->)]) E; [discriminate|].
  injection E as <-. split; [exact (read_message_throw _ _ R)|].
  split; [exact R|exact L].
Qed.

(** The handlers that read no property of a caught error unguarded never
    throw. *)
Lemma guarded_never_throw (w : world) (req : request)
      (h : world -> request -> M response) (e : thrown) :
  In h [Captcha.handler; NotifyOrigin.handler; Mixed.handler] ->
  fst (h w req) <> Throw e.
Proof.
  intros H. simpl in H. destruct H as [<-|[<-|[<-|[]]]].
  - unfold Captcha.handler, Captcha.captcha, Captcha.verify, Captcha.deliver,
      on_post. open_monad. crunch; simpl; discriminate.
  - unfold NotifyOrigin.handler, NotifyOrigin.attach, on_post. open_monad.
    crunch; simpl; discriminate.
  - unfold Mixed.handler, Mixed.attach, on_post. open_monad.
    destruct (Mixed.normalize w req) as [[[body file]|en] tn].
    + crunch_pairs; simpl; discriminate.
    + crunch_pairs; simpl; discriminate.
Qed.

(** X1 — whatever the request holds and whatever the collaborators return
    or throw, each handler calls the mail transport at most once (there is
    no retry), and the three handlers whose [catch] block reads no property
    of the error unguarded always end with a response.  In the other four
    the only exception that can escape is the [TypeError] of reading
    [message] of a rejection that is [null] or [undefined], raised after
    that rejection was logged. *)
Theorem every_request_answered (w : world) (req : request)
        (h : world -> request -> M response) :
  In h handlers ->
  exists (r : result response) (tr : trace),
    h w req = (r, tr)
    /\ (length (sent tr) <= 1)%nat
    /\ (In h [Captcha.handler; NotifyOrigin.handler; Mixed.handler] ->
        exists answer : response, r = Ok answer)
    /\ (forall e' : thrown,
          r = Throw e' ->
          In h unguarded_handlers
          /\ exists (e : thrown) (label : string) (before : trace),
               (e = thrown_null \/ e = thrown_undefined)
               /\ read_message e = Throw e'
               /\ tr = before ++ [Console error [LV (VStr label); LE e]]).
Proof.
  intros H. destruct (accountable_of w req h H) as (r & tr & E & C).
  exists r, tr. split; [exact E|].
  assert (G : In h [Captcha.handler; NotifyOrigin.handler; Mixed.handler] ->
              exists answer : response, r = Ok answer).
  { intros I. destruct r as [a|e]; [eauto|].
    exfalso. apply (guarded_never_throw w req h e I). rewrite E. reflexivity. }
  split; [|split; [exact G|]].
  - destruct C as [[S _]|[(m & id & S & _)|(m & e & S & _)]];
      rewrite S; simpl; lia.
  - intros e' R.
    assert (U : In h unguarded_handlers).
    { unfold handlers in H. unfold unguarded_handlers. simpl in *.
      destruct H as [<-|[<-|[<-|[<-|[<-|[<-|[<-|[]]]]]]]]; auto;
        exfalso;
        (destruct G as [a Ha]; [auto|]; rewrite Ha in R; discriminate). }
    split; [exact U|].
    destruct C as [[_ C]|[(m & id & _ & _ & C & _)|(m & e & _ & _ & C & _)]].
    + destruct C as [C|[[p C]|[[p C]|[e C]]]];
        try (rewrite C in R; discriminate).
      destruct (failed_on_throw _ _ _ _ _ C R) as (N & M & label & before & T).
      exists e, label, before. auto.
    + rewrite C in R. discriminate.
    + destruct (failed_on_throw _ _ _ _ _ C R) as (N & M & label & before & T).
      exists e, label, before. auto.
Qed.

Lemma every_request_answered_witness :
  exists (r : result response) (tr : trace),
    Notify.handler Scenario.silent_failure (Sample.post_json Sample.jane) = (r, tr)
    /\ (length (sent tr) <= 1)%nat
    /\ (In Notify.handler [Captcha.handler; NotifyOrigin.handler; Mixed.handler] ->
        exists answer : response, r = Ok answer)
    /\ (forall e' : thrown,
          r = Throw e' ->
          In Notify.handler unguarded_handlers
          /\ exists (e : thrown) (label : string) (before : trace),
               (e = thrown_null \/ e = thrown_undefined)
               /\ read_message e = Throw e'
               /\ tr = before ++ [Console error [LV (VStr label); LE e]]).
Proof.
  apply (every_request_answered Scenario.silent_failure
           (Sample.post_json Sample.jane) Notify.handler).
  simpl. tauto.
Defined.

(** X2 — a handler that answers 400 or 405, or ends a preflight, has not
    called the mail transport. *)
Theorem client_error_sends_nothing (w : world) (req : request)
        (h : world -> request -> M response) (r : response) (tr : trace) :
  In h handlers ->
  h w req = (Ok r, tr) ->
  status r = 400%Z \/ status r = 405%Z \/ r = End 200 ->
  sent tr = [].
Proof.
  intros H E S. destruct (accountable_of w req h H) as (r' & tr' & E' & C).
  rewrite E in E'. injection E' as <- <-.
  destruct C as [[N _]|[(m & id & _ & _ & R & _)|(m & e & _ & _ & (_ & R) & _)]].
  - exact N.
  - injection R as ->. simpl in S. destruct S as [S|[S|S]]; discriminate.
  - destruct R as [(text & R & _)|(e' & _ & R)]; [|discriminate].
    injection R as ->. simpl in S. destruct S as [S|[S|S]]; discriminate.
Qed.

Lemma client_error_sends_nothing_witness :
  sent [] = [].
Proof.
  apply (client_error_sends_nothing Sample.relay_up
           (Sample.post_json Sample.newsletter) Captcha.handler
           (Json 400 (obj_error "Unknown kind")) []).
  - simpl. tauto.
  - reflexivity.
  - left. reflexivity.
Defined.

(** X3 — a handler answers 200 with a JSON payload exactly when the
    transport accepted the one message it was handed, and the payload echoes
    the transport's message identifier. *)
Theorem success_is_delivery (w : world) (req : request)
        (h : world -> request -> M response) (r : response) (tr : trace) :
  In h handlers ->
  h w req = (Ok r, tr) ->
  ((exists p, r = Json 200 p)
   <-> exists (m : mail) (id : value), sent tr = [m] /\ transport w m = Ok id)
  /\ (forall (m : mail) (id : value),
        sent tr = [m] -> transport w m = Ok id ->
        r = Json 200 (obj_success id)).
Proof.
  intros H E. destruct (accountable_of w req h H) as (r' & tr' & E' & C).
  rewrite E in E'. injection E' as <- <-.
  destruct C as [[N R]|[(m & id & S & T & R & _)|(m & e & S & T & (_ & R) & _)]].
  - split.
    + split.
      * intros [p ->].
        destruct R as [R|[[q R]|[[q R]|(e & _ & [(q & R & _)|(e' & _ & R)])]]];
          discriminate.
      * intros (m & id & S & _). rewrite N in S. discriminate.
    + intros m id S. rewrite N in S. discriminate.
  - injection R as ->. split.
    + split; [intros _; eauto|intros _; eauto].
    + intros m' id' S' T'. rewrite S in S'. injection S' as <-.
      rewrite T in T'. injection T' as <-. reflexivity.
  - split.
    + split.
      * intros [q ->]. destruct R as [(text & R & _)|(e' & _ & R)]; discriminate.
      * intros (m' & id' & S' & T'). rewrite S in S'. injection S' as <-.
        rewrite T in T'. discriminate.
    + intros m' id' S' T'. rewrite S in S'. injection S' as <-.
      rewrite T in T'. discriminate.
Qed.

Lemma success_is_delivery_witness :
  let out := Notify.handler Sample.relay_up (Sample.post_json Sample.jane) in
  ((exists p, fst out = Ok (Json 200 p))
   <-> exists (m : mail) (id : value),
         sent (snd out) = [m] /\ transport Sample.relay_up m = Ok id).
Proof.
  intros out.
  destruct (success_is_delivery Sample.relay_up (Sample.post_json Sample.jane)
              Notify.handler (Json 200 (obj_success (VStr "<20240101.1@relay>")))
              (snd out)) as [[A B] _].
  - simpl. tauto.
  - reflexivity.
  - split.
    + intros _. apply A. eexists. reflexivity.
    + intros _. eexists. reflexivity.
Defined.

Lemma outcomes_500 (T : thrown -> value -> Prop) (P : mail -> Prop)
      (w : world) (m : M response) (r : response) (tr : trace) :
  outcomes T P w m -> m = (Ok r, tr) -> status r = 500%Z ->
  exists (e : thrown) (label : string) (before : trace) (text : value),
    tr = before ++ [Console error [LV (VStr label); LE e]]
    /\ r = Json 500 (obj_failure text)
    /\ T e text
    /\ (forall m1 : mail, In m1 (sent tr) -> transport w m1 = Throw e).
Proof.
  intros (r' & tr' & E' & C) E S.
  rewrite E in E'. injection E' as <- <-.
  destruct C as [[N C]|[(m1 & id & _ & _ & C & _)|(m1 & e & N & Tr & C & _)]].
  - destruct C as [C|[[q C]|[[q C]|[e C]]]];
      try (injection C as ->; discriminate).
    destruct C as ((label & before & L) & [(text & R & Tx)|(e' & _ & R)]);
      [|discriminate].
    injection R as ->. exists e, label, before, text.
    split; [exact L|]. split; [reflexivity|]. split; [exact Tx|].
    intros m1 I. rewrite N in I. destruct I.
  - injection C as ->. discriminate.
  - destruct C as ((label & before & L) & [(text & R & Tx)|(e' & _ & R)]);
      [|discriminate].
    injection R as ->. exists e, label, before, text.
    split; [exact L|]. split; [reflexivity|]. split; [exact Tx|].
    intros m' I. rewrite N in I. destruct I as [<-|[]]. exact Tr.
Qed.

(** X4 — whenever a handler answers 500, the last thing it did was to hand
    an error to [console.error], and the answer is made from that very
    error: its [error] text is the error's [message] (with the default
    "Internal server error" in the two handlers that have one), or the
    fixed "Failed to send email" of the escaping handler.  If a message had
    been handed to the transport, the error is the one the transport
    rejected it with. *)
Theorem server_error_is_logged (w : world) (req : request)
        (h : world -> request -> M response) (r : response) (tr : trace) :
  In h handlers ->
  h w req = (Ok r, tr) ->
  status r = 500%Z ->
  exists (e : thrown) (label : string) (before : trace) (text : value),
    tr = before ++ [Console error [LV (VStr label); LE e]]
    /\ r = Json 500 (obj_failure text)
    /\ ((h = Captcha.handler /\ text = VStr "Failed to send email")
        \/ (In h unguarded_handlers /\ text = err_message e)
        \/ (In h [NotifyOrigin.handler; Mixed.handler]
            /\ text = or_else (err_message e) (VStr "Internal server error")))
    /\ (forall m : mail, In m (sent tr) -> transport w m = Throw e).
Proof.
  intros H E S.
  unfold handlers, unguarded_handlers in *. simpl in H.
  destruct H as [<-|[<-|[<-|[<-|[<-|[<-|[<-|[]]]]]]]].
  - destruct (outcomes_500 _ _ _ _ _ _ (Captcha_outcomes w req) E S)
      as (e & label & before & text & L & R & T & N).
    exists e, label, before, text.
    split; [exact L|]. split; [exact R|]. split; [|exact N].
    left. split; [reflexivity|exact T].
  - destruct (outcomes_500 _ _ _ _ _ _ (Notify_outcomes w req) E S)
      as (e & label & before & text & L & R & T & N).
    exists e, label, before, text.
    split; [exact L|]. split; [exact R|]. split; [|exact N].
    right. left. split; [simpl; tauto|exact (read_message_ok _ _ T)].
  - destruct (outcomes_500 _ _ _ _ _ _ (Styled_outcomes w req) E S)
      as (e & label & before & text & L & R & T & N).
    exists e, label, before, text.
    split; [exact L|]. split; [exact R|]. split; [|exact N].
    right. left. split; [simpl; tauto|exact (read_message_ok _ _ T)].
  - destruct (outcomes_500 _ _ _ _ _ _ (NotifyForm_outcomes w req) E S)
      as (e & label & before & text & L & R & T & N).
    exists e, label, before, text.
    split; [exact L|]. split; [exact R|]. split; [|exact N].
    right. left. split; [simpl; tauto|exact (read_message_ok _ _ T)].
  - destruct (outcomes_500 _ _ _ _ _ _ (NotifyOrigin_outcomes w req) E S)
      as (e & label & before & text & L & R & T & N).
    exists e, label, before, text.
    split; [exact L|]. split; [exact R|]. split; [|exact N].
    right. right. split; [simpl; tauto|exact T].
  - destruct (outcomes_500 _ _ _ _ _ _ (Upload_outcomes w req) E S)
      as (e & label & before & text & L & R & T & N).
    exists e, label, before, text.
    split; [exact L|]. split; [exact R|]. split; [|exact N].
    right. left. split; [simpl; tauto|exact (read_message_ok _ _ T)].
  - destruct (outcomes_500 _ _ _ _ _ _ (Mixed_outcomes w req) E S)
      as (e & label & before & text & L & R & T & N).
    exists e, label, before, text.
    split; [exact L|]. split; [exact R|]. split; [|exact N].
    right. right. split; [simpl; tauto|exact T].
Qed.

Lemma server_error_is_logged_witness :
  exists (e : thrown) (label : string) (before : trace) (text : value),
    [SendMail (mkMail "New Contact Message" (render (Notify.html Sample.jane)) []);
     Console error [LV (VStr "❌ Email sending error:"); LE Sample.login_refused]]
    = before ++ [Console error [LV (VStr label); LE e]]
    /\ Json 500 (obj_failure (err_message Sample.login_refused))
       = Json 500 (obj_failure text)
    /\ ((Notify.handler = Captcha.handler /\ text = VStr "Failed to send email")
        \/ (In Notify.handler unguarded_handlers /\ text = err_message e)
        \/ (In Notify.handler [NotifyOrigin.handler; Mixed.handler]
            /\ text = or_else (err_message e) (VStr "Internal server error")))
    /\ (forall m : mail,
          In m (sent [SendMail (mkMail "New Contact Message"
                                  (render (Notify.html Sample.jane)) []);
                      Console error [LV (VStr "❌ Email sending error:");
                                     LE Sample.login_refused]]) ->
          transport Sample.relay_down m = Throw e).
Proof.
  apply (server_error_is_logged Sample.relay_down (Sample.post_json Sample.jane)
           Notify.handler
           (Json 500 (obj_failure (err_message Sample.login_refused)))).
  - simpl. tauto.
  - reflexivity.
  - reflexivity.
Defined.

(** X5 — a message handed to the transport carries at most one attachment,
    and none at all when it comes from a handler that reads a parsed JSON
    body. *)
Theorem at_most_one_attachment (w : world) (req : request)
        (h : world -> request -> M response) (m : mail) :
  In h handlers ->
  In m (sent (snd (h w req))) ->
  (length (attachments m) <= 1)%nat
  /\ (In h json_handlers -> attachments m = []).
Proof.
  intros H I. split.
  - exact (outcomes_sent _ _ _ _ _ (accountable_of w req h H) I).
  - intros J.
    exact (outcomes_sent _ _ _ _ _
             (proj1 (Forall_forall _ _) (json_accountable w req) h J) I).
Qed.

Lemma at_most_one_attachment_witness :
  let m := mkMail "New Contact Message" (render (Notify.html Sample.jane)) [] in
  (length (attachments m) <= 1)%nat
  /\ (In Notify.handler json_handlers -> attachments m = []).
Proof.
  intros m.
  apply (at_most_one_attachment Sample.relay_up (Sample.post_json Sample.jane)
           Notify.handler m).
  - simpl. tauto.
  - left. reflexivity.
Defined.


(** ** The helpers [esc] and [nl2br] *)

Lemma escaped_no_meta (c : ascii) (s : string) :
  is_meta c = true -> Ascii.eqb c "&" = false ->
  escaped s = true -> occurs c s = false.
Proof.
  intros M A. induction s as [|d s IH]; [reflexivity|].
  simpl. intros H. apply andb_true_iff in H. destruct H as [Hd Hs].
  rewrite (IH Hs), orb_false_r.
  destruct (Ascii.eqb c d) eqn:E; [|reflexivity].
  apply Ascii.eqb_eq in E. subst d. rewrite A, M in Hd. discriminate.
Qed.

(** X6 — the output of [esc], for any value, holds none of the characters
    [<], [>], double quote and single quote, and every [&] in it opens one of
    the five entities the function writes. *)
Theorem esc_output_is_escaped (v : value) :
  escaped (esc v) = true
  /\ occurs "<" (esc v) = false
  /\ occurs ">" (esc v) = false
  /\ occurs dq_char (esc v) = false
  /\ occurs sq_char (esc v) = false.
Proof.
  pose proof (esc_escaped v) as E.
  repeat split; try exact E; apply escaped_no_meta; try reflexivity; exact E.
Qed.

Lemma esc_char_length (c : ascii) :
  String.length (esc_char c) = 1%nat <-> is_meta c = false.
Proof.
  unfold esc_char, is_meta.
  destruct (Ascii.eqb c "&"); [simpl; split; discriminate|].
  destruct (Ascii.eqb c "<"); [simpl; split; discriminate|].
  destruct (Ascii.eqb c ">"); [simpl; split; discriminate|].
  destruct (Ascii.eqb c dq_char); [simpl; split; discriminate|].
  destruct (Ascii.eqb c sq_char); [simpl; split; discriminate|].
  simpl. tauto.
Qed.

Lemma esc_char_length_ge (c : ascii) : (1 <= String.length (esc_char c))%nat.
Proof.
  unfold esc_char.
  repeat match goal with
         | |- context [if ?b then _ else _] => destruct b
         end; simpl; lia.
Qed.

Lemma length_append (a b : string) :
  String.length (a ++ b) = (String.length a + String.length b)%nat.
Proof. induction a as [|c a IH]; simpl; [reflexivity|]. rewrite IH. reflexivity. Qed.

Lemma esc_str_length_ge (s : string) :
  (String.length s <= String.length (esc_str s))%nat.
Proof.
  unfold esc_str. induction s as [|c s IH]; simpl; [lia|].
  rewrite length_append. pose proof (esc_char_length_ge c). lia.
Qed.

Lemma esc_str_plain (s : string) : has_meta s = false -> esc_str s = s.
Proof.
  unfold esc_str. induction s as [|c s IH]; simpl; [reflexivity|].
  intros H. apply orb_false_iff in H. destruct H as [Hc Hs].
  rewrite (IH Hs). unfold esc_char, is_meta in *.
  destruct (Ascii.eqb c "&"); [discriminate|].
  destruct (Ascii.eqb c "<"); [discriminate|].
  destruct (Ascii.eqb c ">"); [discriminate|].
  destruct (Ascii.eqb c dq_char); [discriminate|].
  destruct (Ascii.eqb c sq_char); [discriminate|].
  reflexivity.
Qed.

Lemma esc_str_longer (s : string) :
  has_meta s = true -> (String.length s < String.length (esc_str s))%nat.
Proof.
  induction s as [|c s IH]; simpl; [discriminate|].
  intros H. change (esc_str (String c s)) with (esc_char c ++ esc_str s)%string.
  rewrite length_append.
  pose proof (esc_char_length_ge c). pose proof (esc_str_length_ge s).
  destruct (is_meta c) eqn:M.
  - assert (String.length (esc_char c) <> 1%nat).
    { intros L. apply esc_char_length in L. congruence. }
    lia.
  - simpl in H. specialize (IH H). lia.
Qed.

Lemma has_meta_app (a b : string) :
  has_meta (a ++ b) = has_meta a || has_meta b.
Proof.
  induction a as [|c a IH]; simpl; [reflexivity|].
  rewrite IH. apply orb_assoc.
Qed.

Lemma esc_str_keeps_meta (s : string) :
  has_meta s = true -> has_meta (esc_str s) = true.
Proof.
  induction s as [|c s IH]; simpl; [discriminate|].
  change (esc_str (String c s)) with (esc_char c ++ esc_str s)%string.
  rewrite has_meta_app. intros H.
  destruct (is_meta c) eqn:M.
  - assert (has_meta (esc_char c) = true).
    { unfold esc_char, is_meta in *.
      destruct (Ascii.eqb c "&"); [reflexivity|].
      destruct (Ascii.eqb c "<"); [reflexivity|].
      destruct (Ascii.eqb c ">"); [reflexivity|].
      destruct (Ascii.eqb c dq_char); [reflexivity|].
      destruct (Ascii.eqb c sq_char); [reflexivity|]. discriminate. }
    rewrite H0. reflexivity.
  - simpl in H. rewrite (IH H). apply orb_true_r.
Qed.

(** X7 — [esc] leaves a text unchanged exactly when the text holds none of
    the five characters; on any other text it is not idempotent: escaping
    the escaped text changes it again. *)
Theorem esc_fixed_points (s : string) :
  (esc (VStr s) = s <-> has_meta s = false)
  /\ (esc (VStr (esc (VStr s))) = esc (VStr s) <-> has_meta s = false).
Proof.
  change (esc (VStr s)) with (esc_str s).
  change (esc (VStr (esc_str s))) with (esc_str (esc_str s)).
  assert (F : forall t, esc_str t = t <-> has_meta t = false).
  { intros t. split.
    - intros E. destruct (has_meta t) eqn:M; [|reflexivity].
      pose proof (esc_str_longer t M) as L. rewrite E in L. lia.
    - apply esc_str_plain. }
  split; [apply F|].
  rewrite F. split.
  - intros H. destruct (has_meta s) eqn:M; [|reflexivity].
    rewrite (esc_str_keeps_meta s M) in H. discriminate.
  - intros H. rewrite (esc_str_plain s H). exact H.
Qed.

Lemma occurs_split (c : ascii) (s : string) :
  occurs c s = true -> exists a b, s = (a ++ String c b)%string.
Proof.
  induction s as [|d s IH]; simpl; [discriminate|].
  destruct (Ascii.eqb c d) eqn:E.
  - intros _. apply Ascii.eqb_eq in E. subst d. exists EmptyString, s. reflexivity.
  - simpl. intros H. destruct (IH H) as (a & b & ->).
    exists (String d a), b. reflexivity.
Qed.

Lemma esc_str_app (a b : string) :
  esc_str (a ++ b) = (esc_str a ++ esc_str b)%string.
Proof. apply replace_each_app. Qed.

Lemma contains_occurs (c : ascii) (p s : string) :
  occurs c s = false -> contains (String c p) s = false.
Proof.
  induction s as [|d s IH]; [reflexivity|].
  simpl occurs. intros H. apply orb_false_iff in H. destruct H as [Hd Hs].
  cbn [contains]. rewrite (IH Hs), orb_false_r.
  simpl. destruct (Ascii.ascii_dec c d) as [->|N]; [|reflexivity].
  rewrite Ascii.eqb_refl in Hd. discriminate.
Qed.

(** X8 — the order of the two helpers matters.  On a text with a line feed,
    escaping and then breaking yields a [<br>] marker, while breaking and
    then escaping yields none: the marker itself comes out escaped. *)
Theorem escape_before_break (v : string) :
  occurs lf_char v = true ->
  contains "<br>" (nl2br (VStr (esc (VStr v)))) = true
  /\ contains "<br>" (esc (VStr (nl2br (VStr v)))) = false
  /\ contains "&lt;br&gt;" (esc (VStr (nl2br (VStr v)))) = true.
Proof.
  intros H. destruct (occurs_split _ _ H) as (a & b & ->).
  change (nl2br (VStr (esc (VStr (a ++ String lf_char b)))))
    with (nl2br_str (esc_str (a ++ String lf_char b))).
  change (esc (VStr (nl2br (VStr (a ++ String lf_char b)))))
    with (esc_str (nl2br_str (a ++ String lf_char b))).
  split; [|split].
  - rewrite esc_str_app, nl2br_str_app.
    change (esc_str (String lf_char b)) with (nl ++ esc_str b)%string.
    rewrite nl2br_str_app.
    change (nl2br_str nl) with "<br>".
    apply contains_middle.
  - apply contains_occurs. apply escaped_no_meta; try reflexivity.
    apply esc_str_escaped.
  - rewrite nl2br_str_app.
    change (nl2br_str (String lf_char b)) with ("<br>" ++ nl2br_str b)%string.
    rewrite esc_str_app, esc_str_app.
    change (esc_str "<br>") with "&lt;br&gt;".
    apply contains_middle.
Qed.

Lemma escape_before_break_witness :
  let v := ("Hello" ++ nl ++ "World")%string in
  contains "<br>" (nl2br (VStr (esc (VStr v)))) = true
  /\ contains "<br>" (esc (VStr (nl2br (VStr v)))) = false
  /\ contains "&lt;br&gt;" (esc (VStr (nl2br (VStr v)))) = true.
Proof.
  apply (escape_before_break ("Hello" ++ nl ++ "World")%string). reflexivity.
Defined.

(** X9 — in the escaping handler every value interpolated into the contact
    and the quote body is escaped text, or escaped text whose line feeds
    became [<br>]; this holds for every request body. *)
Theorem escaping_renderer_is_safe (body : value) :
  Forall safe_hole (holes (Captcha.contact_html body))
  /\ Forall safe_hole (holes (Captcha.quote_html body)).
Proof.
  split; [apply Captcha_contact_escaped|apply Captcha_quote_escaped].
Qed.

Lemma esc_char_inj (c d : ascii) (x y : string) :
  (esc_char c ++ x)%string = (esc_char d ++ y)%string -> c = d /\ x = y.
Proof.
  unfold esc_char.
  destruct (Ascii.eqb c "&") eqn:C1; [apply Ascii.eqb_eq in C1|];
  [|destruct (Ascii.eqb c "<") eqn:C2; [apply Ascii.eqb_eq in C2|];
    [|destruct (Ascii.eqb c ">") eqn:C3; [apply Ascii.eqb_eq in C3|];
      [|destruct (Ascii.eqb c dq_char) eqn:C4; [apply Ascii.eqb_eq in C4|];
        [|destruct (Ascii.eqb c sq_char) eqn:C5; [apply Ascii.eqb_eq in C5|]]]]];
  (destruct (Ascii.eqb d "&") eqn:D1; [apply Ascii.eqb_eq in D1|];
   [|destruct (Ascii.eqb d "<") eqn:D2; [apply Ascii.eqb_eq in D2|];
     [|destruct (Ascii.eqb d ">") eqn:D3; [apply Ascii.eqb_eq in D3|];
       [|destruct (Ascii.eqb d dq_char) eqn:D4; [apply Ascii.eqb_eq in D4|];
         [|destruct (Ascii.eqb d sq_char) eqn:D5; [apply Ascii.eqb_eq in D5|]]]]]);
  subst; simpl; intros H; try discriminate;
    try (injection H as H; subst; split; reflexivity);
    try (injection H as H1 H2; subst;
         first [rewrite Ascii.eqb_refl in C1; discriminate
               |rewrite Ascii.eqb_refl in D1; discriminate
               |split; reflexivity]).
Qed.

(** X10 — [esc] loses nothing: two different texts have different escaped
    forms. *)
Theorem esc_is_injective (a b : string) :
  esc (VStr a) = esc (VStr b) -> a = b.
Proof.
  change (esc (VStr a)) with (esc_str a). change (esc (VStr b)) with (esc_str b).
  revert b. induction a as [|c a IH]; intros [|d b] H.
  - reflexivity.
  - exfalso. change (esc_str (String d b)) with (esc_char d ++ esc_str b)%string in H.
    pose proof (esc_char_length_ge d) as L.
    apply (f_equal String.length) in H. rewrite length_append in H. simpl in H. lia.
  - exfalso. change (esc_str (String c a)) with (esc_char c ++ esc_str a)%string in H.
    pose proof (esc_char_length_ge c) as L.
    apply (f_equal String.length) in H. rewrite length_append in H. simpl in H. lia.
  - change (esc_str (String c a)) with (esc_char c ++ esc_str a)%string in H.
    change (esc_str (String d b)) with (esc_char d ++ esc_str b)%string in H.
    apply esc_char_inj in H. destruct H as [-> H]. rewrite (IH b H). reflexivity.
Qed.

Lemma esc_is_injective_witness : "R&D" = "R&D".
Proof.
  apply (esc_is_injective "R&D" "R&D"). reflexivity.
Defined.


(** ** The CAPTCHA block *)

(** X11 — with a reCAPTCHA secret configured, the handler hands a message to
    the transport only after the verification service was called with the
    secret and the request's token and answered with a truthy [success]; the
    call comes first in the trace and the send right after it. *)
Theorem mail_only_after_verification (w : world) (req : request)
        (secret : string) :
  env w "RECAPTCHA_SECRET" = Some secret ->
  secret <> "" ->
  sends (snd (Captcha.handler w req)) = true ->
  let token := prop (req_body req) "recaptchaToken" in
  let query := ("secret=" ++ secret ++ "&response=" ++ toString token)%string in
  truthy token = true
  /\ exists (data : value) (m : mail) (rest : trace),
       siteverify w query = Ok data
       /\ truthy (prop data "success") = true
       /\ snd (Captcha.handler w req)
          = Fetch "https://www.google.com/recaptcha/api/siteverify" query
            :: SendMail m :: rest.
Proof.
  intros He Hs. apply String.eqb_neq in Hs.
  unfold Captcha.handler, Captcha.captcha, Captcha.verify,
    Captcha.deliver, on_post. open_monad.
  rewrite He, Hs. rewrite !prop_or_empty.
  crunch; simpl; try discriminate; intros _; cbv zeta;
    (split; [apply negb_false_iff; assumption|]);
    match goal with
    | H : ToString _ = Ok _ |- _ =>
        apply ToString_ok in H; destruct H as [_ ->]
    end;
    match goal with
    | H : get ?d "success" = Ok ?s |- _ =>
        exists d; destruct d; simpl in H; try discriminate;
        injection H as <-
    end;
    eexists _, _;
    (split; [eassumption|]);
    (split; [apply negb_false_iff; assumption|reflexivity]).
Qed.

Lemma mail_only_after_verification_witness :
  let body := VObj (Sample.str_fields
                [("kind", "contact"); ("name", "Jane Doe"); ("email", "jane@x.com");
                 ("message", "Hi"); ("recaptchaToken", "tok")]) in
  truthy (VStr "tok") = true
  /\ exists (data : value) (m : mail) (rest : trace),
       siteverify Sample.guarded "secret=s3cret&response=tok" = Ok data
       /\ truthy (prop data "success") = true
       /\ snd (Captcha.handler Sample.guarded (Sample.post_json body))
          = Fetch "https://www.google.com/recaptcha/api/siteverify"
              "secret=s3cret&response=tok"
            :: SendMail m :: rest.
Proof.
  intros body.
  apply (mail_only_after_verification Sample.guarded (Sample.post_json body)
           "s3cret").
  - reflexivity.
  - apply String.eqb_neq. reflexivity.
  - reflexivity.
Defined.

(** X12 — with a secret configured and a token present, the verification
    call decides the request.  If the token cannot be converted to text the
    call is never made; if the call or its JSON decoding throws, it was
    made; either way the error is logged and the answer is 400 "reCAPTCHA
    verification error".  If the service answers without a truthy
    [success], the answer is 400 "reCAPTCHA failed" with the service's
    answer as details.  In these cases nothing is sent.  If [success] is
    truthy the request goes on to the mail stage whatever else the answer
    holds: no score is examined. *)
Theorem verification_outcomes (w : world) (req : request) (secret : string) :
  method req = "POST" ->
  truthy (prop (req_body req) "kind") = true ->
  env w "RECAPTCHA_SECRET" = Some secret ->
  secret <> "" ->
  let token := prop (req_body req) "recaptchaToken" in
  let query := ("secret=" ++ secret ++ "&response=" ++ toString token)%string in
  let call := Fetch "https://www.google.com/recaptcha/api/siteverify" query in
  let verification_error := Json 400 (obj_error "reCAPTCHA verification error") in
  truthy token = true ->
  (converts token = false ->
   Captcha.handler w req
   = (Ok verification_error,
      [Console error [LV (VStr "reCAPTCHA verify error:"); LE no_primitive]]))
  /\ (converts token = true ->
      (forall e : thrown,
          siteverify w query = Throw e ->
          Captcha.handler w req
          = (Ok verification_error,
             [call; Console error [LV (VStr "reCAPTCHA verify error:"); LE e]]))
      /\ (forall data : value,
            siteverify w query = Ok data -> nullish data = false ->
            truthy (prop data "success") = false ->
            Captcha.handler w req
            = (Ok (Json 400 (VObj [("error", VStr "reCAPTCHA failed");
                                   ("details", data)])),
               [call]))
      /\ (forall data : value,
            siteverify w query = Ok data ->
            truthy (prop data "success") = true ->
            Captcha.handler w req
            = (fst (Captcha.deliver w (req_body req)),
               call :: snd (Captcha.deliver w (req_body req))))).
Proof.
  intros Hm Hk He Hs token query call verification_error Ht.
  apply String.eqb_neq in Hs.
  assert (B : or_else (req_body req) (VObj []) = req_body req)
    by exact (truthy_prop_or _ _ Hk).
  assert (P : Captcha.handler w req
              = bind (Captcha.captcha w (req_body req))
                  (fun checked => match checked with
                                  | Some r => ret r
                                  | None => Captcha.deliver w (req_body req)
                                  end)).
  { unfold Captcha.handler. rewrite on_post_POST by exact Hm. cbv zeta.
    rewrite B, Hk. reflexivity. }
  split.
  { intros Hc. rewrite P. unfold Captcha.captcha, Captcha.verify.
    rewrite He, Hs. simpl negb. cbv iota. fold token. rewrite Ht.
    simpl negb. cbv iota. unfold ToString. rewrite Hc. reflexivity. }
  intros Hc.
  assert (S : ToString token = Ok (toString token))
    by (unfold ToString; rewrite Hc; reflexivity).
  assert (V : forall data,
             siteverify w query = Ok data -> nullish data = false ->
             Captcha.verify w (req_body req)
             = (Ok (if negb (truthy (prop data "success"))
                    then Some (Json 400
                           (VObj [("error", VStr "reCAPTCHA failed");
                                  ("details", data)]))
                    else None),
                [call])).
  { intros data T N. unfold Captcha.verify. rewrite He, Hs. simpl negb. cbv iota.
    fold token. rewrite Ht. simpl negb. cbv iota. rewrite S, bind_lift_ok.
    cbv zeta. fold query. rewrite T.
    unfold emit. rewrite bind_ok. cbv beta. rewrite bind_lift_ok.
    rewrite (get_not_nullish data "success" N), bind_lift_ok.
    destruct (negb (truthy (prop data "success"))); reflexivity. }
  split; [|split].
  - intros e T. rewrite P. unfold Captcha.captcha, Captcha.verify.
    rewrite He, Hs. simpl negb. cbv iota. fold token. rewrite Ht.
    simpl negb. cbv iota. rewrite S, bind_lift_ok. cbv zeta. fold query.
    rewrite T. reflexivity.
  - intros data T N F. rewrite P. unfold Captcha.captcha. rewrite (V _ T N), F.
    reflexivity.
  - intros data T Su. rewrite P. unfold Captcha.captcha.
    assert (N : nullish data = false)
      by (destruct data; simpl in *; try reflexivity; discriminate).
    rewrite (V _ T N), Su. simpl negb. cbv iota.
    unfold try_catch, bind.
    destruct (Captcha.deliver w (req_body req)) as [r t]. reflexivity.
Qed.

Lemma verification_outcomes_witness :
  let body := VObj (Sample.str_fields
                [("kind", "contact"); ("name", "Jane Doe"); ("email", "jane@x.com");
                 ("message", "Hi"); ("recaptchaToken", "tok")]) in
  let req := Sample.post_json body in
  Captcha.handler Sample.guarded req
  = (fst (Captcha.deliver Sample.guarded body),
     Fetch "https://www.google.com/recaptcha/api/siteverify"
       "secret=s3cret&response=tok"
     :: snd (Captcha.deliver Sample.guarded body)).
Proof.
  intros body req.
  destruct (verification_outcomes Sample.guarded req "s3cret")
    as (_ & H).
  - reflexivity.
  - reflexivity.
  - reflexivity.
  - apply String.eqb_neq. reflexivity.
  - reflexivity.
  - destruct (H eq_refl) as (_ & _ & H').
    apply (H' (VObj [("success", VBool true)])); reflexivity.
Defined.

(** X13 — without a secret (the variable unset or empty) the verification
    service is never called, whatever the request holds. *)
Theorem no_secret_no_verification (w : world) (req : request) :
  env w "RECAPTCHA_SECRET" = None \/ env w "RECAPTCHA_SECRET" = Some "" ->
  existsb is_fetch (snd (Captcha.handler w req)) = false
  /\ Captcha.captcha w (req_body req) = (Ok None, []).
Proof.
  intros H. split.
  - unfold Captcha.handler, Captcha.captcha, Captcha.verify,
      Captcha.deliver, Captcha.compose, on_post. open_monad.
    destruct H as [-> | ->]; [|change (negb ("" =? "")) with false];
      crunch; reflexivity.
  - unfold Captcha.captcha, Captcha.verify.
    destruct H as [-> | ->]; reflexivity.
Qed.

Lemma no_secret_no_verification_witness :
  existsb is_fetch
    (snd (Captcha.handler Sample.relay_up (Sample.post_json Sample.jane))) = false
  /\ Captcha.captcha Sample.relay_up Sample.jane = (Ok None, []).
Proof.
  apply (no_secret_no_verification Sample.relay_up (Sample.post_json Sample.jane)).
  left. reflexivity.
Defined.


(** ** Flattening of multipart fields *)

(** X14 — the flattening loop keeps exactly the first value of every field:
    looking a key up in the flattened body gives element [0] of the field's
    array (or the value itself when it is not an array), and [undefined] for
    a key the form does not carry. *)
Theorem flatten_takes_first (fs : list (string * value)) (k : string) :
  NoDup (map fst fs) ->
  prop (flatten fs) k = first (assoc k fs)
  /\ (has_key k fs = false -> prop (flatten fs) k = VUndef).
Proof.
  intros ND. split; [apply flatten_first; exact ND|apply flatten_absent].
Qed.

Lemma flatten_takes_first_witness :
  prop (flatten Sample.two_goals) "goals" = first (assoc "goals" Sample.two_goals)
  /\ (has_key "goals" Sample.two_goals = false ->
      prop (flatten Sample.two_goals) "goals" = VUndef).
Proof.
  apply (flatten_takes_first Sample.two_goals "goals").
  repeat constructor; simpl; intuition discriminate.
Defined.

Lemma first_text (v : value) :
  form_value v = true -> text_or_missing (first v) = true.
Proof.
  destruct v as [| | | | |l|]; simpl; try discriminate; [reflexivity|].
  destruct l as [|x l]; [reflexivity|]. simpl.
  destruct x; simpl; try discriminate. reflexivity.
Qed.

Lemma fold_assign_text (k : string) (fs acc : list (string * value)) :
  forallb (fun kv => form_value (snd kv)) fs = true ->
  text_or_missing (assoc k acc) = true ->
  text_or_missing
    (assoc k (fold_left (fun b kv => assign (fst kv) (first (snd kv)) b) fs acc))
  = true.
Proof.
  revert acc. induction fs as [|[k0 v0] fs IH]; intros acc H A; simpl in *.
  - exact A.
  - apply andb_true_iff in H. destruct H as [H0 H1].
    apply IH; [exact H1|]. rewrite assoc_assign.
    destruct (k0 =? k); [apply first_text; exact H0|exact A].
Qed.

Lemma flatten_text (k : string) (fs : list (string * value)) :
  forallb (fun kv => form_value (snd kv)) fs = true ->
  text_or_missing (prop (flatten fs) k) = true.
Proof.
  intros H. unfold flatten. simpl. apply fold_assign_text; [exact H|reflexivity].
Qed.

(** X15 — when every form field is a string or an array of strings, as the
    multipart parser reports them, no field of the flattened body is an
    array: the renderer's [Array.isArray(body.goals)] branch is dead for a
    multipart request and [goals] is rendered as one value or as "N/A". *)
Theorem flattened_body_has_no_array (fs : list (string * value)) (k : string) :
  forallb (fun kv => form_value (snd kv)) fs = true ->
  isArray (prop (flatten fs) k) = false
  /\ text_or_missing (prop (flatten fs) k) = true
  /\ goals_text (prop (flatten fs) "goals")
     = toString (or_else (prop (flatten fs) "goals") (VStr "N/A")).
Proof.
  intros H. split; [apply flatten_never_array; exact H|].
  split; [apply flatten_text; exact H|].
  pose proof (flatten_never_array "goals" fs H) as A.
  unfold goals_text. destruct (prop (flatten fs) "goals"); try reflexivity.
  discriminate.
Qed.

Lemma flattened_body_has_no_array_witness :
  isArray (prop (flatten Sample.two_goals) "goals") = false
  /\ text_or_missing (prop (flatten Sample.two_goals) "goals") = true
  /\ goals_text (prop (flatten Sample.two_goals) "goals")
     = toString (or_else (prop (flatten Sample.two_goals) "goals") (VStr "N/A")).
Proof.
  apply (flattened_body_has_no_array Sample.two_goals "goals"). reflexivity.
Defined.

(** ** Bodies that render *)

Lemma form_bodies_render (w : world) (fs : list (string * value))
      (file : option File) :
  forallb (fun kv => form_value (snd kv)) fs = true ->
  (exists t, NotifyForm.html w (flatten fs) file = Ok t)
  /\ (exists t, NotifyOrigin.html w (flatten fs) file = Ok t)
  /\ (exists t, Upload.html (flatten fs) file = Ok t)
  /\ (exists t, Mixed.html (flatten fs) file = Ok t).
Proof.
  intros H.
  assert (T : forall k, text_or_missing (prop (flatten fs) k) = true)
    by (intros k; apply flatten_text; exact H).
  assert (C : forall k, converts (prop (flatten fs) k) = true)
    by (intros k; apply text_converts, T).
  split; [|split; [|split]].
  - apply NotifyForm_html_evaluates; [exact C|apply T].
  - apply NotifyOrigin_html_evaluates; [exact C|apply T].
  - apply Upload_html_evaluates; [exact C|apply T].
  - apply Mixed_html_evaluates; [exact C|apply T].
Qed.

(** ** Rendering failures *)

Lemma put_replaced_fails (what fallback : string) (v : value) (t : template) :
  text_or_missing v = false ->
  failure (put_replaced what v fallback :: t)
  = Some (TypeError (what ++ "?.replace is not a function")).
Proof. intros H. destruct v; simpl in *; try discriminate; reflexivity. Qed.

Lemma detailed_fields_fails (i : nat) (body : value) :
  (forall k, converts (prop body k) = true) ->
  text_or_missing (prop body (broken_field body)) = false ->
  failure (detailed_fields i body)
  = Some (TypeError ("body." ++ broken_field body ++ "?.replace is not a function")).
Proof.
  intros H T. unfold detailed_fields, broken_field in *.
  destruct (is_str (prop body "kind") "quote").
  - repeat first
      [ rewrite failure_app
      | rewrite na_line_evaluates by apply H
      | rewrite failure_put_goals by apply H
      | rewrite failure_lit ].
    rewrite put_replaced_fails by exact T. reflexivity.
  - rewrite failure_lit, put_replaced_fails by exact T. reflexivity.
Qed.

(** X16 — the styled JSON handler calls [replace] on [brief] (for a quote)
    or [message] (otherwise).  For a body whose fields can all be converted
    to text, the template is rendered exactly when that field is a string
    or is missing; any other value (a number, a boolean, an array, an
    object) makes a request that passed validation end in a 500 that
    carries the [TypeError] of the call, which is logged, and nothing is
    sent. *)
Theorem non_text_field_fails_request (w : world) (req : request) :
  method req = "POST" ->
  truthy (prop (req_body req) "kind") = true ->
  truthy (prop (req_body req) "name") = true ->
  truthy (prop (req_body req) "email") = true ->
  fields_convert (req_body req) = true ->
  let body := req_body req in
  let field := broken_field body in
  let text := ("body." ++ field ++ "?.replace is not a function")%string in
  ((exists t, Styled.html w body = Ok t)
   <-> text_or_missing (prop body field) = true)
  /\ (text_or_missing (prop body field) = false ->
      Styled.handler w req
      = (Ok (Json 500 (obj_failure (VStr text))),
         [Console error [LV (VStr "❌ Email sending error:");
                         LE (TypeError text)]])).
Proof.
  intros Hm Hk Hn He Hf body field text.
  assert (C : forall k, converts (prop body k) = true)
    by (intros k; apply fields_convert_prop; exact Hf).
  assert (F : text_or_missing (prop body field) = false ->
              Styled.html w body = Throw (TypeError text)).
  { intros T. unfold Styled.html. apply settle_throw.
    rewrite !failure_app, detailed_head_evaluates by exact C.
    rewrite (detailed_fields_fails 2 body C T). reflexivity. }
  split.
  - split.
    + intros [t Ht]. destruct (text_or_missing (prop body field)) eqn:T;
        [reflexivity|]. rewrite (F eq_refl) in Ht. discriminate.
    + intros T. eexists. exact (Styled_html_evaluates w body C T).
  - intros T. unfold Styled.handler. rewrite on_post_POST by exact Hm. cbv zeta.
    rewrite (truthy_prop_or _ _ Hk), Hk, Hn, He. simpl negb. simpl orb. cbv iota.
    fold body. rewrite (F T). reflexivity.
Qed.

Lemma non_text_field_fails_request_witness :
  let body := VObj [("kind", VStr "quote"); ("name", VStr "Acme Co");
                    ("email", VStr "a@acme.com"); ("brief", VNum "5")] in
  Styled.handler Sample.relay_up (Sample.post_json body)
  = (Ok (Json 500 (obj_failure (VStr "body.brief?.replace is not a function"))),
     [Console error [LV (VStr "❌ Email sending error:");
                     LE (TypeError "body.brief?.replace is not a function")]]).
Proof.
  intros body.
  apply (non_text_field_fails_request Sample.relay_up (Sample.post_json body));
    reflexivity.
Defined.

(** X17 — a multipart request cannot trigger that failure: when every form
    field is a string or an array of strings, all four multipart templates
    render. *)
Theorem multipart_bodies_render (w : world) (fs : list (string * value))
        (file : option File) :
  forallb (fun kv => form_value (snd kv)) fs = true ->
  let body := flatten fs in
  (exists t, NotifyForm.html w body file = Ok t)
  /\ (exists t, NotifyOrigin.html w body file = Ok t)
  /\ (exists t, Upload.html body file = Ok t)
  /\ (exists t, Mixed.html body file = Ok t).
Proof.
  intros H body. exact (form_bodies_render w fs file H).
Qed.

Lemma multipart_bodies_render_witness :
  let body := flatten Sample.two_goals in
  (exists t, NotifyForm.html Sample.relay_up body None = Ok t)
  /\ (exists t, NotifyOrigin.html Sample.relay_up body None = Ok t)
  /\ (exists t, Upload.html body None = Ok t)
  /\ (exists t, Mixed.html body None = Ok t).
Proof.
  apply (multipart_bodies_render Sample.relay_up Sample.two_goals None).
  reflexivity.
Defined.

(** ** Subjects of the escaping handler *)

(** X18 — a quote needs no field besides [kind]: with [category], [service]
    and [fullName] missing, and the fields that are there convertible to
    text, the escaping handler still composes a message; its subject spells
    out "undefined" three times, while the body shows the same fields as
    empty text. *)
Theorem quote_without_fields (body : value) :
  prop body "kind" = VStr "quote" ->
  prop body "category" = VUndef ->
  prop body "service" = VUndef ->
  prop body "fullName" = VUndef ->
  fields_convert body = true ->
  Captcha.compose body
  = Ok (inl (mkMail "🧾 New Quote — undefined / undefined — undefined"
                    (render (Captcha.quote_html body)) []))
  /\ esc (prop body "category") = ""
  /\ esc (prop body "service") = ""
  /\ esc (prop body "fullName") = "".
Proof.
  intros Hk Hc Hs Hf Hv.
  assert (C : forall k, converts (prop body k) = true)
    by (intros k; apply fields_convert_prop; exact Hv).
  split.
  - unfold Captcha.compose. rewrite Hk. simpl is_str. cbv iota.
    rewrite quote_subject_text, Hc, Hs, Hf. simpl.
    rewrite (text_of_ok _ (quote_html_evaluates body C)). reflexivity.
  - rewrite Hc, Hs, Hf. repeat split; reflexivity.
Qed.

Lemma quote_without_fields_witness :
  let body := VObj [("kind", VStr "quote")] in
  Captcha.compose body
  = Ok (inl (mkMail "🧾 New Quote — undefined / undefined — undefined"
                    (render (Captcha.quote_html body)) []))
  /\ esc (prop body "category") = ""
  /\ esc (prop body "service") = ""
  /\ esc (prop body "fullName") = "".
Proof.
  intros body. apply (quote_without_fields body); reflexivity.
Defined.

(** X19 — for a contact message, every message the escaping handler hands
    to the transport has as subject the fixed prefix followed by the sender
    name, converted to text as [String] does, so the subject contains the
    name.  Such a message is sent whenever the CAPTCHA block lets the
    request through, the three required fields are there and every field
    of the body can be converted to text. *)
Theorem contact_subject_line (w : world) (req : request) :
  method req = "POST" ->
  prop (req_body req) "kind" = VStr "contact" ->
  let body := req_body req in
  let name := toString (prop body "name") in
  let line := ("📩 New Contact — " ++ name)%string in
  (forall m : mail,
      In m (sent (snd (Captcha.handler w req))) ->
      subject m = line /\ html m = render (Captcha.contact_html body))
  /\ (forall tc : trace,
        Captcha.captcha w body = (Ok None, tc) ->
        truthy (prop body "name") = true ->
        truthy (prop body "email") = true ->
        truthy (prop body "message") = true ->
        fields_convert body = true ->
        exists (r : response) (tr : trace),
          Captcha.handler w req
          = (Ok r, tc ++ SendMail (mkMail line (render (Captcha.contact_html body)) [])
                      :: tr))
  /\ contains name line = true.
Proof.
  intros Hm Hk body name line.
  assert (T : truthy (prop (req_body req) "kind") = true) by (rewrite Hk; reflexivity).
  assert (B : or_else (req_body req) (VObj []) = req_body req)
    by exact (truthy_prop_or _ _ T).
  split; [|split; [|apply contains_end]].
  - intros m I.
    pose proof (outcomes_sent _ _ _ _ _ (Captcha_outcomes w req) I) as C.
    cbv beta in C. rewrite B in C.
    destruct (compose_mail _ _ C) as [(_ & _ & _ & _ & Hs & Hh & _)|(_ & Hq & _)].
    + rewrite contact_subject_text in Hs.
      destruct (converts _); [|discriminate].
      apply Ok_inj in Hs. apply text_of_inv in Hh.
      split; [symmetry; exact Hs|exact (proj2 Hh)].
    + rewrite Hk in Hq. discriminate.
  - intros tc Hc Hn He Hmsg Hf.
    assert (C : forall k, converts (prop body k) = true)
      by (intros k; apply fields_convert_prop; exact Hf).
    rewrite (Captcha_passes w req tc Hm T Hc).
    rewrite (Captcha_delivers w (req_body req)
               (mkMail line (render (Captcha.contact_html body)) [])).
    + destruct (transport w _); eexists _, _; reflexivity.
    + unfold Captcha.compose. rewrite Hk. simpl is_str. cbv iota.
      fold body. rewrite Hn, He, Hmsg. simpl negb. simpl orb. cbv iota.
      rewrite contact_subject_text, C. simpl.
      rewrite (text_of_ok _ (contact_html_evaluates body C)). reflexivity.
Qed.

Lemma contact_subject_line_witness :
  (exists (r : response) (tr : trace),
     Captcha.handler Sample.relay_up (Sample.post_json Sample.jane)
     = (Ok r, [] ++ SendMail (mkMail "📩 New Contact — Jane Doe"
                                (render (Captcha.contact_html Sample.jane)) [])
                 :: tr))
  /\ contains "Jane Doe" "📩 New Contact — Jane Doe" = true.
Proof.
  destruct (contact_subject_line Sample.relay_up (Sample.post_json Sample.jane)
              eq_refl eq_refl) as (_ & S & C).
  split; [exact (S [] eq_refl eq_refl eq_refl eq_refl eq_refl)|exact C].
Defined.

(** ** Uploads *)

Lemma delivers_dispatch (w : world) (m : mail) (label : string)
      (report : thrown -> result value) (before : trace) :
  reads_message report ->
  delivers_with (attachments m)
    (fst (dispatch w m label report), before ++ snd (dispatch w m label report)).
Proof.
  intros R.
  destruct (dispatch_ends w m label report R) as (r & after & -> & E).
  destruct m as [subj body atts]. exists r, before, after, subj, body.
  split; [reflexivity|exact E].
Qed.

Lemma Mixed_normalize_multipart (w : world) (req : request) (f : form) :
  startsWith (Mixed.getContentType req) "multipart/form-data" = true ->
  parsed req = Ok f ->
  exists tn,
    Mixed.normalize w req
    = (Ok (flatten (fields f), first_or_self (files_attachment f)), tn).
Proof.
  intros Hc Hp. unfold Mixed.normalize. cbv zeta. rewrite Hc, Hp.
  unfold console, bind, emit, lift, ret.
  destruct (first_or_self (files_attachment f)); eexists; reflexivity.
Qed.

Section Uploads.

Variable w : world.
Variable req : request.
Variable f : form.
Variable fl : File.

Hypothesis post : method req = "POST".
Hypothesis form_parsed : parsed req = Ok f.
Hypothesis text_fields :
  forallb (fun kv => form_value (snd kv)) (fields f) = true.
Hypothesis has_kind : truthy (prop (flatten (fields f)) "kind") = true.
Hypothesis has_email : truthy (prop (flatten (fields f)) "email") = true.

Let body := flatten (fields f).
Let named := or_else (originalFilename fl) (VStr "attachment").

Lemma NotifyForm_upload (atts : list attachment) (ta : trace) :
  truthy (prop body "name") = true ->
  first_of_array (files_attachment f) = Some fl ->
  NotifyForm.attach w (Some fl) = (Ok atts, ta) ->
  delivers_with atts (NotifyForm.handler w req)
  /\ exists t, NotifyForm.html w body (Some fl) = Ok t
               /\ In (Hole (toString (originalFilename fl))) t.
Proof.
  intros Hn Hf Ha.
  destruct (form_bodies_render w (fields f) (Some fl) text_fields)
    as ((t & Ht) & _).
  split.
  - rewrite (NotifyForm_accepts w req f atts ta t post form_parsed has_kind Hn
               has_email); [| rewrite Hf; exact Ha | rewrite Hf; exact Ht].
    apply (delivers_dispatch w (mkMail _ _ atts));
      first [exact read_message_reads|exact message_or_default_reads].
  - exists t. split; [exact Ht|].
    unfold NotifyForm.html in Ht. apply settle_ok in Ht. destruct Ht as [_ ->].
    apply in_or_app; right. apply in_or_app; right. apply in_or_app; right.
    apply in_or_app; left. unfold NotifyForm.attachment_line.
    rewrite put_converts; [simpl; tauto|].
    apply file_name_converts.
Qed.

Lemma NotifyOrigin_upload (atts : list attachment) (ta : trace) :
  truthy (prop body "name") = true ->
  first_of_array (files_attachment f) = Some fl ->
  NotifyOrigin.attach w (Some fl) = (Ok atts, ta) ->
  delivers_with atts (NotifyOrigin.handler w req)
  /\ exists t, NotifyOrigin.html w body (Some fl) = Ok t
               /\ In (Hole (toString named)) t.
Proof.
  intros Hn Hf Ha.
  destruct (form_bodies_render w (fields f) (Some fl) text_fields)
    as (_ & (t & Ht) & _).
  split.
  - rewrite (NotifyOrigin_accepts w req f atts ta t post form_parsed has_kind Hn
               has_email); [| rewrite Hf; exact Ha | rewrite Hf; exact Ht].
    apply (delivers_dispatch w (mkMail _ _ atts));
      first [exact read_message_reads|exact message_or_default_reads].
  - exists t. split; [exact Ht|].
    unfold NotifyOrigin.html in Ht. apply settle_ok in Ht. destruct Ht as [_ ->].
    apply in_or_app; right. apply in_or_app; right. apply in_or_app; right.
    apply in_or_app; left. unfold NotifyOrigin.attachment_line.
    rewrite put_converts; [simpl; tauto|].
    apply converts_or_else; [apply file_name_converts|reflexivity].
Qed.

Lemma Upload_upload (atts : list attachment) (ta : trace) :
  first_or_self (files_attachment f) = Some fl ->
  Upload.attach w (Some fl) = (Ok atts, ta) ->
  delivers_with atts (Upload.handler w req)
  /\ exists t, Upload.html body (Some fl) = Ok t
               /\ In (Hole (toString (originalFilename fl))) t.
Proof.
  intros Hf Ha.
  destruct (form_bodies_render w (fields f) (Some fl) text_fields)
    as (_ & _ & (t & Ht) & _).
  split.
  - rewrite (Upload_accepts w req f atts ta t post form_parsed has_kind
               has_email); [| rewrite Hf; exact Ha | rewrite Hf; exact Ht].
    apply (delivers_dispatch w (mkMail _ _ atts));
      first [exact read_message_reads|exact message_or_default_reads].
  - exists t. split; [exact Ht|].
    unfold Upload.html in Ht. apply settle_ok in Ht. destruct Ht as [_ ->].
    apply in_or_app; right. apply in_or_app; right. apply in_or_app; right.
    unfold short_foot. apply in_or_app; left.
    rewrite put_converts; [simpl; tauto|apply file_name_converts].
Qed.

Lemma Mixed_upload (atts : list attachment) (ta : trace) :
  startsWith (Mixed.getContentType req) "multipart/form-data" = true ->
  first_or_self (files_attachment f) = Some fl ->
  Mixed.attach w (Some fl) = (Ok atts, ta) ->
  delivers_with atts (Mixed.handler w req)
  /\ exists t, Mixed.html body (Some fl) = Ok t
               /\ In (Hole (toString (originalFilename fl))) t.
Proof.
  intros Hc Hf Ha.
  destruct (form_bodies_render w (fields f) (Some fl) text_fields)
    as (_ & _ & _ & (t & Ht)).
  destruct (Mixed_normalize_multipart w req f Hc form_parsed) as [tn Hn].
  rewrite Hf in Hn.
  split.
  - rewrite (Mixed_accepts w req body (Some fl) tn atts ta t post Hn has_kind
               has_email Ha Ht).
    rewrite app_assoc.
    apply (delivers_dispatch w (mkMail _ _ atts));
      first [exact read_message_reads|exact message_or_default_reads].
  - exists t. split; [exact Ht|].
    unfold Mixed.html in Ht. apply settle_ok in Ht. destruct Ht as [_ ->].
    apply in_or_app; right. apply in_or_app; right. apply in_or_app; right.
    unfold short_foot. apply in_or_app; left.
    rewrite put_converts; [simpl; tauto|apply file_name_converts].
Qed.

End Uploads.




(** X20 — an upload reaches the transport unchanged.  When the multipart
    parser reports a file part under [attachment] and its temporary file can
    be read, each multipart handler hands the transport a message with
    exactly one attachment: the bytes read, under the client's file name (or
    "attachment" when the name is missing, except in the second notify
    handler, which passes the name as it is). *)
Theorem upload_reaches_transport (w : world) (req : request) (f : form)
        (fl : File) (rest : list File) (data : string) :
  method req = "POST" ->
  parsed req = Ok f ->
  forallb (fun kv => form_value (snd kv)) (fields f) = true ->
  truthy (prop (flatten (fields f)) "kind") = true ->
  truthy (prop (flatten (fields f)) "email") = true ->
  files_attachment f = Files (fl :: rest) ->
  filepath fl <> "" ->
  existsSync w (filepath fl) = true ->
  readFileSync w (filepath fl) = Ok data ->
  let named :=
    mkAttachment (or_else (originalFilename fl) (VStr "attachment")) data in
  (truthy (prop (flatten (fields f)) "name") = true ->
   delivers_with [mkAttachment (originalFilename fl) data]
     (NotifyForm.handler w req)
   /\ delivers_with [named] (NotifyOrigin.handler w req))
  /\ delivers_with [named] (Upload.handler w req)
  /\ (startsWith (Mixed.getContentType req) "multipart/form-data" = true ->
      delivers_with [named] (Mixed.handler w req)).
Proof.
  intros Hm Hp Ht Hk He Hf Hpath Hex Hread named.
  apply String.eqb_neq in Hpath.
  assert (F1 : first_of_array (files_attachment f) = Some fl) by (rewrite Hf; reflexivity).
  assert (F2 : first_or_self (files_attachment f) = Some fl) by (rewrite Hf; reflexivity).
  split; [|split].
  - intros Hn. split.
    + eapply (NotifyForm_upload w req f fl Hm Hp Ht Hk He); [exact Hn|exact F1|].
      unfold NotifyForm.attach, readFile. rewrite Hread. reflexivity.
    + eapply (NotifyOrigin_upload w req f fl Hm Hp Ht Hk He); [exact Hn|exact F1|].
      unfold NotifyOrigin.attach, readFile. rewrite Hpath, Hread. reflexivity.
  - eapply (Upload_upload w req f fl Hm Hp Ht Hk He); [exact F2|].
    unfold Upload.attach, readFile. rewrite Hex, Hread. reflexivity.
  - intros Hc.
    eapply (Mixed_upload w req f fl Hm Hp Ht Hk He); [exact Hc|exact F2|].
    unfold Mixed.attach, readFile. rewrite Hpath, Hex, Hread. reflexivity.
Qed.

Lemma upload_reaches_transport_witness :
  let fl := mkFile "/tmp/upload_1" (Some "x.pdf") (Some "application/pdf") 7 in
  let req := Sample.post_form
               (Sample.form_fields [("kind", ["contact"]); ("name", ["Jane Doe"]);
                                    ("email", ["jane@x.com"])])
               (Files [fl]) in
  let named := mkAttachment (VStr "x.pdf") "PDFDATA" in
  (delivers_with [named] (NotifyForm.handler Sample.relay_up req)
   /\ delivers_with [named] (NotifyOrigin.handler Sample.relay_up req))
  /\ delivers_with [named] (Upload.handler Sample.relay_up req)
  /\ delivers_with [named] (Mixed.handler Sample.relay_up req).
Proof.
  intros fl req named.
  destruct (upload_reaches_transport Sample.relay_up req
              (mkForm (Sample.form_fields
                         [("kind", ["contact"]); ("name", ["Jane Doe"]);
                          ("email", ["jane@x.com"])]) (Files [fl]))
              fl [] "PDFDATA") as (A & B & C); try reflexivity.
  - apply String.eqb_neq. reflexivity.
  - split; [exact (A eq_refl)|]. split; [exact B|exact (C eq_refl)].
Defined.





(** ** Content types and methods *)

Lemma normalize_json (w : world) (req : request) :
  startsWith (Mixed.getContentType req) "multipart/form-data" = false ->
  exists (body : value) (tn : trace),
    Mixed.normalize w req = (Ok (body, None), tn)
    /\ sent tn = []
    /\ fst (Mixed.parseJsonBody w req) = Ok body.
Proof.
  intros Hc. destruct (parseJsonBody_total w req) as (v & tp & P).
  assert (S : sent tp = []).
  { revert P. unfold Mixed.parseJsonBody. cbv zeta.
    destruct (JSON_parse w _); simpl; intros [= _ <-]; reflexivity. }
  unfold Mixed.normalize. cbv zeta. rewrite Hc, P.
  destruct (startsWith _ "application/json");
    eexists _, _; (split; [reflexivity|split; [|reflexivity]]);
    simpl; rewrite !sent_app, S; reflexivity.
Qed.

Lemma Mixed_same_tail (w : world) (req req' : request)
      (x : value * option File) (t1 t2 : trace) :
  method req = method req' ->
  Mixed.normalize w req = (Ok x, t1) ->
  Mixed.normalize w req' = (Ok x, t2) ->
  sent t1 = [] -> sent t2 = [] ->
  fst (Mixed.handler w req) = fst (Mixed.handler w req')
  /\ sent (snd (Mixed.handler w req)) = sent (snd (Mixed.handler w req')).
Proof.
  intros Hm N1 N2 S1 S2. unfold Mixed.handler, on_post.
  rewrite <- Hm, N1, N2. destruct x as [body file].
  destruct (Mixed.attach w file) as [ra ta] eqn:A.
  open_monad.
  crunch_pairs; (split; [reflexivity|]);
    cbn [snd]; rewrite ?sent_app, ?S1, ?S2; reflexivity.
Qed.

Lemma Mixed_json_no_attachment (w : world) (req : request) (body : value)
      (tn : trace) (m : mail) :
  Mixed.normalize w req = (Ok (body, None), tn) ->
  sent tn = [] ->
  In m (sent (snd (Mixed.handler w req))) -> attachments m = [].
Proof.
  intros N S. unfold Mixed.handler, Mixed.attach, on_post. rewrite N.
  open_monad.
  crunch_pairs; cbn [snd]; rewrite ?sent_app, ?S; simpl;
    intros I; try contradiction; destruct I as [<-|[]]; reflexivity.
Qed.

(** X23 — outside multipart the content type does not matter: two requests
    with the same method and the same raw body get the same response and
    cause the same deliveries whether they are labelled [application/json]
    or anything else (or nothing); and a message sent for such a request
    never carries an attachment. *)
Theorem fallback_is_json (w : world) (req req' : request) :
  method req = method req' ->
  raw req = raw req' ->
  startsWith (Mixed.getContentType req) "multipart/form-data" = false ->
  startsWith (Mixed.getContentType req') "multipart/form-data" = false ->
  fst (Mixed.handler w req) = fst (Mixed.handler w req')
  /\ sent (snd (Mixed.handler w req)) = sent (snd (Mixed.handler w req'))
  /\ forall m : mail,
       In m (sent (snd (Mixed.handler w req))) -> attachments m = [].
Proof.
  intros Hm Hr Hc Hc'.
  destruct (normalize_json w req Hc) as (b1 & t1 & N1 & S1 & P1).
  destruct (normalize_json w req' Hc') as (b2 & t2 & N2 & S2 & P2).
  assert (E : b1 = b2).
  { unfold Mixed.parseJsonBody in P1, P2. rewrite Hr in P1.
    rewrite P1 in P2. congruence. }
  subst b2.
  destruct (Mixed_same_tail w req req' _ t1 t2 Hm N1 N2 S1 S2) as [A B].
  split; [exact A|]. split; [exact B|].
  intros m. exact (Mixed_json_no_attachment w req b1 t1 m N1 S1).
Qed.

Lemma fallback_is_json_witness :
  let text := Json.record_text [("kind", "contact"); ("email", "jane@x.com")] in
  let req := Sample.post_raw text in
  let req' := mkRequest "POST" (Some "text/plain") VUndef text
                (Throw (mkError (VStr "no multipart boundary"))) in
  fst (Mixed.handler Sample.relay_up req) = fst (Mixed.handler Sample.relay_up req')
  /\ sent (snd (Mixed.handler Sample.relay_up req))
     = sent (snd (Mixed.handler Sample.relay_up req'))
  /\ forall m : mail,
       In m (sent (snd (Mixed.handler Sample.relay_up req))) -> attachments m = [].
Proof.
  intros text req req'.
  apply (fallback_is_json Sample.relay_up req req'); reflexivity.
Defined.

(** X24 — only a POST does anything: for any other method no handler reads
    the body, calls a collaborator or logs; a preflight (OPTIONS) gets an
    empty 200 and every other method a 405 "Method not allowed". *)
Theorem only_post_is_served (w : world) (req : request)
        (h : world -> request -> M response) :
  In h handlers ->
  method req <> "POST" ->
  h w req
  = (Ok (if method req =? "OPTIONS" then End 200
         else Json 405 (obj_error "Method not allowed")), []).
Proof.
  intros H N. apply String.eqb_neq in N.
  assert (G : forall m, on_post req m
                        = (Ok (if method req =? "OPTIONS" then End 200
                               else Json 405 (obj_error "Method not allowed")), [])).
  { intros m. unfold on_post. rewrite N.
    destruct (method req =? "OPTIONS"); reflexivity. }
  unfold handlers in H. simpl in H.
  repeat (destruct H as [<-|H]; [apply G|]). contradiction.
Qed.

Lemma only_post_is_served_witness :
  Notify.handler Sample.relay_up
    (mkRequest "GET" None Sample.jane "" (Throw (mkError VUndef)))
  = (Ok (Json 405 (obj_error "Method not allowed")), []).
Proof.
  apply (only_post_is_served Sample.relay_up
           (mkRequest "GET" None Sample.jane "" (Throw (mkError VUndef)))
           Notify.handler).
  - simpl. tauto.
  - apply String.eqb_neq. reflexivity.
Defined.

(** ** Sender and recipients *)

















(** ** Values that cannot be converted, errors that cannot be read *)

Lemma unconvertible_truthy (v : value) : converts v = false -> truthy v = true.
Proof. destruct v; simpl; try discriminate; reflexivity. Qed.

Lemma unconvertible_or_else (v d : value) :
  converts v = false -> or_else v d = v.
Proof. intros H. unfold or_else. rewrite (unconvertible_truthy v H). reflexivity. Qed.

Lemma failure_put_fails (v : value) (t : template) :
  converts v = false -> failure (put v :: t) = Some no_primitive.
Proof. intros H. rewrite put_spec, H. reflexivity. Qed.

Lemma Notify_html_failure (body : value) :
  failure (Notify.html body)
  = if converts (prop body "name") && converts (prop body "email")
       && converts (prop body "phone") && converts (prop body "message")
    then None else Some no_primitive.
Proof.
  unfold Notify.html. rewrite !failure_lit.
  destruct (converts (prop body "name")) eqn:N;
    [rewrite failure_put by exact N|rewrite failure_put_fails by exact N; reflexivity].
  rewrite failure_lit.
  destruct (converts (prop body "email")) eqn:E;
    [rewrite failure_put by exact E|rewrite failure_put_fails by exact E; reflexivity].
  rewrite failure_lit.
  destruct (converts (prop body "phone")) eqn:P.
  2:{ rewrite (unconvertible_or_else _ _ P), failure_put_fails by exact P.
      reflexivity. }
  rewrite failure_put by (apply converts_or_else; [exact P|reflexivity]).
  rewrite failure_lit.
  destruct (converts (prop body "message")) eqn:M.
  2:{ rewrite (unconvertible_or_else _ _ M), failure_put_fails by exact M.
      reflexivity. }
  rewrite failure_put by (apply converts_or_else; [exact M|reflexivity]).
  reflexivity.
Qed.

(** X26 — the first notify handler converts [name], [email], [phone] and
    [message] to text while it evaluates its template.  If one of them
    cannot be converted (an object with a [toString] entry of its own, or
    an array that holds one), a request that passed the required-field
    check ends in a 500 that carries the [TypeError] of the conversion,
    which is logged, and nothing is sent; if all four can, the message is
    handed to the transport. *)
Theorem unconvertible_field_fails_request (w : world) (req : request) :
  method req = "POST" ->
  truthy (prop (req_body req) "kind") = true ->
  truthy (prop (req_body req) "name") = true ->
  truthy (prop (req_body req) "email") = true ->
  let body := req_body req in
  let convertible :=
    converts (prop body "name") && converts (prop body "email")
    && converts (prop body "phone") && converts (prop body "message") in
  (convertible = false ->
   Notify.handler w req
   = (Ok (Json 500 (obj_failure (VStr "Cannot convert object to primitive value"))),
      [Console error [LV (VStr "❌ Email sending error:"); LE no_primitive]]))
  /\ (convertible = true -> delivers_with [] (Notify.handler w req)).
Proof.
  intros Hm Hk Hn He body convertible.
  pose proof (Notify_html_failure body) as F. fold convertible in F.
  split; intros C; rewrite C in F.
  - unfold Notify.handler. rewrite on_post_POST by exact Hm. cbv zeta.
    rewrite (truthy_prop_or _ _ Hk), Hk, Hn, He. simpl negb. simpl orb. cbv iota.
    fold body. unfold settle. rewrite F. reflexivity.
  - rewrite (Notify_accepts w req (Notify.html body) Hm Hk Hn He).
    + destruct (dispatch_ends w (mkMail (plain_subject (req_body req))
                  (render (Notify.html body)) []) "❌ Email sending error:"
                  read_message read_message_reads) as (r & after & -> & E).
      exists r, [], after, (plain_subject (req_body req)),
        (render (Notify.html body)). split; [reflexivity|exact E].
    + unfold settle. fold body. rewrite F. reflexivity.
Qed.

Lemma unconvertible_field_fails_request_witness :
  let body := VObj [("kind", VStr "contact");
                    ("name", VObj [("toString", VNum "1")]);
                    ("email", VStr "jane@x.com")] in
  Notify.handler Sample.relay_up (Sample.post_json body)
  = (Ok (Json 500 (obj_failure (VStr "Cannot convert object to primitive value"))),
     [Console error [LV (VStr "❌ Email sending error:"); LE no_primitive]]).
Proof.
  intros body.
  exact (proj1 (unconvertible_field_fails_request Sample.relay_up
                  (Sample.post_json body) eq_refl eq_refl eq_refl eq_refl)
               eq_refl).
Defined.

(** What a refused message leads to, from the outcomes of the handler. *)
Lemma outcomes_refused (T : thrown -> value -> Prop) (P : mail -> Prop)
      (w : world) (x : M response) (m : mail) (e : thrown) :
  outcomes T P w x ->
  In m (sent (snd x)) -> transport w m = Throw e ->
  failed_on T e (fst x) (snd x).
Proof.
  intros (r & tr & -> & C) I R. simpl in *.
  destruct C as [[N _]|[(m1 & id & S & Tr & _)|(m1 & e1 & S & Tr & F & _)]];
    rewrite ?N, ?S in I; simpl in I; try contradiction;
    destruct I as [<-|[]]; rewrite Tr in R; [discriminate|].
  injection R as <-. exact F.
Qed.

(** X27 — the four handlers whose [catch] block reads [err.message]
    unguarded write no response when the transport rejects with [null] or
    [undefined]: after logging the rejection they throw the [TypeError] of
    the property read.  With any other rejection they answer 500 with the
    rejection's own message. *)
Theorem nullish_rejection_escapes (w : world) (req : request)
        (h : world -> request -> M response) (m : mail) (e : thrown) :
  In h unguarded_handlers ->
  In m (sent (snd (h w req))) ->
  transport w m = Throw e ->
  (e = thrown_null \/ e = thrown_undefined ->
   exists e' : thrown,
     read_message e = Throw e' /\ fst (h w req) = Throw e')
  /\ (forall text : value,
        e = mkError text ->
        fst (h w req) = Ok (Json 500 (obj_failure text))).
Proof.
  intros H I R.
  assert (F : failed_on own_message e (fst (h w req)) (snd (h w req))).
  { unfold unguarded_handlers in H. simpl in H.
    destruct H as [<-|[<-|[<-|[<-|[]]]]].
    - exact (outcomes_refused _ _ _ _ _ _ (Notify_outcomes w req) I R).
    - exact (outcomes_refused _ _ _ _ _ _ (Styled_outcomes w req) I R).
    - exact (outcomes_refused _ _ _ _ _ _ (NotifyForm_outcomes w req) I R).
    - exact (outcomes_refused _ _ _ _ _ _ (Upload_outcomes w req) I R). }
  destruct F as (_ & [(text & A & O)|(e' & O & A)]); unfold own_message in *.
  - split.
    + intros [-> | ->]; discriminate.
    + intros text' ->. simpl in O. injection O as <-. exact A.
  - split.
    + intros _. exists e'. auto.
    + intros text' ->. discriminate.
Qed.

Lemma nullish_rejection_escapes_witness :
  exists e' : thrown,
    read_message thrown_undefined = Throw e'
    /\ fst (Notify.handler Scenario.silent_failure (Sample.post_json Sample.jane))
       = Throw e'.
Proof.
  destruct (nullish_rejection_escapes Scenario.silent_failure
              (Sample.post_json Sample.jane) Notify.handler
              (mkMail "New Contact Message" (render (Notify.html Sample.jane)) [])
              thrown_undefined) as [A _].
  - simpl. tauto.
  - left. reflexivity.
  - reflexivity.
  - apply A. right. reflexivity.
Defined.
